(** * pubmed-affiliation-filter: the classifier, the record extractors, the
      filtering loop, the rate limit, the CSV rows and the command line,
      embedded from [filters.py], [api.py], [utils.py] and [cli.py].

    Modelling conventions.
    - A Python [str] is the list of its code points ([pystr]).  [str.upper],
      [str.lower], [\w] and [str.isprintable] are those of CPython 3.11, whose
      character database is Unicode 14.0.0; their tables are listed below.
      A string literal stands for the code points of its characters.
    - A raw record ([Dict[str, Any]], as handed over by [Entrez.read]) is a
      value of [pyval]: [None], a string, a list, or a dict with string keys.
      A dict is an association list in insertion order, looked up by its first
      binding.
    - An exception is a value [Raise e] of [result]; [try ... except] is
      [try_except].  Only the class of an exception is kept.
    - A loop that mutates an accumulator inside a [try] returns the accumulator
      together with the exception that interrupted it, if any, so that what
      was appended before the exception survives the [except] clause.
    - The request rate, the clock readings and the two clock fields of the
      fetcher are IEEE doubles.  The remote service is a pair of functions
      giving the parsed answers of the two calls; the readings of the clock
      and the outcome of writing the CSV file are inputs as well. *)

From Stdlib Require Import String Ascii List NArith ZArith Bool Lia.
From Stdlib Require Import Floats DecimalString.
From stdpp Require Import base option list gmap.

#[local] Set Warnings "-register-all,-clear-no-such-hyp,-via-type-remapping,-via-type-mismatch,-notation-for-abbreviation".

(** ** Python strings *)

Notation pystr := (list N) (only parsing).

(** The code points that a sequence of UTF-8 bytes encodes, and back: how a
    literal of this file is read and shown. *)
Inductive code_points :=
| no_code
| a_code (c : N) (rest : code_points).

Definition continuation (b : Byte.byte) : N := N.land (Byte.to_N b) 63.

Fixpoint utf8_decode (bytes : list Byte.byte) : code_points :=
  match bytes with
  | [] => no_code
  | b :: rest =>
      let n := Byte.to_N b in
      if (n <? 128)%N then a_code n (utf8_decode rest)
      else if (n <? 224)%N then
        match rest with
        | b1 :: rest' => a_code (N.land n 31 * 64 + continuation b1)%N (utf8_decode rest')
        | _ => a_code n no_code
        end
      else if (n <? 240)%N then
        match rest with
        | b1 :: b2 :: rest' =>
            a_code ((N.land n 15 * 64 + continuation b1) * 64 + continuation b2)%N
                   (utf8_decode rest')
        | _ => a_code n no_code
        end
      else
        match rest with
        | b1 :: b2 :: b3 :: rest' =>
            a_code (((N.land n 7 * 64 + continuation b1) * 64 + continuation b2) * 64
                    + continuation b3)%N
                   (utf8_decode rest')
        | _ => a_code n no_code
        end
  end.

Definition byte_of (n : N) : Byte.byte := default Byte.x00 (Byte.of_N n).

Fixpoint utf8_encode (s : code_points) : list Byte.byte :=
  match s with
  | no_code => []
  | a_code c rest =>
      (if (c <? 128)%N then [byte_of c]
       else if (c <? 2048)%N then [byte_of (192 + c / 64); byte_of (128 + c mod 64)]
       else if (c <? 65536)%N then
         [byte_of (224 + c / 4096); byte_of (128 + (c / 64) mod 64); byte_of (128 + c mod 64)]
       else [byte_of (240 + c / 262144); byte_of (128 + (c / 4096) mod 64);
             byte_of (128 + (c / 64) mod 64); byte_of (128 + c mod 64)])%N
      ++ utf8_encode rest
  end.

(** The type that literals are read at. *)
Definition literal : Type := list N.

Declare Scope pystr_scope.
Delimit Scope pystr_scope with pystr.
String Notation literal utf8_decode utf8_encode
  (via code_points mapping [[nil] => no_code, [cons] => a_code]) : pystr_scope.
#[local] Open Scope pystr_scope.

(** The code point of an ASCII character. *)
Definition code (c : ascii) : N := N_of_ascii c.
Arguments code c%_char.

(** A string of the Standard Library, character by character. *)
Definition of_ascii_string (s : string) : pystr := map N_of_ascii (list_ascii_of_string s).

(** The characters whose upper-casing is not one character, with that upper-casing. *)
Definition upper_special : list (N * list N) :=
  [ (223, [83; 83]); (329, [700; 78]); (496, [74; 780]); (912, [921; 776; 769]);
    (944, [933; 776; 769]); (1415, [1333; 1362]); (7830, [72; 817]); (7831, [84; 776]);
    (7832, [87; 778]); (7833, [89; 778]); (7834, [65; 702]); (8016, [933; 787]);
    (8018, [933; 787; 768]); (8020, [933; 787; 769]); (8022, [933; 787; 834]);
    (8064, [7944; 921]); (8065, [7945; 921]); (8066, [7946; 921]); (8067, [7947; 921]);
    (8068, [7948; 921]); (8069, [7949; 921]); (8070, [7950; 921]); (8071, [7951; 921]);
    (8072, [7944; 921]); (8073, [7945; 921]); (8074, [7946; 921]); (8075, [7947; 921]);
    (8076, [7948; 921]); (8077, [7949; 921]); (8078, [7950; 921]); (8079, [7951; 921]);
    (8080, [7976; 921]); (8081, [7977; 921]); (8082, [7978; 921]); (8083, [7979; 921]);
    (8084, [7980; 921]); (8085, [7981; 921]); (8086, [7982; 921]); (8087, [7983; 921]);
    (8088, [7976; 921]); (8089, [7977; 921]); (8090, [7978; 921]); (8091, [7979; 921]);
    (8092, [7980; 921]); (8093, [7981; 921]); (8094, [7982; 921]); (8095, [7983; 921]);
    (8096, [8040; 921]); (8097, [8041; 921]); (8098, [8042; 921]); (8099, [8043; 921]);
    (8100, [8044; 921]); (8101, [8045; 921]); (8102, [8046; 921]); (8103, [8047; 921]);
    (8104, [8040; 921]); (8105, [8041; 921]); (8106, [8042; 921]); (8107, [8043; 921]);
    (8108, [8044; 921]); (8109, [8045; 921]); (8110, [8046; 921]); (8111, [8047; 921]);
    (8114, [8122; 921]); (8115, [913; 921]); (8116, [902; 921]); (8118, [913; 834]);
    (8119, [913; 834; 921]); (8124, [913; 921]); (8130, [8138; 921]); (8131, [919; 921]);
    (8132, [905; 921]); (8134, [919; 834]); (8135, [919; 834; 921]); (8140, [919; 921]);
    (8146, [921; 776; 768]); (8147, [921; 776; 769]); (8150, [921; 834]);
    (8151, [921; 776; 834]); (8162, [933; 776; 768]); (8163, [933; 776; 769]);
    (8164, [929; 787]); (8166, [933; 834]); (8167, [933; 776; 834]); (8178, [8186; 921]);
    (8179, [937; 921]); (8180, [911; 921]); (8182, [937; 834]); (8183, [937; 834; 921]);
    (8188, [937; 921]); (64256, [70; 70]); (64257, [70; 73]); (64258, [70; 76]);
    (64259, [70; 70; 73]); (64260, [70; 70; 76]); (64261, [83; 84]); (64262, [83; 84]);
    (64275, [1348; 1350]); (64276, [1348; 1333]); (64277, [1348; 1339]); (64278, [1358; 1350]);
    (64279, [1348; 1341]) ]%N.

(** The other characters that [upper] moves: of the characters from [lo] to [hi] every [step]-th, the first to [target], the next to [target + step], and so on. *)
Definition upper_simple : list (N * N * N * N) :=
  [ (97, 122, 1, 65); (181, 181, 1, 924); (224, 246, 1, 192); (248, 254, 1, 216);
    (255, 255, 1, 376); (257, 303, 2, 256); (305, 305, 1, 73); (307, 311, 2, 306);
    (314, 328, 2, 313); (331, 375, 2, 330); (378, 382, 2, 377); (383, 383, 1, 83);
    (384, 384, 1, 579); (387, 389, 2, 386); (392, 392, 1, 391); (396, 396, 1, 395);
    (402, 402, 1, 401); (405, 405, 1, 502); (409, 409, 1, 408); (410, 410, 1, 573);
    (414, 414, 1, 544); (417, 421, 2, 416); (424, 424, 1, 423); (429, 429, 1, 428);
    (432, 432, 1, 431); (436, 438, 2, 435); (441, 441, 1, 440); (445, 445, 1, 444);
    (447, 447, 1, 503); (453, 453, 1, 452); (454, 454, 1, 452); (456, 456, 1, 455);
    (457, 457, 1, 455); (459, 459, 1, 458); (460, 460, 1, 458); (462, 476, 2, 461);
    (477, 477, 1, 398); (479, 495, 2, 478); (498, 498, 1, 497); (499, 499, 1, 497);
    (501, 501, 1, 500); (505, 543, 2, 504); (547, 563, 2, 546); (572, 572, 1, 571);
    (575, 576, 1, 11390); (578, 578, 1, 577); (583, 591, 2, 582); (592, 592, 1, 11375);
    (593, 593, 1, 11373); (594, 594, 1, 11376); (595, 595, 1, 385); (596, 596, 1, 390);
    (598, 599, 1, 393); (601, 601, 1, 399); (603, 603, 1, 400); (604, 604, 1, 42923);
    (608, 608, 1, 403); (609, 609, 1, 42924); (611, 611, 1, 404); (613, 613, 1, 42893);
    (614, 614, 1, 42922); (616, 616, 1, 407); (617, 617, 1, 406); (618, 618, 1, 42926);
    (619, 619, 1, 11362); (620, 620, 1, 42925); (623, 623, 1, 412); (625, 625, 1, 11374);
    (626, 626, 1, 413); (629, 629, 1, 415); (637, 637, 1, 11364); (640, 640, 1, 422);
    (642, 642, 1, 42949); (643, 643, 1, 425); (647, 647, 1, 42929); (648, 648, 1, 430);
    (649, 649, 1, 580); (650, 651, 1, 433); (652, 652, 1, 581); (658, 658, 1, 439);
    (669, 669, 1, 42930); (670, 670, 1, 42928); (837, 837, 1, 921); (881, 883, 2, 880);
    (887, 887, 1, 886); (891, 893, 1, 1021); (940, 940, 1, 902); (941, 943, 1, 904);
    (945, 961, 1, 913); (962, 962, 1, 931); (963, 971, 1, 931); (972, 972, 1, 908);
    (973, 974, 1, 910); (976, 976, 1, 914); (977, 977, 1, 920); (981, 981, 1, 934);
    (982, 982, 1, 928); (983, 983, 1, 975); (985, 1007, 2, 984); (1008, 1008, 1, 922);
    (1009, 1009, 1, 929); (1010, 1010, 1, 1017); (1011, 1011, 1, 895); (1013, 1013, 1, 917);
    (1016, 1016, 1, 1015); (1019, 1019, 1, 1018); (1072, 1103, 1, 1040); (1104, 1119, 1, 1024);
    (1121, 1153, 2, 1120); (1163, 1215, 2, 1162); (1218, 1230, 2, 1217); (1231, 1231, 1, 1216);
    (1233, 1327, 2, 1232); (1377, 1414, 1, 1329); (4304, 4346, 1, 7312); (4349, 4351, 1, 7357);
    (5112, 5117, 1, 5104); (7296, 7296, 1, 1042); (7297, 7297, 1, 1044); (7298, 7298, 1, 1054);
    (7299, 7300, 1, 1057); (7301, 7301, 1, 1058); (7302, 7302, 1, 1066); (7303, 7303, 1, 1122);
    (7304, 7304, 1, 42570); (7545, 7545, 1, 42877); (7549, 7549, 1, 11363);
    (7566, 7566, 1, 42950); (7681, 7829, 2, 7680); (7835, 7835, 1, 7776); (7841, 7935, 2, 7840);
    (7936, 7943, 1, 7944); (7952, 7957, 1, 7960); (7968, 7975, 1, 7976); (7984, 7991, 1, 7992);
    (8000, 8005, 1, 8008); (8017, 8023, 2, 8025); (8032, 8039, 1, 8040); (8048, 8049, 1, 8122);
    (8050, 8053, 1, 8136); (8054, 8055, 1, 8154); (8056, 8057, 1, 8184); (8058, 8059, 1, 8170);
    (8060, 8061, 1, 8186); (8112, 8113, 1, 8120); (8126, 8126, 1, 921); (8144, 8145, 1, 8152);
    (8160, 8161, 1, 8168); (8165, 8165, 1, 8172); (8526, 8526, 1, 8498); (8560, 8575, 1, 8544);
    (8580, 8580, 1, 8579); (9424, 9449, 1, 9398); (11312, 11359, 1, 11264);
    (11361, 11361, 1, 11360); (11365, 11365, 1, 570); (11366, 11366, 1, 574);
    (11368, 11372, 2, 11367); (11379, 11379, 1, 11378); (11382, 11382, 1, 11381);
    (11393, 11491, 2, 11392); (11500, 11502, 2, 11499); (11507, 11507, 1, 11506);
    (11520, 11557, 1, 4256); (11559, 11559, 1, 4295); (11565, 11565, 1, 4301);
    (42561, 42605, 2, 42560); (42625, 42651, 2, 42624); (42787, 42799, 2, 42786);
    (42803, 42863, 2, 42802); (42874, 42876, 2, 42873); (42879, 42887, 2, 42878);
    (42892, 42892, 1, 42891); (42897, 42899, 2, 42896); (42900, 42900, 1, 42948);
    (42903, 42921, 2, 42902); (42933, 42947, 2, 42932); (42952, 42954, 2, 42951);
    (42961, 42961, 1, 42960); (42967, 42969, 2, 42966); (42998, 42998, 1, 42997);
    (43859, 43859, 1, 42931); (43888, 43967, 1, 5024); (65345, 65370, 1, 65313);
    (66600, 66639, 1, 66560); (66776, 66811, 1, 66736); (66967, 66977, 1, 66928);
    (66979, 66993, 1, 66940); (66995, 67001, 1, 66956); (67003, 67004, 1, 66964);
    (68800, 68850, 1, 68736); (71872, 71903, 1, 71840); (93792, 93823, 1, 93760);
    (125218, 125251, 1, 125184) ]%N.

(** The characters whose lower-casing is not one character. *)
Definition lower_special : list (N * list N) :=
  [ (304, [105; 775]) ]%N.

(** The other characters that [lower] moves. *)
Definition lower_simple : list (N * N * N * N) :=
  [ (65, 90, 1, 97); (192, 214, 1, 224); (216, 222, 1, 248); (256, 302, 2, 257);
    (306, 310, 2, 307); (313, 327, 2, 314); (330, 374, 2, 331); (376, 376, 1, 255);
    (377, 381, 2, 378); (385, 385, 1, 595); (386, 388, 2, 387); (390, 390, 1, 596);
    (391, 391, 1, 392); (393, 394, 1, 598); (395, 395, 1, 396); (398, 398, 1, 477);
    (399, 399, 1, 601); (400, 400, 1, 603); (401, 401, 1, 402); (403, 403, 1, 608);
    (404, 404, 1, 611); (406, 406, 1, 617); (407, 407, 1, 616); (408, 408, 1, 409);
    (412, 412, 1, 623); (413, 413, 1, 626); (415, 415, 1, 629); (416, 420, 2, 417);
    (422, 422, 1, 640); (423, 423, 1, 424); (425, 425, 1, 643); (428, 428, 1, 429);
    (430, 430, 1, 648); (431, 431, 1, 432); (433, 434, 1, 650); (435, 437, 2, 436);
    (439, 439, 1, 658); (440, 440, 1, 441); (444, 444, 1, 445); (452, 452, 1, 454);
    (453, 453, 1, 454); (455, 455, 1, 457); (456, 456, 1, 457); (458, 458, 1, 460);
    (459, 475, 2, 460); (478, 494, 2, 479); (497, 497, 1, 499); (498, 500, 2, 499);
    (502, 502, 1, 405); (503, 503, 1, 447); (504, 542, 2, 505); (544, 544, 1, 414);
    (546, 562, 2, 547); (570, 570, 1, 11365); (571, 571, 1, 572); (573, 573, 1, 410);
    (574, 574, 1, 11366); (577, 577, 1, 578); (579, 579, 1, 384); (580, 580, 1, 649);
    (581, 581, 1, 652); (582, 590, 2, 583); (880, 882, 2, 881); (886, 886, 1, 887);
    (895, 895, 1, 1011); (902, 902, 1, 940); (904, 906, 1, 941); (908, 908, 1, 972);
    (910, 911, 1, 973); (913, 929, 1, 945); (931, 939, 1, 963); (975, 975, 1, 983);
    (984, 1006, 2, 985); (1012, 1012, 1, 952); (1015, 1015, 1, 1016); (1017, 1017, 1, 1010);
    (1018, 1018, 1, 1019); (1021, 1023, 1, 891); (1024, 1039, 1, 1104); (1040, 1071, 1, 1072);
    (1120, 1152, 2, 1121); (1162, 1214, 2, 1163); (1216, 1216, 1, 1231); (1217, 1229, 2, 1218);
    (1232, 1326, 2, 1233); (1329, 1366, 1, 1377); (4256, 4293, 1, 11520);
    (4295, 4295, 1, 11559); (4301, 4301, 1, 11565); (5024, 5103, 1, 43888);
    (5104, 5109, 1, 5112); (7312, 7354, 1, 4304); (7357, 7359, 1, 4349); (7680, 7828, 2, 7681);
    (7838, 7838, 1, 223); (7840, 7934, 2, 7841); (7944, 7951, 1, 7936); (7960, 7965, 1, 7952);
    (7976, 7983, 1, 7968); (7992, 7999, 1, 7984); (8008, 8013, 1, 8000); (8025, 8031, 2, 8017);
    (8040, 8047, 1, 8032); (8072, 8079, 1, 8064); (8088, 8095, 1, 8080); (8104, 8111, 1, 8096);
    (8120, 8121, 1, 8112); (8122, 8123, 1, 8048); (8124, 8124, 1, 8115); (8136, 8139, 1, 8050);
    (8140, 8140, 1, 8131); (8152, 8153, 1, 8144); (8154, 8155, 1, 8054); (8168, 8169, 1, 8160);
    (8170, 8171, 1, 8058); (8172, 8172, 1, 8165); (8184, 8185, 1, 8056); (8186, 8187, 1, 8060);
    (8188, 8188, 1, 8179); (8486, 8486, 1, 969); (8490, 8490, 1, 107); (8491, 8491, 1, 229);
    (8498, 8498, 1, 8526); (8544, 8559, 1, 8560); (8579, 8579, 1, 8580); (9398, 9423, 1, 9424);
    (11264, 11311, 1, 11312); (11360, 11360, 1, 11361); (11362, 11362, 1, 619);
    (11363, 11363, 1, 7549); (11364, 11364, 1, 637); (11367, 11371, 2, 11368);
    (11373, 11373, 1, 593); (11374, 11374, 1, 625); (11375, 11375, 1, 592);
    (11376, 11376, 1, 594); (11378, 11378, 1, 11379); (11381, 11381, 1, 11382);
    (11390, 11391, 1, 575); (11392, 11490, 2, 11393); (11499, 11501, 2, 11500);
    (11506, 11506, 1, 11507); (42560, 42604, 2, 42561); (42624, 42650, 2, 42625);
    (42786, 42798, 2, 42787); (42802, 42862, 2, 42803); (42873, 42875, 2, 42874);
    (42877, 42877, 1, 7545); (42878, 42886, 2, 42879); (42891, 42891, 1, 42892);
    (42893, 42893, 1, 613); (42896, 42898, 2, 42897); (42902, 42920, 2, 42903);
    (42922, 42922, 1, 614); (42923, 42923, 1, 604); (42924, 42924, 1, 609);
    (42925, 42925, 1, 620); (42926, 42926, 1, 618); (42928, 42928, 1, 670);
    (42929, 42929, 1, 647); (42930, 42930, 1, 669); (42931, 42931, 1, 43859);
    (42932, 42946, 2, 42933); (42948, 42948, 1, 42900); (42949, 42949, 1, 642);
    (42950, 42950, 1, 7566); (42951, 42953, 2, 42952); (42960, 42960, 1, 42961);
    (42966, 42968, 2, 42967); (42997, 42997, 1, 42998); (65313, 65338, 1, 65345);
    (66560, 66599, 1, 66600); (66736, 66771, 1, 66776); (66928, 66938, 1, 66967);
    (66940, 66954, 1, 66979); (66956, 66962, 1, 66995); (66964, 66965, 1, 67003);
    (68736, 68786, 1, 68800); (71840, 71871, 1, 71872); (93760, 93791, 1, 93792);
    (125184, 125217, 1, 125218) ]%N.

(** The cased characters (upper-case, lower-case or title-case). *)
Definition cased_ranges : list (N * N) :=
  [ (65, 90); (97, 122); (170, 170); (181, 181); (186, 186); (192, 214); (216, 246); (248, 442);
    (444, 447); (452, 659); (661, 696); (704, 705); (736, 740); (837, 837); (880, 883);
    (886, 887); (890, 893); (895, 895); (902, 902); (904, 906); (908, 908); (910, 929);
    (931, 1013); (1015, 1153); (1162, 1327); (1329, 1366); (1376, 1416); (4256, 4293);
    (4295, 4295); (4301, 4301); (4304, 4346); (4349, 4351); (5024, 5109); (5112, 5117);
    (7296, 7304); (7312, 7354); (7357, 7359); (7424, 7615); (7680, 7957); (7960, 7965);
    (7968, 8005); (8008, 8013); (8016, 8023); (8025, 8025); (8027, 8027); (8029, 8029);
    (8031, 8061); (8064, 8116); (8118, 8124); (8126, 8126); (8130, 8132); (8134, 8140);
    (8144, 8147); (8150, 8155); (8160, 8172); (8178, 8180); (8182, 8188); (8305, 8305);
    (8319, 8319); (8336, 8348); (8450, 8450); (8455, 8455); (8458, 8467); (8469, 8469);
    (8473, 8477); (8484, 8484); (8486, 8486); (8488, 8488); (8490, 8493); (8495, 8500);
    (8505, 8505); (8508, 8511); (8517, 8521); (8526, 8526); (8544, 8575); (8579, 8580);
    (9398, 9449); (11264, 11492); (11499, 11502); (11506, 11507); (11520, 11557);
    (11559, 11559); (11565, 11565); (42560, 42605); (42624, 42653); (42786, 42887);
    (42891, 42894); (42896, 42954); (42960, 42961); (42963, 42963); (42965, 42969);
    (42997, 42998); (43000, 43002); (43824, 43866); (43868, 43880); (43888, 43967);
    (64256, 64262); (64275, 64279); (65313, 65338); (65345, 65370); (66560, 66639);
    (66736, 66771); (66776, 66811); (66928, 66938); (66940, 66954); (66956, 66962);
    (66964, 66965); (66967, 66977); (66979, 66993); (66995, 67001); (67003, 67004);
    (67456, 67456); (67459, 67461); (67463, 67504); (67506, 67514); (68736, 68786);
    (68800, 68850); (71840, 71903); (93760, 93823); (119808, 119892); (119894, 119964);
    (119966, 119967); (119970, 119970); (119973, 119974); (119977, 119980); (119982, 119993);
    (119995, 119995); (119997, 120003); (120005, 120069); (120071, 120074); (120077, 120084);
    (120086, 120092); (120094, 120121); (120123, 120126); (120128, 120132); (120134, 120134);
    (120138, 120144); (120146, 120485); (120488, 120512); (120514, 120538); (120540, 120570);
    (120572, 120596); (120598, 120628); (120630, 120654); (120656, 120686); (120688, 120712);
    (120714, 120744); (120746, 120770); (120772, 120779); (122624, 122633); (122635, 122654);
    (125184, 125251); (127280, 127305); (127312, 127337); (127344, 127369) ]%N.

(** The case-ignorable characters. *)
Definition case_ignorable_ranges : list (N * N) :=
  [ (39, 39); (46, 46); (58, 58); (94, 94); (96, 96); (168, 168); (173, 173); (175, 175);
    (180, 180); (183, 184); (688, 879); (884, 885); (890, 890); (900, 901); (903, 903);
    (1155, 1161); (1369, 1369); (1375, 1375); (1425, 1469); (1471, 1471); (1473, 1474);
    (1476, 1477); (1479, 1479); (1524, 1524); (1536, 1541); (1552, 1562); (1564, 1564);
    (1600, 1600); (1611, 1631); (1648, 1648); (1750, 1757); (1759, 1768); (1770, 1773);
    (1807, 1807); (1809, 1809); (1840, 1866); (1958, 1968); (2027, 2037); (2042, 2042);
    (2045, 2045); (2070, 2093); (2137, 2139); (2184, 2184); (2192, 2193); (2200, 2207);
    (2249, 2306); (2362, 2362); (2364, 2364); (2369, 2376); (2381, 2381); (2385, 2391);
    (2402, 2403); (2417, 2417); (2433, 2433); (2492, 2492); (2497, 2500); (2509, 2509);
    (2530, 2531); (2558, 2558); (2561, 2562); (2620, 2620); (2625, 2626); (2631, 2632);
    (2635, 2637); (2641, 2641); (2672, 2673); (2677, 2677); (2689, 2690); (2748, 2748);
    (2753, 2757); (2759, 2760); (2765, 2765); (2786, 2787); (2810, 2815); (2817, 2817);
    (2876, 2876); (2879, 2879); (2881, 2884); (2893, 2893); (2901, 2902); (2914, 2915);
    (2946, 2946); (3008, 3008); (3021, 3021); (3072, 3072); (3076, 3076); (3132, 3132);
    (3134, 3136); (3142, 3144); (3146, 3149); (3157, 3158); (3170, 3171); (3201, 3201);
    (3260, 3260); (3263, 3263); (3270, 3270); (3276, 3277); (3298, 3299); (3328, 3329);
    (3387, 3388); (3393, 3396); (3405, 3405); (3426, 3427); (3457, 3457); (3530, 3530);
    (3538, 3540); (3542, 3542); (3633, 3633); (3636, 3642); (3654, 3662); (3761, 3761);
    (3764, 3772); (3782, 3782); (3784, 3789); (3864, 3865); (3893, 3893); (3895, 3895);
    (3897, 3897); (3953, 3966); (3968, 3972); (3974, 3975); (3981, 3991); (3993, 4028);
    (4038, 4038); (4141, 4144); (4146, 4151); (4153, 4154); (4157, 4158); (4184, 4185);
    (4190, 4192); (4209, 4212); (4226, 4226); (4229, 4230); (4237, 4237); (4253, 4253);
    (4348, 4348); (4957, 4959); (5906, 5908); (5938, 5939); (5970, 5971); (6002, 6003);
    (6068, 6069); (6071, 6077); (6086, 6086); (6089, 6099); (6103, 6103); (6109, 6109);
    (6155, 6159); (6211, 6211); (6277, 6278); (6313, 6313); (6432, 6434); (6439, 6440);
    (6450, 6450); (6457, 6459); (6679, 6680); (6683, 6683); (6742, 6742); (6744, 6750);
    (6752, 6752); (6754, 6754); (6757, 6764); (6771, 6780); (6783, 6783); (6823, 6823);
    (6832, 6862); (6912, 6915); (6964, 6964); (6966, 6970); (6972, 6972); (6978, 6978);
    (7019, 7027); (7040, 7041); (7074, 7077); (7080, 7081); (7083, 7085); (7142, 7142);
    (7144, 7145); (7149, 7149); (7151, 7153); (7212, 7219); (7222, 7223); (7288, 7293);
    (7376, 7378); (7380, 7392); (7394, 7400); (7405, 7405); (7412, 7412); (7416, 7417);
    (7468, 7530); (7544, 7544); (7579, 7679); (8125, 8125); (8127, 8129); (8141, 8143);
    (8157, 8159); (8173, 8175); (8189, 8190); (8203, 8207); (8216, 8217); (8228, 8228);
    (8231, 8231); (8234, 8238); (8288, 8292); (8294, 8303); (8305, 8305); (8319, 8319);
    (8336, 8348); (8400, 8432); (11388, 11389); (11503, 11505); (11631, 11631); (11647, 11647);
    (11744, 11775); (11823, 11823); (12293, 12293); (12330, 12333); (12337, 12341);
    (12347, 12347); (12441, 12446); (12540, 12542); (40981, 40981); (42232, 42237);
    (42508, 42508); (42607, 42610); (42612, 42621); (42623, 42623); (42652, 42655);
    (42736, 42737); (42752, 42785); (42864, 42864); (42888, 42890); (42994, 42996);
    (43000, 43001); (43010, 43010); (43014, 43014); (43019, 43019); (43045, 43046);
    (43052, 43052); (43204, 43205); (43232, 43249); (43263, 43263); (43302, 43309);
    (43335, 43345); (43392, 43394); (43443, 43443); (43446, 43449); (43452, 43453);
    (43471, 43471); (43493, 43494); (43561, 43566); (43569, 43570); (43573, 43574);
    (43587, 43587); (43596, 43596); (43632, 43632); (43644, 43644); (43696, 43696);
    (43698, 43700); (43703, 43704); (43710, 43711); (43713, 43713); (43741, 43741);
    (43756, 43757); (43763, 43764); (43766, 43766); (43867, 43871); (43881, 43883);
    (44005, 44005); (44008, 44008); (44013, 44013); (64286, 64286); (64434, 64450);
    (65024, 65039); (65043, 65043); (65056, 65071); (65106, 65106); (65109, 65109);
    (65279, 65279); (65287, 65287); (65294, 65294); (65306, 65306); (65342, 65342);
    (65344, 65344); (65392, 65392); (65438, 65439); (65507, 65507); (65529, 65531);
    (66045, 66045); (66272, 66272); (66422, 66426); (67456, 67461); (67463, 67504);
    (67506, 67514); (68097, 68099); (68101, 68102); (68108, 68111); (68152, 68154);
    (68159, 68159); (68325, 68326); (68900, 68903); (69291, 69292); (69446, 69456);
    (69506, 69509); (69633, 69633); (69688, 69702); (69744, 69744); (69747, 69748);
    (69759, 69761); (69811, 69814); (69817, 69818); (69821, 69821); (69826, 69826);
    (69837, 69837); (69888, 69890); (69927, 69931); (69933, 69940); (70003, 70003);
    (70016, 70017); (70070, 70078); (70089, 70092); (70095, 70095); (70191, 70193);
    (70196, 70196); (70198, 70199); (70206, 70206); (70367, 70367); (70371, 70378);
    (70400, 70401); (70459, 70460); (70464, 70464); (70502, 70508); (70512, 70516);
    (70712, 70719); (70722, 70724); (70726, 70726); (70750, 70750); (70835, 70840);
    (70842, 70842); (70847, 70848); (70850, 70851); (71090, 71093); (71100, 71101);
    (71103, 71104); (71132, 71133); (71219, 71226); (71229, 71229); (71231, 71232);
    (71339, 71339); (71341, 71341); (71344, 71349); (71351, 71351); (71453, 71455);
    (71458, 71461); (71463, 71467); (71727, 71735); (71737, 71738); (71995, 71996);
    (71998, 71998); (72003, 72003); (72148, 72151); (72154, 72155); (72160, 72160);
    (72193, 72202); (72243, 72248); (72251, 72254); (72263, 72263); (72273, 72278);
    (72281, 72283); (72330, 72342); (72344, 72345); (72752, 72758); (72760, 72765);
    (72767, 72767); (72850, 72871); (72874, 72880); (72882, 72883); (72885, 72886);
    (73009, 73014); (73018, 73018); (73020, 73021); (73023, 73029); (73031, 73031);
    (73104, 73105); (73109, 73109); (73111, 73111); (73459, 73460); (78896, 78904);
    (92912, 92916); (92976, 92982); (92992, 92995); (94031, 94031); (94095, 94111);
    (94176, 94177); (94179, 94180); (110576, 110579); (110581, 110587); (110589, 110590);
    (113821, 113822); (113824, 113827); (118528, 118573); (118576, 118598); (119143, 119145);
    (119155, 119170); (119173, 119179); (119210, 119213); (119362, 119364); (121344, 121398);
    (121403, 121452); (121461, 121461); (121476, 121476); (121499, 121503); (121505, 121519);
    (122880, 122886); (122888, 122904); (122907, 122913); (122915, 122916); (122918, 122922);
    (123184, 123197); (123566, 123566); (123628, 123631); (125136, 125142); (125252, 125259);
    (127995, 127999); (917505, 917505); (917536, 917631); (917760, 917999) ]%N.

(** The characters that [\\w] accepts in a [str] pattern: alphanumeric, or the underscore. *)
Definition word_ranges : list (N * N) :=
  [ (48, 57); (65, 90); (95, 95); (97, 122); (170, 170); (178, 179); (181, 181); (185, 186);
    (188, 190); (192, 214); (216, 246); (248, 705); (710, 721); (736, 740); (748, 748);
    (750, 750); (880, 884); (886, 887); (890, 893); (895, 895); (902, 902); (904, 906);
    (908, 908); (910, 929); (931, 1013); (1015, 1153); (1162, 1327); (1329, 1366); (1369, 1369);
    (1376, 1416); (1488, 1514); (1519, 1522); (1568, 1610); (1632, 1641); (1646, 1647);
    (1649, 1747); (1749, 1749); (1765, 1766); (1774, 1788); (1791, 1791); (1808, 1808);
    (1810, 1839); (1869, 1957); (1969, 1969); (1984, 2026); (2036, 2037); (2042, 2042);
    (2048, 2069); (2074, 2074); (2084, 2084); (2088, 2088); (2112, 2136); (2144, 2154);
    (2160, 2183); (2185, 2190); (2208, 2249); (2308, 2361); (2365, 2365); (2384, 2384);
    (2392, 2401); (2406, 2415); (2417, 2432); (2437, 2444); (2447, 2448); (2451, 2472);
    (2474, 2480); (2482, 2482); (2486, 2489); (2493, 2493); (2510, 2510); (2524, 2525);
    (2527, 2529); (2534, 2545); (2548, 2553); (2556, 2556); (2565, 2570); (2575, 2576);
    (2579, 2600); (2602, 2608); (2610, 2611); (2613, 2614); (2616, 2617); (2649, 2652);
    (2654, 2654); (2662, 2671); (2674, 2676); (2693, 2701); (2703, 2705); (2707, 2728);
    (2730, 2736); (2738, 2739); (2741, 2745); (2749, 2749); (2768, 2768); (2784, 2785);
    (2790, 2799); (2809, 2809); (2821, 2828); (2831, 2832); (2835, 2856); (2858, 2864);
    (2866, 2867); (2869, 2873); (2877, 2877); (2908, 2909); (2911, 2913); (2918, 2927);
    (2929, 2935); (2947, 2947); (2949, 2954); (2958, 2960); (2962, 2965); (2969, 2970);
    (2972, 2972); (2974, 2975); (2979, 2980); (2984, 2986); (2990, 3001); (3024, 3024);
    (3046, 3058); (3077, 3084); (3086, 3088); (3090, 3112); (3114, 3129); (3133, 3133);
    (3160, 3162); (3165, 3165); (3168, 3169); (3174, 3183); (3192, 3198); (3200, 3200);
    (3205, 3212); (3214, 3216); (3218, 3240); (3242, 3251); (3253, 3257); (3261, 3261);
    (3293, 3294); (3296, 3297); (3302, 3311); (3313, 3314); (3332, 3340); (3342, 3344);
    (3346, 3386); (3389, 3389); (3406, 3406); (3412, 3414); (3416, 3425); (3430, 3448);
    (3450, 3455); (3461, 3478); (3482, 3505); (3507, 3515); (3517, 3517); (3520, 3526);
    (3558, 3567); (3585, 3632); (3634, 3635); (3648, 3654); (3664, 3673); (3713, 3714);
    (3716, 3716); (3718, 3722); (3724, 3747); (3749, 3749); (3751, 3760); (3762, 3763);
    (3773, 3773); (3776, 3780); (3782, 3782); (3792, 3801); (3804, 3807); (3840, 3840);
    (3872, 3891); (3904, 3911); (3913, 3948); (3976, 3980); (4096, 4138); (4159, 4169);
    (4176, 4181); (4186, 4189); (4193, 4193); (4197, 4198); (4206, 4208); (4213, 4225);
    (4238, 4238); (4240, 4249); (4256, 4293); (4295, 4295); (4301, 4301); (4304, 4346);
    (4348, 4680); (4682, 4685); (4688, 4694); (4696, 4696); (4698, 4701); (4704, 4744);
    (4746, 4749); (4752, 4784); (4786, 4789); (4792, 4798); (4800, 4800); (4802, 4805);
    (4808, 4822); (4824, 4880); (4882, 4885); (4888, 4954); (4969, 4988); (4992, 5007);
    (5024, 5109); (5112, 5117); (5121, 5740); (5743, 5759); (5761, 5786); (5792, 5866);
    (5870, 5880); (5888, 5905); (5919, 5937); (5952, 5969); (5984, 5996); (5998, 6000);
    (6016, 6067); (6103, 6103); (6108, 6108); (6112, 6121); (6128, 6137); (6160, 6169);
    (6176, 6264); (6272, 6276); (6279, 6312); (6314, 6314); (6320, 6389); (6400, 6430);
    (6470, 6509); (6512, 6516); (6528, 6571); (6576, 6601); (6608, 6618); (6656, 6678);
    (6688, 6740); (6784, 6793); (6800, 6809); (6823, 6823); (6917, 6963); (6981, 6988);
    (6992, 7001); (7043, 7072); (7086, 7141); (7168, 7203); (7232, 7241); (7245, 7293);
    (7296, 7304); (7312, 7354); (7357, 7359); (7401, 7404); (7406, 7411); (7413, 7414);
    (7418, 7418); (7424, 7615); (7680, 7957); (7960, 7965); (7968, 8005); (8008, 8013);
    (8016, 8023); (8025, 8025); (8027, 8027); (8029, 8029); (8031, 8061); (8064, 8116);
    (8118, 8124); (8126, 8126); (8130, 8132); (8134, 8140); (8144, 8147); (8150, 8155);
    (8160, 8172); (8178, 8180); (8182, 8188); (8304, 8305); (8308, 8313); (8319, 8329);
    (8336, 8348); (8450, 8450); (8455, 8455); (8458, 8467); (8469, 8469); (8473, 8477);
    (8484, 8484); (8486, 8486); (8488, 8488); (8490, 8493); (8495, 8505); (8508, 8511);
    (8517, 8521); (8526, 8526); (8528, 8585); (9312, 9371); (9450, 9471); (10102, 10131);
    (11264, 11492); (11499, 11502); (11506, 11507); (11517, 11517); (11520, 11557);
    (11559, 11559); (11565, 11565); (11568, 11623); (11631, 11631); (11648, 11670);
    (11680, 11686); (11688, 11694); (11696, 11702); (11704, 11710); (11712, 11718);
    (11720, 11726); (11728, 11734); (11736, 11742); (11823, 11823); (12293, 12295);
    (12321, 12329); (12337, 12341); (12344, 12348); (12353, 12438); (12445, 12447);
    (12449, 12538); (12540, 12543); (12549, 12591); (12593, 12686); (12690, 12693);
    (12704, 12735); (12784, 12799); (12832, 12841); (12872, 12879); (12881, 12895);
    (12928, 12937); (12977, 12991); (13312, 19903); (19968, 42124); (42192, 42237);
    (42240, 42508); (42512, 42539); (42560, 42606); (42623, 42653); (42656, 42735);
    (42775, 42783); (42786, 42888); (42891, 42954); (42960, 42961); (42963, 42963);
    (42965, 42969); (42994, 43009); (43011, 43013); (43015, 43018); (43020, 43042);
    (43056, 43061); (43072, 43123); (43138, 43187); (43216, 43225); (43250, 43255);
    (43259, 43259); (43261, 43262); (43264, 43301); (43312, 43334); (43360, 43388);
    (43396, 43442); (43471, 43481); (43488, 43492); (43494, 43518); (43520, 43560);
    (43584, 43586); (43588, 43595); (43600, 43609); (43616, 43638); (43642, 43642);
    (43646, 43695); (43697, 43697); (43701, 43702); (43705, 43709); (43712, 43712);
    (43714, 43714); (43739, 43741); (43744, 43754); (43762, 43764); (43777, 43782);
    (43785, 43790); (43793, 43798); (43808, 43814); (43816, 43822); (43824, 43866);
    (43868, 43881); (43888, 44002); (44016, 44025); (44032, 55203); (55216, 55238);
    (55243, 55291); (63744, 64109); (64112, 64217); (64256, 64262); (64275, 64279);
    (64285, 64285); (64287, 64296); (64298, 64310); (64312, 64316); (64318, 64318);
    (64320, 64321); (64323, 64324); (64326, 64433); (64467, 64829); (64848, 64911);
    (64914, 64967); (65008, 65019); (65136, 65140); (65142, 65276); (65296, 65305);
    (65313, 65338); (65345, 65370); (65382, 65470); (65474, 65479); (65482, 65487);
    (65490, 65495); (65498, 65500); (65536, 65547); (65549, 65574); (65576, 65594);
    (65596, 65597); (65599, 65613); (65616, 65629); (65664, 65786); (65799, 65843);
    (65856, 65912); (65930, 65931); (66176, 66204); (66208, 66256); (66273, 66299);
    (66304, 66339); (66349, 66378); (66384, 66421); (66432, 66461); (66464, 66499);
    (66504, 66511); (66513, 66517); (66560, 66717); (66720, 66729); (66736, 66771);
    (66776, 66811); (66816, 66855); (66864, 66915); (66928, 66938); (66940, 66954);
    (66956, 66962); (66964, 66965); (66967, 66977); (66979, 66993); (66995, 67001);
    (67003, 67004); (67072, 67382); (67392, 67413); (67424, 67431); (67456, 67461);
    (67463, 67504); (67506, 67514); (67584, 67589); (67592, 67592); (67594, 67637);
    (67639, 67640); (67644, 67644); (67647, 67669); (67672, 67702); (67705, 67742);
    (67751, 67759); (67808, 67826); (67828, 67829); (67835, 67867); (67872, 67897);
    (67968, 68023); (68028, 68047); (68050, 68096); (68112, 68115); (68117, 68119);
    (68121, 68149); (68160, 68168); (68192, 68222); (68224, 68255); (68288, 68295);
    (68297, 68324); (68331, 68335); (68352, 68405); (68416, 68437); (68440, 68466);
    (68472, 68497); (68521, 68527); (68608, 68680); (68736, 68786); (68800, 68850);
    (68858, 68899); (68912, 68921); (69216, 69246); (69248, 69289); (69296, 69297);
    (69376, 69415); (69424, 69445); (69457, 69460); (69488, 69505); (69552, 69579);
    (69600, 69622); (69635, 69687); (69714, 69743); (69745, 69746); (69749, 69749);
    (69763, 69807); (69840, 69864); (69872, 69881); (69891, 69926); (69942, 69951);
    (69956, 69956); (69959, 69959); (69968, 70002); (70006, 70006); (70019, 70066);
    (70081, 70084); (70096, 70106); (70108, 70108); (70113, 70132); (70144, 70161);
    (70163, 70187); (70272, 70278); (70280, 70280); (70282, 70285); (70287, 70301);
    (70303, 70312); (70320, 70366); (70384, 70393); (70405, 70412); (70415, 70416);
    (70419, 70440); (70442, 70448); (70450, 70451); (70453, 70457); (70461, 70461);
    (70480, 70480); (70493, 70497); (70656, 70708); (70727, 70730); (70736, 70745);
    (70751, 70753); (70784, 70831); (70852, 70853); (70855, 70855); (70864, 70873);
    (71040, 71086); (71128, 71131); (71168, 71215); (71236, 71236); (71248, 71257);
    (71296, 71338); (71352, 71352); (71360, 71369); (71424, 71450); (71472, 71483);
    (71488, 71494); (71680, 71723); (71840, 71922); (71935, 71942); (71945, 71945);
    (71948, 71955); (71957, 71958); (71960, 71983); (71999, 71999); (72001, 72001);
    (72016, 72025); (72096, 72103); (72106, 72144); (72161, 72161); (72163, 72163);
    (72192, 72192); (72203, 72242); (72250, 72250); (72272, 72272); (72284, 72329);
    (72349, 72349); (72368, 72440); (72704, 72712); (72714, 72750); (72768, 72768);
    (72784, 72812); (72818, 72847); (72960, 72966); (72968, 72969); (72971, 73008);
    (73030, 73030); (73040, 73049); (73056, 73061); (73063, 73064); (73066, 73097);
    (73112, 73112); (73120, 73129); (73440, 73458); (73648, 73648); (73664, 73684);
    (73728, 74649); (74752, 74862); (74880, 75075); (77712, 77808); (77824, 78894);
    (82944, 83526); (92160, 92728); (92736, 92766); (92768, 92777); (92784, 92862);
    (92864, 92873); (92880, 92909); (92928, 92975); (92992, 92995); (93008, 93017);
    (93019, 93025); (93027, 93047); (93053, 93071); (93760, 93846); (93952, 94026);
    (94032, 94032); (94099, 94111); (94176, 94177); (94179, 94179); (94208, 100343);
    (100352, 101589); (101632, 101640); (110576, 110579); (110581, 110587); (110589, 110590);
    (110592, 110882); (110928, 110930); (110948, 110951); (110960, 111355); (113664, 113770);
    (113776, 113788); (113792, 113800); (113808, 113817); (119520, 119539); (119648, 119672);
    (119808, 119892); (119894, 119964); (119966, 119967); (119970, 119970); (119973, 119974);
    (119977, 119980); (119982, 119993); (119995, 119995); (119997, 120003); (120005, 120069);
    (120071, 120074); (120077, 120084); (120086, 120092); (120094, 120121); (120123, 120126);
    (120128, 120132); (120134, 120134); (120138, 120144); (120146, 120485); (120488, 120512);
    (120514, 120538); (120540, 120570); (120572, 120596); (120598, 120628); (120630, 120654);
    (120656, 120686); (120688, 120712); (120714, 120744); (120746, 120770); (120772, 120779);
    (120782, 120831); (122624, 122654); (123136, 123180); (123191, 123197); (123200, 123209);
    (123214, 123214); (123536, 123565); (123584, 123627); (123632, 123641); (124896, 124902);
    (124904, 124907); (124909, 124910); (124912, 124926); (124928, 125124); (125127, 125135);
    (125184, 125251); (125259, 125259); (125264, 125273); (126065, 126123); (126125, 126127);
    (126129, 126132); (126209, 126253); (126255, 126269); (126464, 126467); (126469, 126495);
    (126497, 126498); (126500, 126500); (126503, 126503); (126505, 126514); (126516, 126519);
    (126521, 126521); (126523, 126523); (126530, 126530); (126535, 126535); (126537, 126537);
    (126539, 126539); (126541, 126543); (126545, 126546); (126548, 126548); (126551, 126551);
    (126553, 126553); (126555, 126555); (126557, 126557); (126559, 126559); (126561, 126562);
    (126564, 126564); (126567, 126570); (126572, 126578); (126580, 126583); (126585, 126588);
    (126590, 126590); (126592, 126601); (126603, 126619); (126625, 126627); (126629, 126633);
    (126635, 126651); (127232, 127244); (130032, 130041); (131072, 173791); (173824, 177976);
    (177984, 178205); (178208, 183969); (183984, 191456); (194560, 195101); (196608, 201546) ]%N.

(** The characters that [repr] leaves as they are ([str.isprintable]). *)
Definition printable_ranges : list (N * N) :=
  [ (32, 126); (161, 172); (174, 887); (890, 895); (900, 906); (908, 908); (910, 929);
    (931, 1327); (1329, 1366); (1369, 1418); (1421, 1423); (1425, 1479); (1488, 1514);
    (1519, 1524); (1542, 1563); (1565, 1756); (1758, 1805); (1808, 1866); (1869, 1969);
    (1984, 2042); (2045, 2093); (2096, 2110); (2112, 2139); (2142, 2142); (2144, 2154);
    (2160, 2190); (2200, 2273); (2275, 2435); (2437, 2444); (2447, 2448); (2451, 2472);
    (2474, 2480); (2482, 2482); (2486, 2489); (2492, 2500); (2503, 2504); (2507, 2510);
    (2519, 2519); (2524, 2525); (2527, 2531); (2534, 2558); (2561, 2563); (2565, 2570);
    (2575, 2576); (2579, 2600); (2602, 2608); (2610, 2611); (2613, 2614); (2616, 2617);
    (2620, 2620); (2622, 2626); (2631, 2632); (2635, 2637); (2641, 2641); (2649, 2652);
    (2654, 2654); (2662, 2678); (2689, 2691); (2693, 2701); (2703, 2705); (2707, 2728);
    (2730, 2736); (2738, 2739); (2741, 2745); (2748, 2757); (2759, 2761); (2763, 2765);
    (2768, 2768); (2784, 2787); (2790, 2801); (2809, 2815); (2817, 2819); (2821, 2828);
    (2831, 2832); (2835, 2856); (2858, 2864); (2866, 2867); (2869, 2873); (2876, 2884);
    (2887, 2888); (2891, 2893); (2901, 2903); (2908, 2909); (2911, 2915); (2918, 2935);
    (2946, 2947); (2949, 2954); (2958, 2960); (2962, 2965); (2969, 2970); (2972, 2972);
    (2974, 2975); (2979, 2980); (2984, 2986); (2990, 3001); (3006, 3010); (3014, 3016);
    (3018, 3021); (3024, 3024); (3031, 3031); (3046, 3066); (3072, 3084); (3086, 3088);
    (3090, 3112); (3114, 3129); (3132, 3140); (3142, 3144); (3146, 3149); (3157, 3158);
    (3160, 3162); (3165, 3165); (3168, 3171); (3174, 3183); (3191, 3212); (3214, 3216);
    (3218, 3240); (3242, 3251); (3253, 3257); (3260, 3268); (3270, 3272); (3274, 3277);
    (3285, 3286); (3293, 3294); (3296, 3299); (3302, 3311); (3313, 3314); (3328, 3340);
    (3342, 3344); (3346, 3396); (3398, 3400); (3402, 3407); (3412, 3427); (3430, 3455);
    (3457, 3459); (3461, 3478); (3482, 3505); (3507, 3515); (3517, 3517); (3520, 3526);
    (3530, 3530); (3535, 3540); (3542, 3542); (3544, 3551); (3558, 3567); (3570, 3572);
    (3585, 3642); (3647, 3675); (3713, 3714); (3716, 3716); (3718, 3722); (3724, 3747);
    (3749, 3749); (3751, 3773); (3776, 3780); (3782, 3782); (3784, 3789); (3792, 3801);
    (3804, 3807); (3840, 3911); (3913, 3948); (3953, 3991); (3993, 4028); (4030, 4044);
    (4046, 4058); (4096, 4293); (4295, 4295); (4301, 4301); (4304, 4680); (4682, 4685);
    (4688, 4694); (4696, 4696); (4698, 4701); (4704, 4744); (4746, 4749); (4752, 4784);
    (4786, 4789); (4792, 4798); (4800, 4800); (4802, 4805); (4808, 4822); (4824, 4880);
    (4882, 4885); (4888, 4954); (4957, 4988); (4992, 5017); (5024, 5109); (5112, 5117);
    (5120, 5759); (5761, 5788); (5792, 5880); (5888, 5909); (5919, 5942); (5952, 5971);
    (5984, 5996); (5998, 6000); (6002, 6003); (6016, 6109); (6112, 6121); (6128, 6137);
    (6144, 6157); (6159, 6169); (6176, 6264); (6272, 6314); (6320, 6389); (6400, 6430);
    (6432, 6443); (6448, 6459); (6464, 6464); (6468, 6509); (6512, 6516); (6528, 6571);
    (6576, 6601); (6608, 6618); (6622, 6683); (6686, 6750); (6752, 6780); (6783, 6793);
    (6800, 6809); (6816, 6829); (6832, 6862); (6912, 6988); (6992, 7038); (7040, 7155);
    (7164, 7223); (7227, 7241); (7245, 7304); (7312, 7354); (7357, 7367); (7376, 7418);
    (7424, 7957); (7960, 7965); (7968, 8005); (8008, 8013); (8016, 8023); (8025, 8025);
    (8027, 8027); (8029, 8029); (8031, 8061); (8064, 8116); (8118, 8132); (8134, 8147);
    (8150, 8155); (8157, 8175); (8178, 8180); (8182, 8190); (8208, 8231); (8240, 8286);
    (8304, 8305); (8308, 8334); (8336, 8348); (8352, 8384); (8400, 8432); (8448, 8587);
    (8592, 9254); (9280, 9290); (9312, 11123); (11126, 11157); (11159, 11507); (11513, 11557);
    (11559, 11559); (11565, 11565); (11568, 11623); (11631, 11632); (11647, 11670);
    (11680, 11686); (11688, 11694); (11696, 11702); (11704, 11710); (11712, 11718);
    (11720, 11726); (11728, 11734); (11736, 11742); (11744, 11869); (11904, 11929);
    (11931, 12019); (12032, 12245); (12272, 12283); (12289, 12351); (12353, 12438);
    (12441, 12543); (12549, 12591); (12593, 12686); (12688, 12771); (12784, 12830);
    (12832, 42124); (42128, 42182); (42192, 42539); (42560, 42743); (42752, 42954);
    (42960, 42961); (42963, 42963); (42965, 42969); (42994, 43052); (43056, 43065);
    (43072, 43127); (43136, 43205); (43214, 43225); (43232, 43347); (43359, 43388);
    (43392, 43469); (43471, 43481); (43486, 43518); (43520, 43574); (43584, 43597);
    (43600, 43609); (43612, 43714); (43739, 43766); (43777, 43782); (43785, 43790);
    (43793, 43798); (43808, 43814); (43816, 43822); (43824, 43883); (43888, 44013);
    (44016, 44025); (44032, 55203); (55216, 55238); (55243, 55291); (63744, 64109);
    (64112, 64217); (64256, 64262); (64275, 64279); (64285, 64310); (64312, 64316);
    (64318, 64318); (64320, 64321); (64323, 64324); (64326, 64450); (64467, 64911);
    (64914, 64967); (64975, 64975); (65008, 65049); (65056, 65106); (65108, 65126);
    (65128, 65131); (65136, 65140); (65142, 65276); (65281, 65470); (65474, 65479);
    (65482, 65487); (65490, 65495); (65498, 65500); (65504, 65510); (65512, 65518);
    (65532, 65533); (65536, 65547); (65549, 65574); (65576, 65594); (65596, 65597);
    (65599, 65613); (65616, 65629); (65664, 65786); (65792, 65794); (65799, 65843);
    (65847, 65934); (65936, 65948); (65952, 65952); (66000, 66045); (66176, 66204);
    (66208, 66256); (66272, 66299); (66304, 66339); (66349, 66378); (66384, 66426);
    (66432, 66461); (66463, 66499); (66504, 66517); (66560, 66717); (66720, 66729);
    (66736, 66771); (66776, 66811); (66816, 66855); (66864, 66915); (66927, 66938);
    (66940, 66954); (66956, 66962); (66964, 66965); (66967, 66977); (66979, 66993);
    (66995, 67001); (67003, 67004); (67072, 67382); (67392, 67413); (67424, 67431);
    (67456, 67461); (67463, 67504); (67506, 67514); (67584, 67589); (67592, 67592);
    (67594, 67637); (67639, 67640); (67644, 67644); (67647, 67669); (67671, 67742);
    (67751, 67759); (67808, 67826); (67828, 67829); (67835, 67867); (67871, 67897);
    (67903, 67903); (67968, 68023); (68028, 68047); (68050, 68099); (68101, 68102);
    (68108, 68115); (68117, 68119); (68121, 68149); (68152, 68154); (68159, 68168);
    (68176, 68184); (68192, 68255); (68288, 68326); (68331, 68342); (68352, 68405);
    (68409, 68437); (68440, 68466); (68472, 68497); (68505, 68508); (68521, 68527);
    (68608, 68680); (68736, 68786); (68800, 68850); (68858, 68903); (68912, 68921);
    (69216, 69246); (69248, 69289); (69291, 69293); (69296, 69297); (69376, 69415);
    (69424, 69465); (69488, 69513); (69552, 69579); (69600, 69622); (69632, 69709);
    (69714, 69749); (69759, 69820); (69822, 69826); (69840, 69864); (69872, 69881);
    (69888, 69940); (69942, 69959); (69968, 70006); (70016, 70111); (70113, 70132);
    (70144, 70161); (70163, 70206); (70272, 70278); (70280, 70280); (70282, 70285);
    (70287, 70301); (70303, 70313); (70320, 70378); (70384, 70393); (70400, 70403);
    (70405, 70412); (70415, 70416); (70419, 70440); (70442, 70448); (70450, 70451);
    (70453, 70457); (70459, 70468); (70471, 70472); (70475, 70477); (70480, 70480);
    (70487, 70487); (70493, 70499); (70502, 70508); (70512, 70516); (70656, 70747);
    (70749, 70753); (70784, 70855); (70864, 70873); (71040, 71093); (71096, 71133);
    (71168, 71236); (71248, 71257); (71264, 71276); (71296, 71353); (71360, 71369);
    (71424, 71450); (71453, 71467); (71472, 71494); (71680, 71739); (71840, 71922);
    (71935, 71942); (71945, 71945); (71948, 71955); (71957, 71958); (71960, 71989);
    (71991, 71992); (71995, 72006); (72016, 72025); (72096, 72103); (72106, 72151);
    (72154, 72164); (72192, 72263); (72272, 72354); (72368, 72440); (72704, 72712);
    (72714, 72758); (72760, 72773); (72784, 72812); (72816, 72847); (72850, 72871);
    (72873, 72886); (72960, 72966); (72968, 72969); (72971, 73014); (73018, 73018);
    (73020, 73021); (73023, 73031); (73040, 73049); (73056, 73061); (73063, 73064);
    (73066, 73102); (73104, 73105); (73107, 73112); (73120, 73129); (73440, 73464);
    (73648, 73648); (73664, 73713); (73727, 74649); (74752, 74862); (74864, 74868);
    (74880, 75075); (77712, 77810); (77824, 78894); (82944, 83526); (92160, 92728);
    (92736, 92766); (92768, 92777); (92782, 92862); (92864, 92873); (92880, 92909);
    (92912, 92917); (92928, 92997); (93008, 93017); (93019, 93025); (93027, 93047);
    (93053, 93071); (93760, 93850); (93952, 94026); (94031, 94087); (94095, 94111);
    (94176, 94180); (94192, 94193); (94208, 100343); (100352, 101589); (101632, 101640);
    (110576, 110579); (110581, 110587); (110589, 110590); (110592, 110882); (110928, 110930);
    (110948, 110951); (110960, 111355); (113664, 113770); (113776, 113788); (113792, 113800);
    (113808, 113817); (113820, 113823); (118528, 118573); (118576, 118598); (118608, 118723);
    (118784, 119029); (119040, 119078); (119081, 119154); (119163, 119274); (119296, 119365);
    (119520, 119539); (119552, 119638); (119648, 119672); (119808, 119892); (119894, 119964);
    (119966, 119967); (119970, 119970); (119973, 119974); (119977, 119980); (119982, 119993);
    (119995, 119995); (119997, 120003); (120005, 120069); (120071, 120074); (120077, 120084);
    (120086, 120092); (120094, 120121); (120123, 120126); (120128, 120132); (120134, 120134);
    (120138, 120144); (120146, 120485); (120488, 120779); (120782, 121483); (121499, 121503);
    (121505, 121519); (122624, 122654); (122880, 122886); (122888, 122904); (122907, 122913);
    (122915, 122916); (122918, 122922); (123136, 123180); (123184, 123197); (123200, 123209);
    (123214, 123215); (123536, 123566); (123584, 123641); (123647, 123647); (124896, 124902);
    (124904, 124907); (124909, 124910); (124912, 124926); (124928, 125124); (125127, 125142);
    (125184, 125259); (125264, 125273); (125278, 125279); (126065, 126132); (126209, 126269);
    (126464, 126467); (126469, 126495); (126497, 126498); (126500, 126500); (126503, 126503);
    (126505, 126514); (126516, 126519); (126521, 126521); (126523, 126523); (126530, 126530);
    (126535, 126535); (126537, 126537); (126539, 126539); (126541, 126543); (126545, 126546);
    (126548, 126548); (126551, 126551); (126553, 126553); (126555, 126555); (126557, 126557);
    (126559, 126559); (126561, 126562); (126564, 126564); (126567, 126570); (126572, 126578);
    (126580, 126583); (126585, 126588); (126590, 126590); (126592, 126601); (126603, 126619);
    (126625, 126627); (126629, 126633); (126635, 126651); (126704, 126705); (126976, 127019);
    (127024, 127123); (127136, 127150); (127153, 127167); (127169, 127183); (127185, 127221);
    (127232, 127405); (127462, 127490); (127504, 127547); (127552, 127560); (127568, 127569);
    (127584, 127589); (127744, 128727); (128733, 128748); (128752, 128764); (128768, 128883);
    (128896, 128984); (128992, 129003); (129008, 129008); (129024, 129035); (129040, 129095);
    (129104, 129113); (129120, 129159); (129168, 129197); (129200, 129201); (129280, 129619);
    (129632, 129645); (129648, 129652); (129656, 129660); (129664, 129670); (129680, 129708);
    (129712, 129722); (129728, 129733); (129744, 129753); (129760, 129767); (129776, 129782);
    (129792, 129938); (129940, 129994); (130032, 130041); (131072, 173791); (173824, 177976);
    (177984, 178205); (178208, 183969); (183984, 191456); (194560, 195101); (196608, 201546);
    (917760, 917999) ]%N.

(** *** The character tables *)

Definition in_ranges (ranges : list (N * N)) (c : N) : bool :=
  existsb (λ range, (range.1 <=? c)%N && (c <=? range.2)%N) ranges.

(** Where a table of moved characters sends [c], if it moves it. *)
Fixpoint moved (table : list (N * N * N * N)) (c : N) : option N :=
  match table with
  | [] => None
  | (lo, hi, step, target) :: table' =>
      if ((lo <=? c) && (c <=? hi) && ((c - lo) mod step =? 0))%N
      then Some (target + (c - lo))%N
      else moved table' c
  end.

Fixpoint special (table : list (N * list N)) (c : N) : option (list N) :=
  match table with
  | [] => None
  | (c', image) :: table' => if (c =? c')%N then Some image else special table' c
  end.

(** [c.upper()] and [c.lower()] on one character; [str.lower] overrides the
    latter for the capital sigma. *)
Definition upper_char (c : N) : pystr :=
  match special upper_special c with
  | Some image => image
  | None => [default c (moved upper_simple c)]
  end.

Definition lower_char (c : N) : pystr :=
  match special lower_special c with
  | Some image => image
  | None => [default c (moved lower_simple c)]
  end.

Definition is_cased (c : N) : bool := in_ranges cased_ranges c.
Definition is_case_ignorable (c : N) : bool := in_ranges case_ignorable_ranges c.

(** [\w] *)
Definition word_char (c : N) : bool := in_ranges word_ranges c.

Definition is_printable (c : N) : bool := in_ranges printable_ranges c.

#[global] Arguments upper_char : simpl never.
#[global] Arguments lower_char : simpl never.
#[global] Arguments is_cased : simpl never.
#[global] Arguments is_case_ignorable : simpl never.
#[global] Arguments word_char : simpl never.
#[global] Arguments is_printable : simpl never.

(** [s.upper()]: character by character. *)
Fixpoint str_upper (s : pystr) : pystr :=
  match s with
  | [] => []
  | c :: s' => upper_char c ++ str_upper s'
  end.

(** The first character of [s] that is not case-ignorable. *)
Fixpoint skip_ignorable (s : pystr) : option N :=
  match s with
  | [] => None
  | c :: s' => if is_case_ignorable c then skip_ignorable s' else Some c
  end.

(** A capital sigma is final when, case-ignorable characters skipped, a cased
    character stands before it and none after it; [before] is what precedes
    it, nearest character first. *)
Definition final_sigma (before after : pystr) : bool :=
  match skip_ignorable before with
  | Some b =>
      is_cased b &&
      match skip_ignorable after with
      | Some a => negb (is_cased a)
      | None => true
      end
  | None => false
  end.

Definition capital_sigma : N := 931.

(** What [s.lower()] puts for the character [c] that stands between [before]
    and [after]. *)
Definition lower_at (before : pystr) (c : N) (after : pystr) : pystr :=
  if (c =? capital_sigma)%N then [if final_sigma before after then 962%N else 963%N]
  else lower_char c.

Fixpoint lower_from (before s : pystr) : pystr :=
  match s with
  | [] => []
  | c :: s' => lower_at before c s' ++ lower_from (c :: before) s'
  end.

(** [s.lower()] *)
Definition str_lower (s : pystr) : pystr := lower_from [] s.

(** [a == b] on two strings. *)
Fixpoint str_eqb (a b : pystr) : bool :=
  match a, b with
  | [], [] => true
  | x :: a', y :: b' => (x =? y)%N && str_eqb a' b'
  | _, _ => false
  end.

(** [hay.startswith(needle)] *)
Fixpoint str_prefix (needle hay : pystr) : bool :=
  match needle, hay with
  | [], _ => true
  | x :: needle', y :: hay' => (x =? y)%N && str_prefix needle' hay'
  | _ :: _, [] => false
  end.

(** [needle in hay] on two strings: [needle] occurs at some offset of [hay]. *)
Fixpoint str_contains (needle hay : pystr) : bool :=
  str_prefix needle hay ||
  match hay with
  | [] => false
  | _ :: hay' => str_contains needle hay'
  end.

(** [sep.join(items)] on strings. *)
Fixpoint str_concat (sep : pystr) (items : list pystr) : pystr :=
  match items with
  | [] => []
  | [item] => item
  | item :: items' => item ++ sep ++ str_concat sep items'
  end.

(** ** filters.py *)

Definition company_keywords : list pystr :=
  [ "Inc"; "Ltd"; "LLC"; "Corporation"; "Corp"; "GmbH";
    "Pharma"; "Biotech"; "Therapeutics"; "Company"; "Co";
    "Pharmaceuticals"; "Biotechnology"; "Biosciences";
    "Labs"; "Laboratories"; "Technologies" ].

Definition non_company_keywords : list pystr :=
  [ "University"; "Institute"; "College"; "School";
    "Hospital"; "Medical Center"; "Clinic"; "Foundation";
    "Research Center"; "Academy"; "Department of";
    "Ministry of"; "National"; "Federal" ].

(** [for keyword in keywords: if keyword.upper() in affiliation_upper: return ...]
    leaves the loop at the first keyword found: [Some keyword], or [None] when
    the loop runs to its end. *)
Fixpoint first_keyword_in (keywords : list pystr) (affiliation_upper : pystr)
  : option pystr :=
  match keywords with
  | [] => None
  | keyword :: rest =>
      if str_contains (str_upper keyword) affiliation_upper then Some keyword
      else first_keyword_in rest affiliation_upper
  end.

Definition is_company_affiliated (affiliation : pystr) : bool :=
  let affiliation_upper := str_upper affiliation in
  match first_keyword_in non_company_keywords affiliation_upper with
  | Some _ => false
  | None =>
      match first_keyword_in company_keywords affiliation_upper with
      | Some _ => true
      | None => false
      end
  end.

(** ** What the specification calls case-insensitive containment

    These definitions follow the words of the specification and do not go
    through [str_upper]: two characters are the same letter when they are
    equal or one is the other with its case swapped, [a] to [z] with [A] to
    [Z]; two strings differ only in letter case when they have the same
    length and agree position by position up to that; a string contains a
    keyword case-insensitively when some contiguous piece of it differs from
    the keyword only in case. *)

Definition is_lower_letter (c : N) : bool := (97 <=? c)%N && (c <=? 122)%N.

Definition is_upper_letter (c : N) : bool := (65 <=? c)%N && (c <=? 90)%N.

Definition swapcase_char (c : N) : N :=
  if is_lower_letter c then (c - 32)%N
  else if is_upper_letter c then (c + 32)%N
  else c.

Definition same_letter (a b : N) : bool :=
  (a =? b)%N || (swapcase_char a =? b)%N.

Fixpoint case_variant (s t : pystr) : bool :=
  match s, t with
  | [], [] => true
  | a :: s', b :: t' => same_letter a b && case_variant s' t'
  | _, _ => false
  end.

Definition contains_ci (s keyword : pystr) : Prop :=
  ∃ pre mid post, s = pre ++ mid ++ post ∧ case_variant mid keyword = true.

Definition has_keyword_ci (keywords : list pystr) (s : pystr) : Prop :=
  ∃ keyword, keyword ∈ keywords ∧ contains_ci s keyword.

(** The same, as a test: some piece of [s] at some offset differs from
    [keyword] only in case. *)
Fixpoint case_variant_prefix (keyword s : pystr) : bool :=
  match keyword, s with
  | [], _ => true
  | b :: keyword', a :: s' => same_letter a b && case_variant_prefix keyword' s'
  | _ :: _, [] => false
  end.

Fixpoint find_ci (keyword s : pystr) : bool :=
  case_variant_prefix keyword s ||
  match s with
  | [] => false
  | _ :: s' => find_ci keyword s'
  end.

(** A character is plain when it is an ASCII character or no ASCII character
    is in its upper-casing; the characters that are not plain are the
    seventeen of [folded_to_ascii]. *)
Definition is_ascii (c : N) : bool := (c <? 128)%N.

Definition plain_char (c : N) : bool :=
  is_ascii c || forallb (λ u, negb (is_ascii u)) (upper_char c).

Definition folded_to_ascii : pystr := "ßıŉſǰẖẗẘẙẚﬀﬁﬂﬃﬄﬅﬆ".

(** ** Python values, exceptions and the built-in operations the code uses *)

Inductive pyval :=
| VNone
| VStr (s : pystr)
| VList (l : list pyval)
| VDict (d : list (pystr * pyval)).

Inductive exn :=
| KeyError | IndexError | TypeError | AttributeError | ValueError | ZeroDivisionError
| OSError.

Inductive result (A : Type) :=
| Ok (a : A)
| Raise (e : exn).
Arguments Ok {A} a.
Arguments Raise {A} e.

#[global] Instance result_ret : MRet result := λ A a, Ok a.
#[global] Instance result_bind : MBind result :=
  λ A B f m, match m with Ok a => f a | Raise e => Raise e end.

(** [try: body / except ...: handler] *)
Definition try_except {A} (body : result A) (handler : exn → result A) : result A :=
  match body with
  | Ok a => Ok a
  | Raise e => handler e
  end.

(** First binding of [k] in a dict. *)
Fixpoint dict_lookup (k : pystr) (d : list (pystr * pyval)) : option pyval :=
  match d with
  | [] => None
  | (k', v) :: d' => if str_eqb k k' then Some v else dict_lookup k d'
  end.

(** [v[k]] for a string key [k] *)
Definition py_getitem (v : pyval) (k : pystr) : result pyval :=
  match v with
  | VDict d => match dict_lookup k d with Some x => Ok x | None => Raise KeyError end
  | VNone | VStr _ | VList _ => Raise TypeError
  end.

(** [v[0]]; no dict of this model has the key [0], its keys being strings. *)
Definition py_getitem0 (v : pyval) : result pyval :=
  match v with
  | VList (x :: _) => Ok x
  | VList [] => Raise IndexError
  | VStr (c :: _) => Ok (VStr [c])
  | VStr [] => Raise IndexError
  | VDict _ => Raise KeyError
  | VNone => Raise TypeError
  end.

(** [v.get(k, dflt)] *)
Definition py_get (v : pyval) (k : pystr) (dflt : pyval) : result pyval :=
  match v with
  | VDict d => Ok (default dflt (dict_lookup k d))
  | VNone | VStr _ | VList _ => Raise AttributeError
  end.

(** [bool(v)] *)
Definition py_truthy (v : pyval) : bool :=
  match v with
  | VNone | VStr [] | VList [] | VDict [] => false
  | _ => true
  end.

Fixpoint str_chars (s : pystr) : list pyval :=
  match s with
  | [] => []
  | c :: s' => VStr [c] :: str_chars s'
  end.

(** The items [for x in v] runs through. *)
Definition py_iter (v : pyval) : result (list pyval) :=
  match v with
  | VList l => Ok l
  | VDict d => Ok (map (λ kv, VStr kv.1) d)
  | VStr s => Ok (str_chars s)
  | VNone => Raise TypeError
  end.

Definition is_str (k : pystr) (v : pyval) : bool :=
  match v with
  | VStr s => str_eqb k s
  | _ => false
  end.

(** [k in v] for a string [k] *)
Definition py_contains (k : pystr) (v : pyval) : result bool :=
  match v with
  | VDict d => Ok (bool_decide (is_Some (dict_lookup k d)))
  | VList l => Ok (existsb (is_str k) l)
  | VStr s => Ok (str_contains k s)
  | VNone => Raise TypeError
  end.

(** [repr] of a string: single quotes unless the string has a single and no
    double quote; backslash, the quote, control characters and the
    characters that are not printable escaped. *)
Definition quote1 : N := 39.
Definition quote2 : N := 34.
Definition backslash : N := 92.

Definition hex_digit (n : N) : N := nth (N.to_nat n) "0123456789abcdef" (code "0").

(** The last [width] hexadecimal digits of [n]. *)
Fixpoint hex_digits (width : nat) (n : N) : pystr :=
  match width with
  | O => []
  | S width' => hex_digits width' (n / 16) ++ [hex_digit (n mod 16)]
  end.

Definition repr_char (quote c : N) : pystr :=
  if (c =? backslash)%N || (c =? quote)%N then [backslash; c]
  else if (c =? 9)%N then backslash :: "t"
  else if (c =? 10)%N then backslash :: "n"
  else if (c =? 13)%N then backslash :: "r"
  else if (c <? 32)%N || (c =? 127)%N then backslash :: "x" ++ hex_digits 2 c
  else if (c <? 127)%N || is_printable c then [c]
  else if (c <=? 255)%N then backslash :: "x" ++ hex_digits 2 c
  else if (c <=? 65535)%N then backslash :: "u" ++ hex_digits 4 c
  else backslash :: "U" ++ hex_digits 8 c.

Fixpoint str_has (c : N) (s : pystr) : bool :=
  match s with
  | [] => false
  | c' :: s' => (c =? c')%N || str_has c s'
  end.

Definition str_repr (s : pystr) : pystr :=
  let quote := if str_has quote1 s && negb (str_has quote2 s) then quote2 else quote1 in
  quote :: concat (map (repr_char quote) s) ++ [quote].

Fixpoint py_repr (v : pyval) : pystr :=
  match v with
  | VNone => "None"
  | VStr s => str_repr s
  | VList l => "[" ++ str_concat ", " (map py_repr l) ++ "]"
  | VDict d =>
      "{" ++ str_concat ", "
                (map (λ kv, match kv with (k, x) => str_repr k ++ ": " ++ py_repr x end) d)
          ++ "}"
  end.

(** What a replacement field [{v}] of an f-string puts in the text: [str(v)]. *)
Definition py_str (v : pyval) : pystr :=
  match v with
  | VStr s => s
  | _ => py_repr v
  end.

(** What a [set] can hold of this model's values: [None] or a string; lists
    and dicts are unhashable. *)
Definition as_hashable (v : pyval) : result (option pystr) :=
  match v with
  | VNone => Ok None
  | VStr s => Ok (Some s)
  | VList _ | VDict _ => Raise TypeError
  end.

(** A [for] loop whose body updates an accumulator and may raise: the
    accumulator as the loop leaves it, and the exception that ended it early. *)
Fixpoint for_each {A S} (body : A → S → S * option exn) (xs : list A) (st : S)
  : S * option exn :=
  match xs with
  | [] => (st, None)
  | x :: xs' =>
      match body x st with
      | (st', None) => for_each body xs' st'
      | (st', Some e) => (st', Some e)
      end
  end.

(** A [for] loop whose body may [return] a value ([Some b]) or fall through to
    the next item ([None]). *)
Fixpoint for_first {A B} (body : A → result (option B)) (xs : list A)
  : result (option B) :=
  match xs with
  | [] => Ok None
  | x :: xs' =>
      r ← body x;
      match r with
      | Some b => Ok (Some b)
      | None => for_first body xs'
      end
  end.

(** ** [re.search] for patterns made of character classes and [+]

    The matcher is the backtracking one: [+] is greedy and gives characters
    back one at a time when what follows fails; [re_search] tries the start
    offsets from left to right and returns the text of the first match. *)

Inductive re_atom :=
| ReChar (p : N → bool)
| RePlus (p : N → bool).

Fixpoint re_star (p : N → bool) (k : pystr → option nat) (s : pystr) : option nat :=
  match s with
  | c :: s' =>
      if p c then
        match re_star p k s' with
        | Some n => Some (S n)
        | None => k s
        end
      else k s
  | [] => k s
  end.

(** Length of the match of [re] anchored at the start of the string. *)
Fixpoint re_match (re : list re_atom) : pystr → option nat :=
  match re with
  | [] => λ _, Some 0
  | ReChar p :: re' => λ s,
      match s with
      | c :: s' => if p c then S <$> re_match re' s' else None
      | [] => None
      end
  | RePlus p :: re' => λ s,
      match s with
      | c :: s' => if p c then S <$> re_star p (re_match re') s' else None
      | [] => None
      end
  end.

Fixpoint re_search (re : list re_atom) (s : pystr) : option pystr :=
  match re_match re s with
  | Some n => Some (take n s)
  | None =>
      match s with
      | _ :: s' => re_search re s'
      | [] => None
      end
  end.

(** [[\w\.-]] *)
Definition addr_char (c : N) : bool :=
  word_char c || (c =? code ".")%N || (c =? code "-")%N.

(** [r'[\w\.-]+@[\w\.-]+\.\w+'] *)
Definition email_pattern : list re_atom :=
  [ RePlus addr_char; ReChar (N.eqb (code "@")); RePlus addr_char;
    ReChar (N.eqb (code ".")); RePlus word_char ].

(** ** api.py: the fetcher *)

Record PubMedAPI := {
  email : pystr;
  min_request_interval : float;
  last_request_time : float
}.

(** The two module attributes of [Entrez] that the constructor assigns. *)
Record entrez_config := {
  entrez_email : pystr;
  entrez_tool : pystr
}.

(** [a or b] on two optional strings: [a] when it is truthy (a non-empty
    string), else [b]. *)
Definition py_or (a b : option pystr) : option pystr :=
  match a with
  | Some (_ :: _) => a
  | _ => b
  end.

(** [PubMedAPI.__init__]; [environ] is [os.environ].  The division
    [1.0 / requests_per_second] raises [ZeroDivisionError] on a zero divisor
    and is the IEEE quotient otherwise. *)
Definition PubMedAPI__init__ (email : option pystr) (environ : gmap pystr pystr)
    (requests_per_second : float) : result (PubMedAPI * entrez_config) :=
  match py_or email (environ !! "NCBI_EMAIL") with
  | Some (c :: s) =>
      let self_email := c :: s in
      if PrimFloat.eqb requests_per_second 0%float then Raise ZeroDivisionError
      else
        Ok ({| email := self_email;
               min_request_interval := (1 / requests_per_second)%float;
               last_request_time := 0%float |},
            {| entrez_email := self_email;
               entrez_tool := "PubMedAffiliationFilter" |})
  | _ => Raise ValueError
  end.



(** ** api.py: the extractors *)

Definition _extract_publication_date (article : pyval) : result pyval :=
  try_except
    (dates ← py_get article "ArticleDate" (VList [VDict []]);
     pub_date ← py_getitem0 dates;
     if py_truthy pub_date then
       year ← py_get pub_date "Year" (VStr "");
       month ← py_get pub_date "Month" (VStr "");
       day ← py_get pub_date "Day" (VStr "");
       mret (VStr (py_str year ++ "-" ++ py_str month ++ "-" ++ py_str day))
     else
       journal ← py_getitem article "Journal";
       issue ← py_getitem journal "JournalIssue";
       issue_date ← py_getitem issue "PubDate";
       py_get issue_date "Year" (VStr ""))
    (λ e, match e with
          | KeyError | IndexError => Ok (VStr "")
          | _ => Raise e
          end).

Record author_data := {
  last_name : pyval;
  first_name : pyval;
  affiliation : pyval
}.

(** The dict display built for one author. *)
Definition author_entry (author : pyval) : result author_data :=
  last ← py_get author "LastName" (VStr "");
  first ← py_get author "ForeName" (VStr "");
  info ← py_get author "AffiliationInfo" (VList [VDict []]);
  first_info ← py_getitem0 info;
  aff ← py_get first_info "Affiliation" (VStr "");
  mret {| last_name := last; first_name := first; affiliation := aff |}.

Definition _extract_authors (article : pyval) : result (list author_data) :=
  let '(authors, raised) :=
    match py_getitem article "AuthorList" ≫= py_iter with
    | Raise e => ([], Some e)
    | Ok author_list =>
        for_each (λ author authors,
                    match author_entry author with
                    | Ok entry => ((authors ++ [entry]), None)
                    | Raise e => (authors, Some e)
                    end)
                 author_list []
    end in
  match raised with
  | None | Some KeyError => Ok authors
  | Some e => Raise e
  end.

(** One turn of the inner loop of [_extract_affiliations]. *)
Definition add_affiliation (aff : pyval) (affiliations : gset (option pystr))
  : gset (option pystr) * option exn :=
  match py_contains "Affiliation" aff with
  | Raise e => (affiliations, Some e)
  | Ok false => (affiliations, None)
  | Ok true =>
      match py_getitem aff "Affiliation" ≫= as_hashable with
      | Raise e => (affiliations, Some e)
      | Ok h => ({[ h ]} ∪ affiliations, None)
      end
  end.

(** One turn of its outer loop. *)
Definition add_author_affiliations (author : pyval) (affiliations : gset (option pystr))
  : gset (option pystr) * option exn :=
  match py_get author "AffiliationInfo" (VList []) ≫= py_iter with
  | Raise e => (affiliations, Some e)
  | Ok infos => for_each add_affiliation infos affiliations
  end.

(** [list(affiliations)] lists the set in an order Python leaves open; here it
    is the order of [elements]. *)
Definition _extract_affiliations (article : pyval) : result (list (option pystr)) :=
  let '(affiliations, raised) :=
    match py_getitem article "AuthorList" ≫= py_iter with
    | Raise e => (∅, Some e)
    | Ok author_list => for_each add_author_affiliations author_list ∅
    end in
  match raised with
  | None | Some KeyError => Ok (elements affiliations)
  | Some e => Raise e
  end.

(** The body of the inner loop of [_extract_corresponding_email]:
    [Some address] when it returns, [None] when it falls through. *)
Definition email_of_entry (aff : pyval) : result (option pystr) :=
  affiliation ← py_get aff "Affiliation" (VStr "");
  match affiliation with
  | VStr text =>
      if str_contains "email" (str_lower text) || str_contains "@" text
      then Ok (re_search email_pattern text)
      else Ok None
  | VNone | VList _ | VDict _ => Raise AttributeError
  end.

Definition email_of_author (author : pyval) : result (option pystr) :=
  py_contains "AffiliationInfo" author ≫= λ has_info : bool,
  if has_info then
    infos ← py_getitem author "AffiliationInfo" ≫= py_iter;
    for_first email_of_entry infos
  else Ok None.

Definition _extract_corresponding_email (article : pyval) : result (option pystr) :=
  try_except
    (author_list ← py_getitem article "AuthorList" ≫= py_iter;
     for_first email_of_author author_list)
    (λ e, match e with
          | KeyError => Ok None
          | _ => Raise e
          end).

(** ** api.py: fetching and filtering *)

Record paper_data := {
  pmid : pyval;
  title : pyval;
  publication_date : pyval;
  authors : list author_data;
  affiliations : list (option pystr);
  corresponding_email : option pystr
}.

(** The parsed answers of the two remote calls, [Entrez.read] of the handles
    of [Entrez.esearch] and [Entrez.efetch]. *)
Record entrez_service := {
  esearch : pystr → Z → pyval;
  efetch : pyval → pyval
}.

(** [is_company_affiliated(aff)] on an element of the affiliation set: [None]
    has no [upper]. *)
Definition is_company_affiliated_item (aff : option pystr) : result bool :=
  match aff with
  | Some text => Ok (is_company_affiliated text)
  | None => Raise AttributeError
  end.

(** [sum(1 for aff in affiliations if is_company_affiliated(aff))] *)
Fixpoint company_count (affiliations : list (option pystr)) : result Z :=
  match affiliations with
  | [] => Ok 0%Z
  | aff :: rest =>
      is_company_affiliated_item aff ≫= λ is_company : bool,
      n ← company_count rest;
      mret (if is_company then (1 + n)%Z else n)
  end.

(** The dict display [paper_data] of the loop body. *)
Definition extract_paper (paper : pyval) : result paper_data :=
  article ← py_getitem paper "MedlineCitation" ≫= (λ c, py_getitem c "Article");
  pmid ← py_getitem paper "MedlineCitation" ≫= (λ c, py_getitem c "PMID");
  title ← py_getitem article "ArticleTitle";
  publication_date ← _extract_publication_date article;
  authors ← _extract_authors article;
  affiliations ← _extract_affiliations article;
  corresponding_email ← _extract_corresponding_email article;
  mret {| pmid := pmid; title := title; publication_date := publication_date;
          authors := authors; affiliations := affiliations;
          corresponding_email := corresponding_email |}.

(** The loop over [papers]; an exception of the body leaves the function. *)
Fixpoint filter_papers (papers : list pyval) (min_companies : Z)
    (filtered_papers : list paper_data) : result (list paper_data) :=
  match papers with
  | [] => Ok filtered_papers
  | paper :: rest =>
      data ← extract_paper paper;
      count ← company_count (affiliations data);
      if (min_companies <=? count)%Z
      then filter_papers rest min_companies (filtered_papers ++ [data])
      else filter_papers rest min_companies filtered_papers
  end.

(** The defaults of the signature of [fetch_and_filter_papers]. *)
Definition default_min_companies : Z := 1.
Definition default_max_results : Z := 100.

(** [fetch_and_filter_papers]; the two waits on the rate limit before the
    remote calls only touch the clock and [last_request_time]. *)
Definition fetch_and_filter_papers (entrez : entrez_service)
    (query : pystr) (min_companies : Z) (max_results : Z) : result (list paper_data) :=
  let record := esearch entrez query max_results in
  id_list ← py_getitem record "IdList";
  if negb (py_truthy id_list) then Ok []
  else
    papers ← py_getitem (efetch entrez id_list) "PubmedArticle" ≫= py_iter;
    filter_papers papers min_companies [].

(** ** Reading a record the way the specification describes it

    The specification speaks of a record's article date, journal year, authors,
    affiliation entries and affiliation texts.  The functions below pick these
    parts out of a raw record without running the extractors; they are what
    the extractors are compared with. *)

(** The value under key [k] when [v] is a dict that has it. *)
Definition field (k : pystr) (v : pyval) : option pyval :=
  match v with
  | VDict d => dict_lookup k d
  | _ => None
  end.

(** The value at the end of a path of keys. *)
Fixpoint field_path (ks : list pystr) (v : pyval) : option pyval :=
  match ks with
  | [] => Some v
  | k :: ks' =>
      match field k v with
      | Some x => field_path ks' x
      | None => None
      end
  end.

(** The items of a list-valued field; none when the field is missing. *)
Definition list_field (k : pystr) (v : pyval) : list pyval :=
  match field k v with
  | Some (VList l) => l
  | _ => []
  end.

(** The structured article date: the first entry of [ArticleDate], when it is
    a non-empty sub-record. *)
Definition article_date (article : pyval) : option pyval :=
  match list_field "ArticleDate" article with
  | VDict (kv :: d) :: _ => Some (VDict (kv :: d))
  | _ => None
  end.

(** The journal issue's year: [Journal / JournalIssue / PubDate / Year], the
    empty string when only the year is missing. *)
Definition journal_year (article : pyval) : option pyval :=
  match field_path ["Journal"; "JournalIssue"; "PubDate"] article with
  | Some issue_date => Some (default (VStr "") (field "Year" issue_date))
  | None => None
  end.

(** [Year-Month-Day] of a date sub-record, a missing component left blank. *)
Definition hyphenated (date : pyval) : pystr :=
  let part k := py_str (default (VStr "") (field k date)) in
  part "Year" ++ "-" ++ part "Month" ++ "-" ++ part "Day".

(** The publication date as the specification words it: the article date when
    there is one, else the journal year, else the empty string. *)
Definition preferred_publication_date (article : pyval) : pyval :=
  match article_date article with
  | Some date => VStr (hyphenated date)
  | None => default (VStr "") (journal_year article)
  end.

(** The affiliation text of an entry, when it has one. *)
Definition entry_text (aff : pyval) : option pystr :=
  match field "Affiliation" aff with
  | Some (VStr text) => Some text
  | _ => None
  end.

(** Every affiliation text of every entry of every author, in record order. *)
Definition all_affiliation_texts (article : pyval) : list pystr :=
  author ← list_field "AuthorList" article;
  omap entry_text (list_field "AffiliationInfo" author).

(** The record-level affiliations: the texts above without repetition. *)
Definition record_affiliations (article : pyval) : list pystr :=
  remove_dups (all_affiliation_texts article).

(** How many record-level affiliations the classifier calls a company. *)
Definition company_affiliations (article : pyval) : Z :=
  Z.of_nat (length (filter (λ text, is_company_affiliated text = true)
                           (record_affiliations article))).

(** The texts the e-mail scan looks at, in scan order: one per affiliation
    entry, the empty string for an entry without a text. *)
Definition scanned_texts (article : pyval) : list pystr :=
  author ← list_field "AuthorList" article;
  (λ aff, default [] (entry_text aff)) <$> list_field "AffiliationInfo" author.

(** The pre-filter: the text has an [@] sign or, in any letter case, the
    letters [email] in a row. *)
Definition mentions_address (text : pystr) : Prop :=
  (∃ pre post, text = pre ++ "@" ++ post) ∨ contains_ci text "email".

Fixpoint all_chars (p : N → bool) (s : pystr) : bool :=
  match s with
  | [] => true
  | c :: s' => p c && all_chars p s'
  end.

(** The shape the pattern accepts: a local part, [@], a domain, a dot and a
    top-level label, each non-empty, of word, dot and hyphen characters, the
    label of word characters only. *)
Definition is_address (m : pystr) : Prop :=
  ∃ local domain label,
    m = local ++ "@" ++ domain ++ "." ++ label ∧
    local ≠ [] ∧ all_chars addr_char local = true ∧
    domain ≠ [] ∧ all_chars addr_char domain = true ∧
    label ≠ [] ∧ all_chars word_char label = true.

(** The words a pattern accepts. *)
Fixpoint re_lang (re : list re_atom) (w : pystr) : Prop :=
  match re with
  | [] => w = []
  | ReChar p :: re' => ∃ c w', w = c :: w' ∧ p c = true ∧ re_lang re' w'
  | RePlus p :: re' =>
      ∃ u w', w = u ++ w' ∧ u ≠ [] ∧ all_chars p u = true ∧ re_lang re' w'
  end.

(** The first address that [re.search] finds in a list of texts. *)
Definition first_address (texts : list pystr) : option pystr :=
  head (omap (re_search email_pattern) texts).

(** *** Well-shaped records

    A record may lack any of its keys.  What these predicates ask is that a
    key that is there holds a value of the expected kind: a dict where a
    sub-record is expected, a list where entries are expected, a string where
    an affiliation text is expected. *)

Definition missing_or_dict (o : option pyval) : bool :=
  match o with
  | None | Some (VDict _) => true
  | _ => false
  end.

Definition entry_ok (aff : pyval) : bool :=
  match aff with
  | VDict d =>
      match dict_lookup "Affiliation" d with
      | None | Some (VStr _) => true
      | _ => false
      end
  | _ => false
  end.

Definition author_ok (author : pyval) : bool :=
  match author with
  | VDict d =>
      match dict_lookup "AffiliationInfo" d with
      | None => true
      | Some (VList infos) => forallb entry_ok infos
      | _ => false
      end
  | _ => false
  end.

Definition authors_ok (article : pyval) : bool :=
  match article with
  | VDict d =>
      match dict_lookup "AuthorList" d with
      | None => true
      | Some (VList author_list) => forallb author_ok author_list
      | _ => false
      end
  | _ => false
  end.

(** The article date, when the key is there, is a list whose first entry, if
    any, is a sub-record; the journal path goes through sub-records. *)
Definition dates_ok (article : pyval) : bool :=
  match article with
  | VDict d =>
      match dict_lookup "ArticleDate" d with
      | None | Some (VList []) | Some (VList (VDict _ :: _)) => true
      | _ => false
      end
      && missing_or_dict (field_path ["Journal"] article)
      && missing_or_dict (field_path ["Journal"; "JournalIssue"] article)
      && missing_or_dict (field_path ["Journal"; "JournalIssue"; "PubDate"] article)
  | _ => false
  end.

(** The [ArticleDate] key is missing or holds at least one entry. *)
Definition article_date_listed (article : pyval) : bool :=
  match field "ArticleDate" article with
  | Some (VList []) => false
  | _ => true
  end.

(** No author has an [AffiliationInfo] key that holds an empty list. *)
Definition affiliations_listed (article : pyval) : bool :=
  forallb (λ author, match field "AffiliationInfo" author with
                     | Some (VList []) => false
                     | _ => true
                     end)
          (list_field "AuthorList" article).

(** A fetched item that has its citation, identifier, article and title, and
    whose article is well-shaped with no empty affiliation list. *)
Definition paper_ok (paper : pyval) : bool :=
  match field "MedlineCitation" paper with
  | Some (VDict citation) =>
      match dict_lookup "PMID" citation, dict_lookup "Article" citation with
      | Some _, Some article =>
          bool_decide (is_Some (field "ArticleTitle" article))
          && dates_ok article && authors_ok article && affiliations_listed article
      | _, _ => false
      end
  | _ => false
  end.

(** The article of a fetched item. *)
Definition article_of (paper : pyval) : pyval :=
  default VNone (field_path ["MedlineCitation"; "Article"] paper).

(** A contact identifier is supplied by a source when the source holds a
    non-empty string. *)
Definition supplies_identifier (source : option pystr) : Prop :=
  ∃ identifier, source = Some identifier ∧ identifier ≠ [].

(** The batch of records a call fetches: the items under [PubmedArticle] of
    the fetch answer, and nothing when the search found no identifier. *)
Definition fetched_batch (entrez : entrez_service) (query : pystr) (max_results : Z)
  : list pyval :=
  match field "IdList" (esearch entrez query max_results) with
  | Some id_list =>
      if py_truthy id_list then list_field "PubmedArticle" (efetch entrez id_list)
      else []
  | None => []
  end.

(** The search answer has its list of identifiers and, unless that list is
    empty, the fetch answer has its list of articles. *)
Definition answers_ok (entrez : entrez_service) (query : pystr) (max_results : Z) : bool :=
  match field "IdList" (esearch entrez query max_results) with
  | Some id_list =>
      negb (py_truthy id_list) ||
      match field "PubmedArticle" (efetch entrez id_list) with
      | Some (VList _) => true
      | _ => false
      end
  | None => false
  end.

(** *** Clock readings as exact numbers

    A double that is neither infinite nor a NaN is an integer number of
    units of [2^-1074], the smallest positive double; [ticks] is that
    number. *)









(** ** Example records *)

(** An article with an article date that lacks its month. *)
Definition article_2023_07 : pyval :=
  VDict [ ("ArticleDate", VList [ VDict [ ("Year", VStr "2023"); ("Day", VStr "07") ] ]);
          ("Journal", VDict [ ("JournalIssue",
              VDict [ ("PubDate", VDict [ ("Year", VStr "2022") ]) ]) ]) ].

(** A record of the shape [Entrez.read] gives to an article without an
    article date: the [ArticleDate] key is there and holds an empty list. *)
Definition article_without_article_date : pyval :=
  VDict [ ("ArticleDate", VList []);
          ("Journal", VDict [ ("JournalIssue",
              VDict [ ("PubDate", VDict [ ("Year", VStr "2023") ]) ]) ]) ].

(** An author as [Entrez.read] returns one that has no affiliation: the
    [AffiliationInfo] key is there and holds an empty list. *)
Definition author_without_affiliation : pyval :=
  VDict [ ("LastName", VStr "Smith"); ("ForeName", VStr "John");
          ("AffiliationInfo", VList []) ].

Definition article_of_unaffiliated_author : pyval :=
  VDict [ ("ArticleTitle", VStr "Test Paper 1");
          ("AuthorList", VList [ author_without_affiliation ]) ].

(** Two authors; the first asks to be written to without giving an address,
    the second gives one. *)
Definition article_with_contact : pyval :=
  VDict [ ("AuthorList", VList [
            VDict [ ("LastName", VStr "Roe");
                    ("AffiliationInfo", VList [
                       VDict [ ("Affiliation", VStr "Please email the laboratory") ];
                       VDict [] ]) ];
            VDict [ ("LastName", VStr "Doe");
                    ("AffiliationInfo", VList [
                       VDict [ ("Affiliation", VStr "Dept, contact: jane.doe@biotech.com") ];
                       VDict [ ("Affiliation", VStr "other@example.org") ] ]) ] ]) ].

(** The record of the repository's end-to-end test, and the service that
    answers with it. *)
Definition test_paper : pyval :=
  VDict [ ("MedlineCitation", VDict [
            ("PMID", VStr "12345");
            ("Article", VDict [
               ("ArticleTitle", VStr "Test Paper 1");
               ("AuthorList", VList [
                  VDict [ ("LastName", VStr "Smith"); ("ForeName", VStr "John");
                          ("AffiliationInfo", VList [
                             VDict [ ("Affiliation", VStr "Pfizer Inc.") ] ]) ] ]);
               ("Journal", VDict [ ("JournalIssue",
                  VDict [ ("PubDate", VDict [ ("Year", VStr "2023") ]) ]) ]) ]) ]) ].

(** A second record: two authors of one university, one of them also with a
    company, the company named twice. *)
Definition mixed_paper : pyval :=
  VDict [ ("MedlineCitation", VDict [
            ("PMID", VStr "67890");
            ("Article", VDict [
               ("ArticleTitle", VStr "Test Paper 2");
               ("ArticleDate", VList [ VDict [ ("Year", VStr "2024"); ("Month", VStr "05");
                                               ("Day", VStr "17") ] ]);
               ("AuthorList", VList [
                  VDict [ ("LastName", VStr "Lee");
                          ("AffiliationInfo", VList [
                             VDict [ ("Affiliation", VStr "Harvard University") ];
                             VDict [ ("Affiliation", VStr "Moderna Therapeutics") ] ]) ];
                  VDict [ ("LastName", VStr "Kim");
                          ("AffiliationInfo", VList [
                             VDict [ ("Affiliation", VStr "Moderna Therapeutics") ];
                             VDict [ ("Affiliation", VStr "BioNTech GmbH") ] ]) ] ]) ]) ]) ].

Definition test_entrez : entrez_service :=
  {| esearch := λ _ _, VDict [ ("IdList", VList [ VStr "12345"; VStr "67890" ]) ];
     efetch := λ _, VDict [ ("PubmedArticle", VList [ test_paper; mixed_paper ]) ] |}.

(** A service whose fetch answer holds one record with an unaffiliated
    author. *)
Definition unaffiliated_entrez : entrez_service :=
  {| esearch := λ _ _, VDict [ ("IdList", VList [ VStr "12345" ]) ];
     efetch := λ _, VDict [ ("PubmedArticle", VList [
                 VDict [ ("MedlineCitation", VDict [
                   ("PMID", VStr "12345");
                   ("Article", article_of_unaffiliated_author) ]) ] ]) ] |}.

(** The identifiers of the records a call returned. *)
Definition returned_pmids (outcome : result (list paper_data)) : result (list pyval) :=
  match outcome with
  | Ok kept => Ok (map pmid kept)
  | Raise e => Raise e
  end.

(** ** utils.py

    A cell of a row is a value of the record or an integer.  The row that
    [save_to_csv] builds is a dict in insertion order; what it hands to
    [pandas] is the list of rows and the file name. *)

Definition newline : pystr := [10%N].

(** [str(n)] of an integer that is not negative. *)
Definition str_of_nat (n : nat) : pystr :=
  of_ascii_string (NilEmpty.string_of_uint (Nat.to_uint n)).

Inductive cell :=
| CVal (v : pyval)
| CInt (n : Z).

(** [row[k] = x] *)
Fixpoint row_set (k : pystr) (x : cell) (row : list (pystr * cell))
  : list (pystr * cell) :=
  match row with
  | [] => [(k, x)]
  | (k', y) :: row' =>
      if str_eqb k k' then (k, x) :: row' else (k', y) :: row_set k x row'
  end.

(** The items of a [join] when all of them are strings. *)
Fixpoint all_strings (items : list (option pystr)) : option (list pystr) :=
  match items with
  | [] => Some []
  | Some text :: rest =>
      match all_strings rest with
      | Some texts => Some (text :: texts)
      | None => None
      end
  | None :: _ => None
  end.

(** [sep.join(items)]; an item that is not a string is a [TypeError]. *)
Definition str_join (sep : pystr) (items : list (option pystr)) : result pystr :=
  match all_strings items with
  | Some texts => Ok (str_concat sep texts)
  | None => Raise TypeError
  end.

(** [f"{author['first_name']} {author['last_name']}"] *)
Definition author_name (author : author_data) : pystr :=
  py_str (first_name author) ++ " " ++ py_str (last_name author).

(** [paper["corresponding_email"] or ""], and the branch of
    [if paper["corresponding_email"]]: the address when it is a non-empty
    string. *)
Definition email_or_empty (address : option pystr) : pystr :=
  match address with
  | Some (c :: s) => c :: s
  | _ => []
  end.

(** The loop [for i, author in enumerate(authors, 1)] of [save_to_csv], from
    index [i] on. *)
Fixpoint add_author_columns (i : nat) (authors : list author_data)
    (row : list (pystr * cell)) : list (pystr * cell) :=
  match authors with
  | [] => row
  | author :: rest =>
      add_author_columns (S i) rest
        (if (i <=? 5)%nat then
           let prefix := "Author" ++ str_of_nat i in
           row_set (prefix ++ " Affiliation") (CVal (affiliation author))
             (row_set (prefix ++ " Name") (CVal (VStr (author_name author))) row)
         else row)
  end.

(** The row built for one paper. *)
Definition flatten_paper (paper : paper_data) : result (list (pystr * cell)) :=
  joined ← str_join "; " (affiliations paper);
  mret (add_author_columns 1 (authors paper)
          [ ("PMID", CVal (pmid paper));
            ("Title", CVal (title paper));
            ("Publication Date", CVal (publication_date paper));
            ("Corresponding Email", CVal (VStr (email_or_empty (corresponding_email paper))));
            ("Author Count", CInt (Z.of_nat (length (authors paper))));
            ("Affiliations", CVal (VStr joined)) ]).

Fixpoint flatten_papers (papers : list paper_data)
    (flattened_data : list (list (pystr * cell))) : result (list (list (pystr * cell))) :=
  match papers with
  | [] => Ok flattened_data
  | paper :: rest =>
      row ← flatten_paper paper;
      flatten_papers rest (flattened_data ++ [row])
  end.

(** How [pd.DataFrame(flattened_data).to_csv(filename, index=False)] ends for
    a file name and the rows: [None] when the file was written, the
    exception when the call raised, as it does with [OSError] for a path that
    cannot be written. *)
Definition csv_writer : Type := pystr → list (list (pystr * cell)) → option exn.

(** [save_to_csv]: nothing is written for an empty list; otherwise the rows
    are built, then written to the file. *)
Definition save_to_csv (to_csv : csv_writer) (papers : list paper_data) (filename : pystr)
  : result (option (pystr * list (list (pystr * cell)))) :=
  match papers with
  | [] => Ok None
  | _ :: _ =>
      flattened_data ← flatten_papers papers [];
      match to_csv filename flattened_data with
      | Some e => Raise e
      | None => Ok (Some (filename, flattened_data))
      end
  end.

(** The lines that the loop of [format_paper_details] appends for one author. *)
Definition author_lines (author : author_data) : list pystr :=
  ("  - " ++ author_name author) ::
  (if py_truthy (affiliation author)
   then [ "    Affiliation: " ++ py_str (affiliation author) ]
   else []).

Definition format_paper_details (paper : paper_data) : pystr :=
  let lines :=
    [ "PMID: " ++ py_str (pmid paper);
      "Title: " ++ py_str (title paper);
      "Publication Date: " ++ py_str (publication_date paper) ] in
  let lines :=
    match corresponding_email paper with
    | Some (c :: s) => lines ++ [ "Corresponding Email: " ++ c :: s ]
    | _ => lines
    end in
  let lines := lines ++ [ newline ++ "Authors:" ] in
  let lines := fold_left (λ lines author, lines ++ author_lines author)
                         (authors paper) lines in
  str_concat newline lines ++ newline.

(** ** cli.py

    [main] after [parse_args]: the parsed arguments, the environment, the
    remote service and the outcome of writing the file are its inputs; what
    it prints, what it has written and how it ends are its result.  Log
    records are left out. *)

Record cli_args := {
  arg_query : pystr;
  arg_file : option pystr;
  arg_debug : bool;
  arg_min_companies : Z;
  arg_email : option pystr;
  arg_max_results : Z
}.

Inductive ending :=
| Returned
| Exited (status : Z)
| Raised (e : exn).

Record run := {
  stdout : list pystr;
  stderr : list pystr;
  written : option (pystr * list (list (pystr * cell)));
  ended : ending
}.

(** The message of the [ValueError] that [PubMedAPI.__init__] raises. *)
Definition email_required : pystr :=
  "Email address is required. Set via constructor or NCBI_EMAIL environment variable.".

(** The two [except] clauses of [main], entered with what was printed so
    far and with [str(e)], the text of the exception. *)
Definition main_except (args : cli_args) (printed : list pystr) (message : pystr)
    (e : exn) : run :=
  match e with
  | ValueError =>
      {| stdout := printed; stderr := [ "Error: " ++ message ];
         written := None; ended := Exited 1 |}
  | _ =>
      {| stdout := printed; stderr := []; written := None;
         ended := if arg_debug args then Raised e else Exited 1 |}
  end.

(** [describe e] is the text of an exception that comes out of the fetch or
    of the saving; the exceptions of the model carry none. *)
Definition main (describe : exn → pystr) (to_csv : csv_writer) (args : cli_args)
    (environ : gmap pystr pystr) (entrez : entrez_service) : run :=
  match PubMedAPI__init__ (arg_email args) environ 3%float with
  | Raise e => main_except args [] email_required e
  | Ok _ =>
      let printed := [ "Query: " ++ arg_query args; "Searching PubMed..." ] in
      match fetch_and_filter_papers entrez (arg_query args)
              (arg_min_companies args) (arg_max_results args) with
      | Raise e => main_except args printed (describe e) e
      | Ok [] =>
          {| stdout := printed ++ [ "No papers found matching the criteria." ];
             stderr := []; written := None; ended := Returned |}
      | Ok papers =>
          let printed :=
            printed ++ [ "Found " ++ str_of_nat (length papers)
                           ++ " papers with company affiliations." ] in
          match arg_file args with
          | Some (c :: s) =>
              match save_to_csv to_csv papers (c :: s) with
              | Raise e => main_except args printed (describe e) e
              | Ok saved =>
                  {| stdout := printed ++ [ "Results saved to " ++ c :: s ];
                     stderr := []; written := saved; ended := Returned |}
              end
          | _ =>
              {| stdout := printed ++
                             map (λ paper, newline ++ format_paper_details paper) papers;
                 stderr := []; written := None; ended := Returned |}
          end
      end
  end.

(** ** Further readings of a record *)

(** The classifier of [filters.py] over any two keyword lists. *)
Definition classify_with (non_company company : list pystr) (affiliation : pystr) : bool :=
  let affiliation_upper := str_upper affiliation in
  match first_keyword_in non_company affiliation_upper with
  | Some _ => false
  | None =>
      match first_keyword_in company affiliation_upper with
      | Some _ => true
      | None => false
      end
  end.

(** The company keywords that hold no other company keyword. *)
Definition core_company_keywords : list pystr :=
  [ "Inc"; "Ltd"; "LLC"; "GmbH"; "Pharma"; "Biotech"; "Therapeutics"; "Co";
    "Biosciences"; "Labs"; "Laboratories"; "Technologies" ].

(** What the author list keeps of one author: the two names, and the text of
    the first affiliation entry; the empty string for what is missing. *)
Definition author_summary (author : pyval) : author_data :=
  {| last_name := default (VStr "") (field "LastName" author);
     first_name := default (VStr "") (field "ForeName" author);
     affiliation :=
       match list_field "AffiliationInfo" author with
       | first :: _ => default (VStr "") (field "Affiliation" first)
       | [] => VStr ""
       end |}.

(** The test of the filtering loop on an extracted record. *)
Definition reaches_threshold (min_companies : Z) (data : paper_data) : bool :=
  match company_count (affiliations data) with
  | Ok count => (min_companies <=? count)%Z
  | Raise _ => false
  end.

(** The value under a column of a row. *)
Fixpoint row_get (k : pystr) (row : list (pystr * cell)) : option cell :=
  match row with
  | [] => None
  | (k', x) :: row' => if str_eqb k k' then Some x else row_get k row'
  end.

(** How often a character occurs in a string. *)
Fixpoint count_char (c : N) (s : pystr) : nat :=
  match s with
  | [] => 0
  | (c' :: s') => (if (c =? c')%N then 1 else 0) + count_char c s'
  end.

(** The last character of a string. *)
Fixpoint last_char (s : pystr) : option N :=
  match s with
  | [] => None
  | [c] => Some c
  | _ :: s' => last_char s'
  end.

(** The first character of a string. *)
Definition first_char (s : pystr) : option N :=
  match s with
  | [] => None
  | c :: _ => Some c
  end.

(** ** More example records *)

(** Seven authors, the third without an affiliation text. *)
Definition seven_authors : list author_data :=
  map (λ name, {| last_name := VStr name; first_name := VStr "A.";
                  affiliation := if str_eqb name "C" then VStr "" else VStr "Acme Labs" |})
      [ "A"; "B"; "C"; "D"; "E"; "F"; "G" ].

Definition crowded_paper : paper_data :=
  {| pmid := VStr "424242"; title := VStr "Crowded"; publication_date := VStr "2024-05-17";
     authors := seven_authors; affiliations := [ Some "Acme Labs" ];
     corresponding_email := Some "a@acme.example" |}.

(** An author list whose second author has a dict where the list of
    affiliation entries is expected. *)
Definition article_with_dict_affiliation : pyval :=
  VDict [ ("AuthorList", VList [
            VDict [ ("LastName", VStr "Roe");
                    ("AffiliationInfo", VList [ VDict [ ("Affiliation", VStr "Acme Labs") ] ]) ];
            VDict [ ("LastName", VStr "Doe");
                    ("AffiliationInfo", VDict [ ("Affiliation", VStr "Acme Labs") ]) ];
            VDict [ ("LastName", VStr "Poe") ] ]) ].

Definition file_args : cli_args :=
  {| arg_query := "test query"; arg_file := Some "out.csv"; arg_debug := false;
     arg_min_companies := 1; arg_email := Some "test@example.com";
     arg_max_results := 100 |}.

Definition console_args : cli_args :=
  {| arg_query := "test query"; arg_file := None; arg_debug := true;
     arg_min_companies := 1; arg_email := None; arg_max_results := 100 |}.

(** A record whose only author gives an address. *)
Definition contact_paper : pyval :=
  VDict [ ("MedlineCitation", VDict [
            ("PMID", VStr "777");
            ("Article", VDict [
               ("ArticleTitle", VStr "Contact");
               ("AuthorList", VList [
                  VDict [ ("LastName", VStr "Doe"); ("ForeName", VStr "Jane");
                          ("AffiliationInfo", VList [
                             VDict [ ("Affiliation",
                                      VStr "Acme Biotech, contact: jane.doe@biotech.com") ] ]) ] ]) ]) ]) ].

(** A file system that takes every file, and one that takes none. *)
Definition writable : csv_writer := λ _ _, None.
Definition unwritable : csv_writer := λ _ _, Some OSError.

(** A service whose fetch answer holds the record of the test, which names a
    company, followed by a record with an unaffiliated author. *)
Definition unaffiliated_paper : pyval :=
  VDict [ ("MedlineCitation", VDict [
            ("PMID", VStr "99999");
            ("Article", article_of_unaffiliated_author) ]) ].

Definition partly_unaffiliated_entrez : entrez_service :=
  {| esearch := λ _ _, VDict [ ("IdList", VList [ VStr "12345"; VStr "99999" ]) ];
     efetch := λ _, VDict [ ("PubmedArticle", VList [ test_paper; unaffiliated_paper ]) ] |}.

(** The fetcher that the constructor makes at its default rate of three
    requests per second. *)
Definition three_per_second : PubMedAPI :=
  {| email := "test@example.com";
     min_request_interval := (1 / 3)%float;
     last_request_time := 0%float |}.




(** ** Strings: auxiliary facts *)

(** A test that holds of the first 128 code points holds of every ASCII
    character. *)
Lemma below_128 (q : N → bool) :
  forallb q (N.of_nat <$> seq 0 128) = true → ∀ c, (c < 128)%N → q c = true.
Proof.
  intros H c Hc. rewrite forallb_forall in H. apply H.
  apply in_map_iff. exists (N.to_nat c). split; [lia|]. apply in_seq. lia.
Qed.

Lemma below_128_pairs (q : N → N → bool) :
  forallb (λ a, forallb (q a) (N.of_nat <$> seq 0 128)) (N.of_nat <$> seq 0 128) = true →
  ∀ a b, (a < 128)%N → (b < 128)%N → q a b = true.
Proof.
  intros H a b Ha Hb.
  pose proof (below_128 (λ a, forallb (q a) (N.of_nat <$> seq 0 128)) H a Ha) as Hq.
  by apply (below_128 (q a)).
Qed.

Lemma str_eqb_eq (a b : pystr) : str_eqb a b = true ↔ a = b.
Proof.
  revert b. induction a as [|x a IH]; intros [|y b]; simpl; try done.
  rewrite andb_true_iff, N.eqb_eq, IH. naive_solver.
Qed.

Lemma str_eqb_refl (a : pystr) : str_eqb a a = true.
Proof. by apply str_eqb_eq. Qed.

Lemma str_eqb_neq (a b : pystr) : str_eqb a b = false ↔ a ≠ b.
Proof. rewrite <- str_eqb_eq. by destruct (str_eqb a b). Qed.

Lemma str_has_elem (c : N) (s : pystr) : str_has c s = true ↔ c ∈ s.
Proof.
  induction s as [|a s IH]; simpl.
  - split; [done|]. by intros ?%elem_of_nil.
  - rewrite orb_true_iff, N.eqb_eq, IH, elem_of_cons. done.
Qed.

Lemma str_upper_app (s t : pystr) : str_upper (s ++ t) = str_upper s ++ str_upper t.
Proof. induction s as [|c s IH]; simpl; [done|]. by rewrite IH, app_assoc. Qed.

Lemma str_prefix_app (needle hay : pystr) :
  str_prefix needle hay = true ↔ ∃ post, hay = needle ++ post.
Proof.
  revert hay. induction needle as [|c needle IH]; intros [|a hay]; simpl.
  - split; [by exists []|done].
  - split; [by eexists|done].
  - split; [done|]. by intros [post H].
  - rewrite andb_true_iff, N.eqb_eq, IH. split.
    + intros [-> [post ->]]. by exists post.
    + intros [post [= -> ->]]. split; [done|]. by exists post.
Qed.

Lemma str_contains_nil (needle : pystr) :
  str_contains needle [] = str_prefix needle [].
Proof. simpl. apply orb_false_r. Qed.

Lemma str_contains_cons (needle : pystr) (a : N) (hay : pystr) :
  str_contains needle (a :: hay) =
  str_prefix needle (a :: hay) || str_contains needle hay.
Proof. reflexivity. Qed.

(** [needle in hay] holds exactly when [hay] splits around a copy of [needle]. *)
Lemma str_contains_app (needle hay : pystr) :
  str_contains needle hay = true ↔ ∃ pre post, hay = pre ++ needle ++ post.
Proof.
  induction hay as [|a hay IH].
  - rewrite str_contains_nil, str_prefix_app. split.
    + intros [post H]. by exists [], post.
    + intros (pre & post & H). destruct pre; simpl in H; [eauto|done].
  - rewrite str_contains_cons, orb_true_iff, str_prefix_app, IH. split.
    + intros [[post H]|(pre & post & H)].
      * by exists [], post.
      * exists (a :: pre), post. simpl. by rewrite H.
    + intros (pre & post & H). destruct pre as [|c pre]; simpl in H.
      * left. eauto.
      * right. exists pre, post. congruence.
Qed.

(** *** Letter case *)

Lemma swapcase_upper_char (c : N) : upper_char (swapcase_char c) = upper_char c.
Proof.
  destruct (N.ltb_spec c 128) as [Hc|Hc].
  - apply str_eqb_eq.
    apply (below_128 (λ c, str_eqb (upper_char (swapcase_char c)) (upper_char c)));
      [vm_compute; reflexivity|done].
  - unfold swapcase_char, is_lower_letter, is_upper_letter.
    assert ((c <=? 122)%N = false ∧ (c <=? 90)%N = false) as [-> ->]
      by (split; apply N.leb_gt; lia).
    by rewrite !andb_false_r.
Qed.

Lemma same_letter_upper (a b : N) :
  same_letter a b = true → upper_char a = upper_char b.
Proof.
  unfold same_letter. rewrite orb_true_iff, !N.eqb_eq.
  intros [->| <-]; [done|]. symmetry. apply swapcase_upper_char.
Qed.

(** Strings that differ only in letter case have the same upper-casing. *)
Lemma case_variant_upper (s t : pystr) :
  case_variant s t = true → str_upper s = str_upper t.
Proof.
  revert t. induction s as [|a s IH]; intros [|b t]; simpl; try done.
  intros [Hab Hst]%andb_true_iff. by rewrite (same_letter_upper a b Hab), (IH t Hst).
Qed.

(** A case-insensitive occurrence of a keyword is seen by the test the code
    runs on the two upper-cased strings. *)
Lemma contains_ci_upper (keyword s : pystr) :
  contains_ci s keyword → str_contains (str_upper keyword) (str_upper s) = true.
Proof.
  intros (pre & mid & post & -> & H). apply case_variant_upper in H.
  apply str_contains_app. exists (str_upper pre), (str_upper post).
  by rewrite !str_upper_app, H.
Qed.

Lemma first_keyword_in_None (keywords : list pystr) (u : pystr) :
  first_keyword_in keywords u = None ↔
  ∀ keyword, keyword ∈ keywords → str_contains (str_upper keyword) u = false.
Proof.
  induction keywords as [|k ks IH]; simpl.
  - split; [|done]. intros _ k Hk. by apply elem_of_nil in Hk.
  - destruct (str_contains (str_upper k) u) eqn:E.
    + split; [done|]. intros H. specialize (H k (list_elem_of_here _ _)). congruence.
    + rewrite IH. split.
      * intros H k' [->|Hk']%elem_of_cons; auto.
      * intros H k' Hk'. apply H. by apply list_elem_of_further.
Qed.

Lemma first_keyword_in_Some (keywords : list pystr) (u keyword : pystr) :
  first_keyword_in keywords u = Some keyword →
  keyword ∈ keywords ∧ str_contains (str_upper keyword) u = true.
Proof.
  induction keywords as [|k ks IH]; simpl; [done|].
  destruct (str_contains (str_upper k) u) eqn:E.
  - intros [= <-]. split; [apply list_elem_of_here|done].
  - intros [H1 H2]%IH. split; [by apply list_elem_of_further|done].
Qed.

(** The loop finds a keyword whenever the string contains one
    case-insensitively. *)
Lemma first_keyword_in_ci (keywords : list pystr) (s : pystr) :
  has_keyword_ci keywords s → is_Some (first_keyword_in keywords (str_upper s)).
Proof.
  intros (k & Hk & Hc). apply contains_ci_upper in Hc.
  destruct (first_keyword_in keywords (str_upper s)) eqn:E; [by eexists|].
  rewrite first_keyword_in_None in E. rewrite (E k Hk) in Hc. done.
Qed.

(** *** Case-insensitive containment as a test *)

Lemma case_variant_prefix_spec (keyword s : pystr) :
  case_variant_prefix keyword s = true ↔
  ∃ mid post, s = mid ++ post ∧ case_variant mid keyword = true.
Proof.
  revert s. induction keyword as [|b keyword IH]; intros s; simpl.
  - split; [intros _; by exists [], s|done].
  - destruct s as [|a s].
    + split; [done|]. intros ([|a mid] & post & H & Hv); simpl in *; done.
    + rewrite andb_true_iff, IH. split.
      * intros (Hab & mid & post & -> & Hv). exists (a :: mid), post. simpl.
        by rewrite Hab, Hv.
      * intros ([|a' mid] & post & H & Hv); simpl in *; [done|].
        injection H as <- ->. apply andb_true_iff in Hv as [Hab Hv]. eauto.
Qed.

Lemma find_ci_spec (keyword s : pystr) :
  find_ci keyword s = true ↔ contains_ci s keyword.
Proof.
  unfold contains_ci. induction s as [|a s IH]; simpl.
  - rewrite orb_false_r, case_variant_prefix_spec. split.
    + intros (mid & post & H & Hv). by exists [], mid, post.
    + intros ([|] & mid & post & H & Hv); [|done]. by exists mid, post.
  - rewrite orb_true_iff, case_variant_prefix_spec, IH. split.
    + intros [(mid & post & H & Hv)|(pre & mid & post & H & Hv)].
      * by exists [], mid, post.
      * exists (a :: pre), mid, post. simpl. by rewrite H.
    + intros ([|a' pre] & mid & post & H & Hv); simpl in H.
      * left. by exists mid, post.
      * right. injection H as <- ->. by exists pre, mid, post.
Qed.

Lemma has_keyword_find (keywords : list pystr) (s : pystr) :
  has_keyword_ci keywords s ↔ existsb (λ keyword, find_ci keyword s) keywords = true.
Proof.
  unfold has_keyword_ci. rewrite existsb_exists. setoid_rewrite find_ci_spec.
  by setoid_rewrite list_elem_of_In.
Qed.

(** *** The converse, for plain strings *)

Lemma special_Some (table : list (N * list N)) (c : N) (image : list N) :
  special table c = Some image → (c, image) ∈ table.
Proof.
  induction table as [|[c' image'] table IH]; simpl; [done|].
  destruct (N.eqb_spec c c') as [->|].
  - intros [= ->]. apply list_elem_of_here.
  - intros H. apply list_elem_of_further. by apply IH.
Qed.

Lemma upper_char_nonempty (c : N) : upper_char c ≠ [].
Proof.
  unfold upper_char. destruct (special upper_special c) as [image|] eqn:E; [|done].
  apply special_Some in E. intros ->.
  assert (forallb (λ entry, negb (str_eqb entry.2 [])) upper_special = true) as H
    by (vm_compute; reflexivity).
  rewrite forallb_forall in H. apply list_elem_of_In, H in E. done.
Qed.

(** On an ASCII character [upper] moves the 26 small letters and nothing
    else. *)
Lemma upper_char_ascii (c : N) :
  (c < 128)%N → upper_char c = [if is_lower_letter c then (c - 32)%N else c].
Proof.
  intros Hc. apply str_eqb_eq.
  apply (below_128 (λ c, str_eqb (upper_char c)
                            [if is_lower_letter c then (c - 32)%N else c]));
    [vm_compute; reflexivity|done].
Qed.

Lemma upper_ascii_same_letter (a b : N) :
  (a < 128)%N → (b < 128)%N → upper_char a = upper_char b → same_letter a b = true.
Proof.
  intros Ha Hb H.
  pose proof (below_128_pairs
                (λ a b, negb (str_eqb (upper_char a) (upper_char b)) || same_letter a b)) as Hq.
  specialize (Hq ltac:(vm_compute; reflexivity) a b Ha Hb). simpl in Hq.
  by rewrite H, str_eqb_refl in Hq.
Qed.

Lemma upper_prefix_ci (keyword s : pystr) :
  forallb is_ascii keyword = true →
  forallb plain_char s = true →
  str_prefix (str_upper keyword) (str_upper s) = true →
  case_variant_prefix keyword s = true.
Proof.
  revert s. induction keyword as [|b keyword IH]; intros s; [done|].
  cbn [forallb str_upper case_variant_prefix].
  intros [Hb Hk]%andb_true_iff. apply N.ltb_lt in Hb.
  rewrite (upper_char_ascii b Hb).
  destruct s as [|a s]; [done|]. cbn [forallb str_upper].
  intros [Ha Hs]%andb_true_iff. unfold plain_char in Ha.
  destruct (is_ascii a) eqn:Ea.
  - apply N.ltb_lt in Ea. rewrite (upper_char_ascii a Ea). simpl.
    intros [Hab Hp]%andb_true_iff. apply N.eqb_eq in Hab.
    rewrite (IH s Hk Hs Hp), andb_true_r.
    apply (upper_ascii_same_letter a b Ea Hb).
    by rewrite (upper_char_ascii a Ea), (upper_char_ascii b Hb), Hab.
  - simpl in Ha. pose proof (upper_char_nonempty a) as Hne.
    destruct (upper_char a) as [|u image]; [done|]. simpl in Ha |- *.
    apply andb_true_iff in Ha as [Hu _]. apply negb_true_iff, N.ltb_ge in Hu.
    intros [Hbu _]%andb_true_iff. apply N.eqb_eq in Hbu.
    destruct (is_lower_letter b) eqn:El; [|lia].
    unfold is_lower_letter in El. lia.
Qed.

(** Nothing that begins with an ASCII character begins inside the
    upper-casing of a character that is not ASCII but plain. *)
Lemma str_contains_skip (needle image hay : pystr) (b : N) :
  (b < 128)%N →
  forallb (λ u, negb (is_ascii u)) image = true →
  str_contains (b :: needle) (image ++ hay) = str_contains (b :: needle) hay.
Proof.
  intros Hb. induction image as [|u image IH]; [done|]. simpl.
  intros [Hu Himage]%andb_true_iff. apply negb_true_iff, N.ltb_ge in Hu.
  rewrite (proj2 (N.eqb_neq b u)) by lia. simpl. by apply IH.
Qed.

Lemma str_contains_upper_plain (keyword s : pystr) :
  forallb is_ascii keyword = true →
  forallb plain_char s = true →
  str_contains (str_upper keyword) (str_upper s) = true →
  contains_ci s keyword.
Proof.
  intros Hk Hs Hc. apply find_ci_spec.
  destruct keyword as [|b keyword]; [by destruct s|].
  induction s as [|a s IH].
  - simpl in Hc. rewrite orb_false_r in Hc.
    by rewrite <- (upper_prefix_ci (b :: keyword) [] Hk Hs Hc).
  - cbn [find_ci]. apply orb_true_iff.
    cbn [forallb] in Hs. apply andb_true_iff in Hs as [Ha Hs].
    assert (str_prefix (str_upper (b :: keyword)) (str_upper (a :: s)) = true ∨
            str_contains (str_upper (b :: keyword)) (str_upper s) = true) as [Hp|Hp].
    { cbn [forallb] in Hk. apply andb_true_iff in Hk as [Hb _]. apply N.ltb_lt in Hb.
      revert Hc. cbn [str_upper]. rewrite (upper_char_ascii b Hb).
      unfold plain_char in Ha. destruct (is_ascii a) eqn:Ea.
      - apply N.ltb_lt in Ea. rewrite (upper_char_ascii a Ea).
        simpl. intros [H|H]%orb_true_iff; auto.
      - simpl in Ha. simpl. rewrite str_contains_skip; auto.
        destruct (is_lower_letter b) eqn:El; [|done].
        unfold is_lower_letter in El. lia. }
    + left. apply upper_prefix_ci; [done| |done]. cbn [forallb]. by rewrite Ha, Hs.
    + right. by apply IH.
Qed.

(** *** The characters that are not plain *)

Lemma moved_Some (table : list (N * N * N * N)) (c t : N) :
  moved table c = Some t →
  ∃ lo hi step target,
    (lo, hi, step, target) ∈ table ∧ (lo ≤ c ≤ hi)%N ∧ t = (target + (c - lo))%N.
Proof.
  induction table as [|[[[lo hi] step] target] table IH]; simpl; [done|].
  destruct ((lo <=? c)%N && (c <=? hi)%N && ((c - lo) mod step =? 0)%N) eqn:E.
  - intros [= <-]. exists lo, hi, step, target.
    apply andb_true_iff in E as [[H1%N.leb_le H2%N.leb_le]%andb_true_iff _].
    split; [apply list_elem_of_here|done].
  - intros (lo' & hi' & step' & target' & Hin & H)%IH.
    exists lo', hi', step', target'. split; [by apply list_elem_of_further|done].
Qed.

(** The characters that are not plain are the seventeen of
    [folded_to_ascii]. *)
Lemma plain_char_folded (c : N) : plain_char c = false ↔ c ∈ folded_to_ascii.
Proof.
  split.
  - unfold plain_char. intros [Hc Himage]%orb_false_iff.
    unfold upper_char in Himage.
    destruct (special upper_special c) as [image|] eqn:E.
    + apply special_Some, list_elem_of_In in E.
      assert (forallb (λ entry, is_ascii entry.1
                                || forallb (λ u, negb (is_ascii u)) entry.2
                                || str_has entry.1 folded_to_ascii) upper_special = true) as H
        by (vm_compute; reflexivity).
      rewrite forallb_forall in H. specialize (H _ E). cbn [fst snd] in H.
      rewrite Hc, Himage in H. cbn [orb] in H.
      by apply str_has_elem.
    + destruct (moved upper_simple c) as [t|] eqn:Et; simpl in Himage.
      * apply moved_Some in Et as (lo & hi & step & target & Hin%list_elem_of_In & Hc' & ->).
        assert (forallb (λ entry, (entry.1.1.2 <? 128)%N || (128 <=? entry.2)%N
                                  || (entry.1.1.1 =? entry.1.1.2)%N
                                     && str_has entry.1.1.1 folded_to_ascii)
                        upper_simple = true) as H
          by (vm_compute; reflexivity).
        rewrite forallb_forall in H. specialize (H _ Hin). cbn [fst snd] in H.
        apply N.ltb_ge in Hc.
        rewrite andb_true_r in Himage. apply negb_false_iff, N.ltb_lt in Himage.
        rewrite (proj2 (N.ltb_ge hi 128)), (proj2 (N.leb_gt 128 target)) in H by lia.
        cbn [orb] in H. apply andb_true_iff in H as [Heq%N.eqb_eq H].
        assert (c = lo) as -> by lia.
        by apply str_has_elem.
      * rewrite andb_true_r in Himage. apply negb_false_iff in Himage. congruence.
  - intros Hc%list_elem_of_In.
    assert (forallb (λ c, negb (plain_char c)) folded_to_ascii = true) as H
      by (vm_compute; reflexivity).
    rewrite forallb_forall in H. by apply negb_true_iff, H.
Qed.

Lemma plain_string (s : pystr) :
  (∀ c, c ∈ s → c ∉ folded_to_ascii) → forallb plain_char s = true.
Proof.
  intros H. apply forallb_forall. intros c Hc%list_elem_of_In.
  destruct (plain_char c) eqn:E; [done|]. apply plain_char_folded in E.
  by destruct (H c Hc).
Qed.

Lemma keywords_ascii :
  Forall (λ keyword, forallb is_ascii keyword = true)
         (non_company_keywords ++ company_keywords).
Proof. apply Forall_forall. intros k Hk%list_elem_of_In. revert k Hk. apply forallb_forall. by vm_compute. Qed.

(** On a plain string the loop finds a keyword exactly when the string
    contains one case-insensitively. *)
Lemma first_keyword_in_plain (keywords : list pystr) (s : pystr) :
  Forall (λ keyword, forallb is_ascii keyword = true) keywords →
  forallb plain_char s = true →
  is_Some (first_keyword_in keywords (str_upper s)) ↔ has_keyword_ci keywords s.
Proof.
  intros Hk Hs. split; [|apply first_keyword_in_ci].
  intros [k Hfound]. apply first_keyword_in_Some in Hfound as [Hin Hc].
  exists k. split; [done|]. apply str_contains_upper_plain; [|done..].
  by apply (proj1 (Forall_forall _ _) Hk).
Qed.

(** ** filters.py: the classifier *)

(** C1. An affiliation that contains, case-insensitively, one of the
    non-company keywords is classified [false], whatever else it contains:
    the non-company list is consulted first. *)
Theorem non_company_keyword_wins (affiliation : pystr) :
  has_keyword_ci non_company_keywords affiliation →
  is_company_affiliated affiliation = false.
Proof.
  intros [k Hk]%first_keyword_in_ci. unfold is_company_affiliated.
  by rewrite Hk.
Qed.

Lemma non_company_keyword_wins_witness :
  has_keyword_ci company_keywords "University Hospital Pharma Partnership" ∧
  is_company_affiliated "University Hospital Pharma Partnership" = false.
Proof.
  split.
  - exists "Pharma". split; [set_solver|].
    by exists "University Hospital ", "Pharma", " Partnership".
  - apply (non_company_keyword_wins "University Hospital Pharma Partnership").
    exists "Hospital". split; [set_solver|].
    by exists "University ", "Hospital", " Pharma Partnership".
Defined.

(** C2, as amended.  An affiliation without any of the seventeen characters
    outside ASCII whose upper-casing holds an ASCII letter is classified
    [true] exactly when it contains, case-insensitively, some company keyword
    and no non-company keyword; in particular one that contains no keyword of
    either list is classified [false]. *)
Theorem company_iff_company_keyword_only (affiliation : pystr) :
  (∀ c, c ∈ affiliation → c ∉ folded_to_ascii) →
  (is_company_affiliated affiliation = true ↔
     has_keyword_ci company_keywords affiliation ∧
     ¬ has_keyword_ci non_company_keywords affiliation) ∧
  (¬ has_keyword_ci company_keywords affiliation ∧
   ¬ has_keyword_ci non_company_keywords affiliation →
   is_company_affiliated affiliation = false).
Proof.
  intros Hplain%plain_string. unfold is_company_affiliated.
  pose proof keywords_ascii as [Hn Hc]%Forall_app.
  rewrite <- (first_keyword_in_plain non_company_keywords affiliation Hn Hplain).
  rewrite <- (first_keyword_in_plain company_keywords affiliation Hc Hplain).
  destruct (first_keyword_in non_company_keywords _) as [kn|],
           (first_keyword_in company_keywords _) as [kc|];
    rewrite ?is_Some_alt; naive_solver.
Qed.

Lemma company_iff_company_keyword_only_witness :
  (is_company_affiliated "Société Générale Pharma" = true ↔
     has_keyword_ci company_keywords "Société Générale Pharma" ∧
     ¬ has_keyword_ci non_company_keywords "Société Générale Pharma") ∧
  (¬ has_keyword_ci company_keywords "Société Générale Pharma" ∧
   ¬ has_keyword_ci non_company_keywords "Société Générale Pharma" →
   is_company_affiliated "Société Générale Pharma" = false).
Proof.
  apply (company_iff_company_keyword_only "Société Générale Pharma").
  intros c Hc%list_elem_of_In Hf%str_has_elem.
  assert (forallb (λ c, negb (str_has c folded_to_ascii)) "Société Générale Pharma" = true)
    as H by (vm_compute; reflexivity).
  rewrite forallb_forall in H. specialize (H c Hc). by rewrite Hf in H.
Defined.

(** C2 as stated fails on a dotless i and on a long s: [upper] maps them to
    [I] and to [S], so that the first string is classified [true] though no
    piece of it is a company keyword in any letter case, and the second is
    classified [false] though it names [pharma] and no piece of it is a
    non-company keyword. *)
Lemma company_keyword_by_folding :
  is_company_affiliated "ınc" = true ∧
  ¬ has_keyword_ci company_keywords "ınc" ∧
  is_company_affiliated "ſchool of pharma" = false ∧
  has_keyword_ci company_keywords "ſchool of pharma" ∧
  ¬ has_keyword_ci non_company_keywords "ſchool of pharma".
Proof.
  rewrite !has_keyword_find. repeat split; try (vm_compute; reflexivity).
  all: vm_compute; discriminate.
Qed.



(** The verdicts the test suite of the repository expects. *)
Example test_company_affiliation_detection :
  map is_company_affiliated
      [ "Pfizer Inc., New York, USA"; "Moderna Therapeutics"; "BioNTech GmbH";
        "Harvard University"; "Stanford Medical School";
        "National Institutes of Health"; "Genentech Inc";
        "AstraZeneca Pharmaceuticals"; "Memorial Sloan Kettering Cancer Center";
        "Johnson & Johnson Pharmaceutical R&D" ]
  = [ true; true; true; false; false; false; true; true; false; true ].
Proof. vm_compute. reflexivity. Qed.

(** ** api.py: construction of the fetcher *)

(** A rate above zero is not zero, so the division of the constructor does
    not raise. *)
Lemma positive_rate_nonzero (rate : float) :
  PrimFloat.ltb 0 rate = true → PrimFloat.eqb rate 0 = false.
Proof.
  rewrite FloatAxioms.ltb_spec, FloatAxioms.eqb_spec. change (Prim2SF 0) with (S754_zero false).
  unfold SFltb, SFeqb.
  destruct (Prim2SF rate) as [s|s| |s m e]; simpl; try discriminate.
  all: destruct s; try discriminate; reflexivity.
Qed.

Lemma py_or_supplies (a b : option pystr) :
  supplies_identifier (py_or a b) ↔ supplies_identifier a ∨ supplies_identifier b.
Proof.
  unfold supplies_identifier. destruct a as [[|c s]|]; simpl.
  - split; [auto|]. intros [(i & [= <-] & Hi)|H]; done.
  - split; [auto|]. intros _. by eexists.
  - split; [auto|]. intros [(i & [=] & _)|H]; done.
Qed.

(** C8. The constructor raises its configuration error ([ValueError]) exactly
    when neither the argument nor the environment variable supplies a contact
    identifier; when one of them does, and the rate is above zero as the
    specification requires of it, construction succeeds and keeps the
    argument if it supplies one, else the environment's value. *)
Theorem init_requires_contact_identifier
    (email_arg : option pystr) (environ : gmap pystr pystr) (rate : float) :
  (PubMedAPI__init__ email_arg environ rate = Raise ValueError ↔
     ¬ supplies_identifier email_arg ∧
     ¬ supplies_identifier (environ !! "NCBI_EMAIL")) ∧
  (PrimFloat.ltb 0 rate = true →
   supplies_identifier email_arg ∨ supplies_identifier (environ !! "NCBI_EMAIL") →
   ∃ api config,
     PubMedAPI__init__ email_arg environ rate = Ok (api, config) ∧
     Some (email api) = py_or email_arg (environ !! "NCBI_EMAIL") ∧
     email api ≠ []).
Proof.
  unfold PubMedAPI__init__.
  assert (¬ supplies_identifier email_arg ∧ ¬ supplies_identifier (environ !! "NCBI_EMAIL")
          ↔ ¬ supplies_identifier (py_or email_arg (environ !! "NCBI_EMAIL"))) as ->
    by (rewrite py_or_supplies; tauto).
  rewrite <- py_or_supplies.
  destruct (py_or email_arg (environ !! "NCBI_EMAIL")) as [[|c s]|].
  - split; [split; [|done]|]; intros _ (i & [= <-] & Hi); done.
  - split.
    + split; [destruct (PrimFloat.eqb rate 0); discriminate|].
      intros H. exfalso. apply H. by eexists.
    + intros Hrate%positive_rate_nonzero _. rewrite Hrate. by eexists _, _.
  - split; [split; [|done]|]; intros _ (i & [=] & _).
Qed.

Lemma init_requires_contact_identifier_witness :
  PrimFloat.ltb 0 2 = true ∧
  supplies_identifier (({[ "NCBI_EMAIL" := "test@example.com" ]} : gmap pystr pystr)
                         !! "NCBI_EMAIL") ∧
  ∃ api config,
    PubMedAPI__init__ None {[ "NCBI_EMAIL" := "test@example.com" ]} 2 = Ok (api, config) ∧
    Some (email api) =
      py_or None (({[ "NCBI_EMAIL" := "test@example.com" ]} : gmap pystr pystr)
                    !! "NCBI_EMAIL") ∧
    email api ≠ [].
Proof.
  assert (supplies_identifier
            (({[ "NCBI_EMAIL" := "test@example.com" ]} : gmap pystr pystr)
               !! "NCBI_EMAIL")) as Henv.
  { exists "test@example.com". split; [reflexivity|discriminate]. }
  split; [reflexivity|]. split; [exact Henv|].
  apply (proj2 (init_requires_contact_identifier
                  None {[ "NCBI_EMAIL" := "test@example.com" ]} 2)).
  - reflexivity.
  - right. exact Henv.
Defined.

(** The three constructor tests of the repository, and a zero rate. *)
Example test_pubmed_api_requires_email :
  PubMedAPI__init__ None ∅ 3 = Raise ValueError.
Proof. reflexivity. Qed.

Example test_pubmed_api_constructor_email :
  (api ← PubMedAPI__init__ (Some "test@example.com") ∅ 3; mret (email api.1))
  = Ok "test@example.com".
Proof. reflexivity. Qed.

Example init_zero_rate :
  PubMedAPI__init__ (Some "test@example.com") ∅ 0 = Raise ZeroDivisionError.
Proof. reflexivity. Qed.

(** ** api.py: the publication date *)

(** On a well-shaped record whose [ArticleDate] key is missing or lists at
    least one entry, the extractor computes the preferred date. *)
Lemma extract_publication_date_listed (article : pyval) :
  dates_ok article = true →
  article_date_listed article = true →
  _extract_publication_date article = Ok (preferred_publication_date article).
Proof.
  destruct article as [| |l|d]; try done.
  unfold dates_ok, article_date_listed, _extract_publication_date,
    preferred_publication_date, article_date, journal_year, list_field,
    hyphenated.
  simpl. intros Hok Hlisted.
  destruct (dict_lookup "ArticleDate" d) as [[| |[|[| | |[|kv date]] rest]|]|] eqn:Edate;
    try done; simpl.
  all: destruct (dict_lookup "Journal" d) as [[| | |journal]|]; try done; simpl in *.
  all: destruct (dict_lookup "JournalIssue" journal) as [[| | |issue]|]; try done; simpl in *.
  all: destruct (dict_lookup "PubDate" issue) as [[| | |issue_date]|]; try done.
Qed.

(** An empty [ArticleDate] list always ends in the [IndexError] handler. *)
Lemma publication_date_empty_list (d : list (pystr * pyval)) :
  dict_lookup "ArticleDate" d = Some (VList []) →
  _extract_publication_date (VDict d) = Ok (VStr "").
Proof. intros H. unfold _extract_publication_date. simpl. by rewrite H. Qed.

(** X24. On a well-shaped record whose [ArticleDate] key is missing or lists
    at least one entry, the extracted date is the one the specification
    describes: the article date's [Year-Month-Day] when the first entry is a
    non-empty sub-record, else the journal issue's year, else the empty
    string. *)
Theorem publication_date_preference (article : pyval) :
  dates_ok article = true →
  article_date_listed article = true →
  _extract_publication_date article = Ok (preferred_publication_date article).
Proof. apply extract_publication_date_listed. Qed.

Lemma publication_date_preference_witness :
  dates_ok article_2023_07 = true ∧
  article_date_listed article_2023_07 = true ∧
  preferred_publication_date article_2023_07 = VStr "2023--07" ∧
  _extract_publication_date article_2023_07
    = Ok (preferred_publication_date article_2023_07).
Proof.
  split; [reflexivity|]. split; [reflexivity|]. split; [reflexivity|].
  apply (publication_date_preference article_2023_07); reflexivity.
Defined.

(** C6 fails on [article_without_article_date], a record of the shape the
    parser gives to an article without an article date: the article date is
    absent and the journal issue has a year, yet the extracted date is the
    empty string.  Indexing the empty list raises [IndexError], and the
    handler returns before the fall-back is tried; with the key missing, the
    same record falls back to the year. *)
Theorem publication_date_empty_list_no_fallback :
  dates_ok article_without_article_date = true ∧
  article_date article_without_article_date = None ∧
  journal_year article_without_article_date = Some (VStr "2023") ∧
  _extract_publication_date article_without_article_date = Ok (VStr "") ∧
  _extract_publication_date article_without_article_date
    ≠ Ok (preferred_publication_date article_without_article_date) ∧
  _extract_publication_date
    (VDict [ ("Journal", VDict [ ("JournalIssue",
               VDict [ ("PubDate", VDict [ ("Year", VStr "2023") ]) ]) ]) ])
    = Ok (VStr "2023").
Proof. repeat split; done. Qed.

(** ** api.py: the author list *)

(** C4 fails on [article_of_unaffiliated_author]: [_extract_authors] indexes
    the empty list and catches [KeyError] only, so the [IndexError] leaves the
    extractor.  The other two extractors of the author list return on the
    same record, and the same indexing in [_extract_publication_date] is
    caught. *)
Theorem extract_authors_raises_IndexError :
  _extract_authors article_of_unaffiliated_author = Raise IndexError ∧
  authors_ok article_of_unaffiliated_author = true ∧
  _extract_affiliations article_of_unaffiliated_author = Ok [] ∧
  _extract_corresponding_email article_of_unaffiliated_author = Ok None ∧
  _extract_publication_date article_without_article_date = Ok (VStr "").
Proof. repeat split; reflexivity. Qed.

(** The exception is not caught further up either: one such record makes the
    whole call raise. *)
Example fetch_raises_on_unaffiliated_author :
  fetch_and_filter_papers unaffiliated_entrez "test query" 1 100 = Raise IndexError.
Proof. reflexivity. Qed.

(** ** api.py: the wait on the rate limit *)








Example init_three_per_second :
  PubMedAPI__init__ (Some "test@example.com") ∅ 3
    = Ok (three_per_second, {| entrez_email := "test@example.com";
                               entrez_tool := "PubMedAffiliationFilter" |}).
Proof. reflexivity. Qed.




(** ** The pattern matcher *)

Lemma str_app_assoc (s t u : pystr) : (s ++ t) ++ u = s ++ t ++ u.
Proof. induction s as [|c s IH]; simpl; [done|]. by rewrite IH. Qed.

Lemma str_app_length (s t : pystr) :
  length (s ++ t) = (length s + length t)%nat.
Proof. induction s as [|c s IH]; simpl; [done|]. by rewrite IH. Qed.

Lemma substring_app (w rest : pystr) :
  take (length w) (w ++ rest) = w.
Proof.
  induction w as [|c w IH]; simpl.
  - by destruct rest.
  - by rewrite IH.
Qed.

Lemma all_chars_app p (s t : pystr) :
  all_chars p (s ++ t) = all_chars p s && all_chars p t.
Proof. induction s as [|c s IH]; simpl; [done|]. by rewrite IH, andb_assoc. Qed.

(** What [re_star] returns is a run of class characters followed by a match
    of the continuation. *)
Lemma re_star_sound p k s n :
  re_star p k s = Some n →
  ∃ u rest m, s = u ++ rest ∧ all_chars p u = true ∧ k rest = Some m ∧
              n = (length u + m)%nat.
Proof.
  revert n. induction s as [|c s IH]; intros n; simpl.
  - intros H. by exists [], [], n.
  - destruct (p c) eqn:Hc.
    + destruct (re_star p k s) as [n'|] eqn:E.
      * intros [= <-]. destruct (IH n' eq_refl) as (u & rest & m & -> & Hu & Hk & ->).
        exists ((c :: u)), rest, m. simpl. by rewrite Hc, Hu.
      * intros H. by exists [], ((c :: s)), n.
    + intros H. by exists [], ((c :: s)), n.
Qed.

Lemma re_star_skip p k s : is_Some (k s) → is_Some (re_star p k s).
Proof.
  intros H. destruct s as [|c s]; simpl; [done|].
  destruct (p c); [|done]. by destruct (re_star p k s).
Qed.

(** It finds a match whenever a run followed by a match of the continuation
    exists. *)
Lemma re_star_complete p k u rest :
  all_chars p u = true → is_Some (k rest) → is_Some (re_star p k (u ++ rest)).
Proof.
  intros Hu Hk. induction u as [|c u IH]; simpl.
  - by apply re_star_skip.
  - simpl in Hu. apply andb_true_iff in Hu as [Hc Hu]. rewrite Hc.
    destruct (IH Hu) as [n ->]. by eexists.
Qed.

Lemma re_match_sound re s n :
  re_match re s = Some n →
  ∃ w rest, s = w ++ rest ∧ length w = n ∧ re_lang re w.
Proof.
  revert s n. induction re as [|[p|p] re IH]; intros s n; simpl.
  - intros [= <-]. by exists [], s.
  - destruct s as [|c s]; [done|]. destruct (p c) eqn:Hc; [|done].
    destruct (re_match re s) as [n'|] eqn:E; [|done]. intros [= <-].
    destruct (IH _ _ E) as (w & rest & -> & <- & Hw).
    exists ((c :: w)), rest. repeat split; eauto.
  - destruct s as [|c s]; [done|]. destruct (p c) eqn:Hc; [|done].
    destruct (re_star p (re_match re) s) as [n'|] eqn:E; [|done]. intros [= <-].
    apply re_star_sound in E as (u & rest' & m & -> & Hu & Hk & ->).
    destruct (IH _ _ Hk) as (w & rest & -> & <- & Hw).
    exists ((c :: u) ++ w), rest. split; [|split].
    + simpl. by rewrite str_app_assoc.
    + simpl. by rewrite str_app_length.
    + exists ((c :: u)), w. simpl. by rewrite Hc, Hu.
Qed.

Lemma re_match_complete re w rest :
  re_lang re w → is_Some (re_match re (w ++ rest)).
Proof.
  revert w. induction re as [|[p|p] re IH]; intros w; simpl.
  - intros ->. by eexists.
  - intros (c & w' & -> & Hc & Hw). simpl. rewrite Hc.
    destruct (IH _ Hw) as [n ->]. by eexists.
  - intros (u & w' & -> & Hne & Hu & Hw). destruct u as [|c u]; [done|].
    simpl in *. apply andb_true_iff in Hu as [Hc Hu]. rewrite Hc, str_app_assoc.
    destruct (re_star_complete p (re_match re) u (w' ++ rest) Hu (IH _ Hw)) as [n ->].
    by eexists.
Qed.

Lemma re_match_substring re s n :
  re_match re s = Some n →
  re_lang re (take n s) ∧ ∃ post, s = take n s ++ post.
Proof.
  intros (w & rest & -> & <- & Hw)%re_match_sound. rewrite substring_app. eauto.
Qed.

(** [re_search] returns a piece of the text that the pattern accepts, and
    returns one whenever the text has such a piece. *)
Lemma re_search_sound re s m :
  re_search re s = Some m → re_lang re m ∧ ∃ pre post, s = pre ++ m ++ post.
Proof.
  induction s as [|c s IH]; simpl.
  - destruct (re_match re []) as [n|] eqn:E; [|done]. intros [= <-].
    apply re_match_substring in E as [Hw [post Hs]]. split; [done|].
    by exists [], post.
  - destruct (re_match re ((c :: s))) as [n|] eqn:E.
    + intros [= <-]. apply re_match_substring in E as [Hw [post Hs]].
      split; [done|]. by exists [], post.
    + intros (Hm & pre & post & ->)%IH. split; [done|].
      by exists ((c :: pre)), post.
Qed.

Lemma re_search_complete re pre m post :
  re_lang re m → is_Some (re_search re (pre ++ m ++ post)).
Proof.
  intros Hm. induction pre as [|c pre IH]; simpl.
  - destruct (re_match_complete re m post Hm) as [n Hn].
    destruct (m ++ post); simpl; rewrite Hn; by eexists.
  - destruct (re_match re _); [by eexists|done].
Qed.

(** The words of the e-mail pattern are the addresses of the specification. *)
Lemma email_pattern_lang m : re_lang email_pattern m ↔ is_address m.
Proof.
  unfold is_address, email_pattern. cbn [re_lang]. split.
  - intros (local & w1 & -> & Hl1 & Hl2 & c1 & w2 & -> & Hc1 & domain & w3 & -> &
            Hd1 & Hd2 & c2 & w4 & -> & Hc2 & label & w5 & -> & Ht1 & Ht2 & ->).
    apply N.eqb_eq in Hc1 as <-, Hc2 as <-.
    exists local, domain, label. repeat split; try done.
    f_equal. simpl. f_equal. f_equal. simpl. f_equal.
    clear. induction label as [|c l IH]; simpl; [done|]. by rewrite IH.
  - intros (local & domain & label & -> & Hl1 & Hl2 & Hd1 & Hd2 & Ht1 & Ht2).
    exists local, ("@" ++ domain ++ "." ++ label). repeat split; try done.
    exists (code "@"), (domain ++ "." ++ label). repeat split; try done.
    exists domain, ("." ++ label). repeat split; try done.
    exists (code "."), label. repeat split; try done.
    exists label, []. repeat split; try done.
    clear. induction label as [|c l IH]; simpl; [done|]. by rewrite <- IH.
Qed.

(** ** api.py: the corresponding e-mail *)

(** On an ASCII character [lower] moves the 26 capital letters and nothing
    else. *)
Lemma lower_at_ascii (before after : pystr) (c : N) :
  (c < 128)%N → lower_at before c after = [if is_upper_letter c then (c + 32)%N else c].
Proof.
  intros Hc. unfold lower_at, capital_sigma.
  rewrite (proj2 (N.eqb_neq c 931)) by lia. apply str_eqb_eq.
  apply (below_128 (λ c, str_eqb (lower_char c) [if is_upper_letter c then (c + 32)%N else c]));
    [vm_compute; reflexivity|done].
Qed.

(** Of a character outside ASCII it makes one character outside ASCII, but
    for the capital I with a dot, which gets [i] and a combining dot, and for
    the Kelvin sign, which gets [k]. *)
Lemma lower_at_beyond (before after : pystr) (c : N) :
  (128 ≤ c)%N →
  (c = 304%N ∧ lower_at before c after = [105; 775]%N) ∨
  ∃ t, lower_at before c after = [t] ∧ ((128 ≤ t)%N ∨ t = 107%N).
Proof.
  intros Hc. unfold lower_at, capital_sigma.
  destruct (N.eqb_spec c 931) as [->|Hsigma].
  { right. eexists. split; [done|]. left. destruct (final_sigma before after); lia. }
  unfold lower_char. destruct (special lower_special c) as [image|] eqn:E.
  - apply special_Some in E. unfold lower_special in E.
    apply list_elem_of_singleton in E as [= -> ->]. by left.
  - right. destruct (moved lower_simple c) as [t|] eqn:Et; simpl.
    + exists t. split; [done|].
      apply moved_Some in Et as (lo & hi & step & target & Hin%list_elem_of_In & Hc' & ->).
      assert (forallb (λ entry, (entry.1.1.2 <? 128)%N || (128 <=? entry.2)%N
                                || (entry.1.1.1 =? entry.1.1.2)%N && (entry.2 =? 107)%N)
                      lower_simple = true) as H
        by (vm_compute; reflexivity).
      rewrite forallb_forall in H. specialize (H _ Hin). cbn [fst snd] in H.
      rewrite (proj2 (N.ltb_ge hi 128)) in H by lia. cbn [orb] in H.
      apply orb_true_iff in H as [H%N.leb_le|[H1%N.eqb_eq H2%N.eqb_eq]%andb_true_iff]; lia.
    + exists c. split; [done|]. by left.
Qed.

Lemma str_contains_prefix (needle hay : pystr) :
  str_prefix needle hay = true → str_contains needle hay = true.
Proof. intros H. destruct hay; simpl in *; by rewrite H. Qed.

Lemma str_contains_app_r (needle pre hay : pystr) :
  str_contains needle hay = true → str_contains needle (pre ++ hay) = true.
Proof.
  intros H. induction pre as [|c pre IH]; [done|]. simpl. rewrite IH. apply orb_true_r.
Qed.

(** A needle of small ASCII letters other than [k] that does not end in [i]
    is at the start of a lower-cased string only where the string starts
    with the needle in some letter case. *)
Lemma lower_prefix_ci (needle before s : pystr) :
  forallb (λ x, is_lower_letter x && negb (x =? 107)%N) needle = true →
  last needle ≠ Some 105%N →
  str_prefix needle (lower_from before s) = true →
  case_variant_prefix needle s = true.
Proof.
  revert before s. induction needle as [|x needle IH]; intros before s; [done|].
  cbn [forallb]. intros [[Hx Hk]%andb_true_iff Hneedle]%andb_true_iff Hlast.
  apply negb_true_iff, N.eqb_neq in Hk.
  assert ((97 ≤ x ≤ 122)%N) as Hrange.
  { unfold is_lower_letter in Hx. apply andb_true_iff in Hx as [?%N.leb_le ?%N.leb_le]. lia. }
  destruct s as [|c s]; [done|]. cbn [lower_from case_variant_prefix].
  destruct (N.ltb_spec c 128) as [Hc|Hc].
  - rewrite (lower_at_ascii before s c Hc). simpl.
    intros [Hxc%N.eqb_eq Hp]%andb_true_iff. apply andb_true_iff. split.
    + pose proof (below_128_pairs
                    (λ c x, negb (is_lower_letter x)
                            || negb (x =? (if is_upper_letter c then c + 32 else c))%N
                            || same_letter c x)) as Hq.
      specialize (Hq ltac:(vm_compute; reflexivity) c x Hc ltac:(lia)). cbv beta in Hq.
      rewrite Hx, <- Hxc, N.eqb_refl in Hq. exact Hq.
    + destruct needle as [|y needle]; [done|]. by apply (IH (c :: before)).
  - destruct (lower_at_beyond before s c Hc) as [[-> ->]|(t & -> & Ht)]; simpl.
    + intros [Hi%N.eqb_eq Hp]%andb_true_iff. destruct needle as [|y needle].
      * destruct Hlast. by rewrite Hi.
      * simpl in Hp, Hneedle. apply andb_true_iff in Hp as [Hy%N.eqb_eq _].
        apply andb_true_iff in Hneedle as [[Hy' _]%andb_true_iff _].
        unfold is_lower_letter in Hy'. apply andb_true_iff in Hy' as [_ ?%N.leb_le]. lia.
    + intros [Hxt%N.eqb_eq _]%andb_true_iff. lia.
Qed.

Lemma lower_contains_ci (needle before s : pystr) :
  needle ≠ [] →
  forallb (λ x, is_lower_letter x && negb (x =? 107)%N) needle = true →
  last needle ≠ Some 105%N →
  str_contains needle (lower_from before s) = true →
  find_ci needle s = true.
Proof.
  intros Hne Hneedle Hlast. revert before.
  induction s as [|c s IH]; intros before.
  - simpl. by destruct needle.
  - cbn [lower_from find_ci]. intros Hc. apply orb_true_iff.
    assert (str_prefix needle (lower_from before (c :: s)) = true ∨
            str_contains needle (lower_from (c :: before) s) = true) as [Hp|Hp].
    { revert Hc. cbn [lower_from]. destruct (N.ltb_spec c 128) as [Hascii|Hbeyond].
      - rewrite (lower_at_ascii before s c Hascii). simpl.
        intros [H|H]%orb_true_iff; auto.
      - destruct (lower_at_beyond before s c Hbeyond) as [[-> ->]|(t & -> & Ht)]; simpl.
        + destruct needle as [|x needle]; [done|].
          intros [H|[H|H]%orb_true_iff]%orb_true_iff; auto.
          apply andb_true_iff in H as [Hx%N.eqb_eq _]. simpl in Hneedle.
          apply andb_true_iff in Hneedle as [[Hx' _]%andb_true_iff _].
          unfold is_lower_letter in Hx'. apply andb_true_iff in Hx' as [_ ?%N.leb_le]. lia.
        + intros [H|H]%orb_true_iff; auto. }
    + left. by apply (lower_prefix_ci needle before).
    + right. by apply (IH (c :: before)).
Qed.

Lemma ci_prefix_lower (needle before s : pystr) :
  forallb is_lower_letter needle = true →
  case_variant_prefix needle s = true →
  str_prefix needle (lower_from before s) = true.
Proof.
  revert before s. induction needle as [|x needle IH]; intros before s; [done|].
  cbn [forallb]. intros [Hx Hneedle]%andb_true_iff.
  destruct s as [|c s]; [done|]. cbn [lower_from case_variant_prefix].
  intros [Hcx Hs]%andb_true_iff.
  assert ((x ≤ 122)%N) as Hrange.
  { unfold is_lower_letter in Hx. apply andb_true_iff in Hx as [_ ?%N.leb_le]. lia. }
  assert ((c < 128)%N) as Hc.
  { destruct (N.ltb_spec c 128) as [|Hc]; [done|]. revert Hcx.
    unfold same_letter, swapcase_char, is_lower_letter, is_upper_letter.
    assert ((c <=? 122)%N = false ∧ (c <=? 90)%N = false) as [-> ->]
      by (split; apply N.leb_gt; lia).
    rewrite !andb_false_r, orb_diag. intros ?%N.eqb_eq. lia. }
  rewrite (lower_at_ascii before s c Hc). simpl.
  rewrite (IH (c :: before) s Hneedle Hs), andb_true_r.
  pose proof (below_128_pairs
                (λ c x, negb (is_lower_letter x) || negb (same_letter c x)
                        || (x =? (if is_upper_letter c then c + 32 else c))%N)) as Hq.
  specialize (Hq ltac:(vm_compute; reflexivity) c x Hc ltac:(lia)). cbv beta in Hq.
  rewrite Hx, Hcx in Hq. exact Hq.
Qed.

Lemma ci_contains_lower (needle before s : pystr) :
  forallb is_lower_letter needle = true →
  find_ci needle s = true →
  str_contains needle (lower_from before s) = true.
Proof.
  intros Hneedle. revert before. induction s as [|c s IH]; intros before.
  - simpl. rewrite !orb_false_r. by destruct needle.
  - cbn [find_ci lower_from]. intros [H|H]%orb_true_iff.
    + apply str_contains_prefix. by apply (ci_prefix_lower needle before (c :: s)).
    + apply str_contains_app_r. by apply IH.
Qed.

(** The test of the code is the pre-filter of the specification. *)
Lemma mentions_address_test (text : pystr) :
  str_contains "email" (str_lower text) || str_contains "@" text = true ↔
  mentions_address text.
Proof.
  unfold mentions_address, str_lower.
  rewrite orb_true_iff, <- (find_ci_spec "email"), <- (str_contains_app "@").
  assert (str_contains "email" (lower_from [] text) = true ↔ find_ci "email" text = true)
    as ->; [|tauto].
  split.
  - by apply lower_contains_ci.
  - by apply ci_contains_lower.
Qed.

#[local] Instance mentions_address_dec text : Decision (mentions_address text).
Proof.
  refine (cast_if (decide (str_contains "email" (str_lower text)
                           || str_contains "@" text = true)));
    by rewrite <- mentions_address_test.
Defined.

Lemma first_address_app (l1 l2 : list pystr) :
  first_address (l1 ++ l2) =
  match first_address l1 with
  | Some m => Some m
  | None => first_address l2
  end.
Proof.
  unfold first_address. rewrite omap_app.
  by destruct (omap (re_search email_pattern) l1).
Qed.

Lemma first_address_filter_cons text texts :
  first_address (filter mentions_address (text :: texts)) =
  match first_address (filter mentions_address [text]) with
  | Some m => Some m
  | None => first_address (filter mentions_address texts)
  end.
Proof. by rewrite <- first_address_app, <- filter_app. Qed.

Lemma email_of_entry_ok aff :
  entry_ok aff = true →
  email_of_entry aff =
  Ok (first_address (filter mentions_address [default [] (entry_text aff)])).
Proof.
  destruct aff as [| | |d]; try done. unfold entry_ok, email_of_entry, entry_text.
  simpl. destruct (dict_lookup "Affiliation" d) as [[|text| |]|]; try done; intros _; simpl.
  rewrite filter_cons, filter_nil. unfold first_address.
  destruct (decide (mentions_address text)) as [H|H].
  - apply mentions_address_test in H. rewrite H. simpl.
    by destruct (re_search email_pattern text).
  - rewrite <- mentions_address_test in H. apply not_true_is_false in H.
    by rewrite H.
Qed.

Lemma for_first_entries infos :
  forallb entry_ok infos = true →
  for_first email_of_entry infos =
  Ok (first_address
        (filter mentions_address ((λ aff, default [] (entry_text aff)) <$> infos))).
Proof.
  induction infos as [|aff infos IH]; [done|]. cbn [for_first forallb].
  intros [Haff Hinfos]%andb_true_iff.
  rewrite (email_of_entry_ok aff Haff), fmap_cons, (first_address_filter_cons _ (_ <$> infos)).
  simpl. destruct (first_address (filter mentions_address [_])); [done|]. by apply IH.
Qed.

Lemma email_of_author_ok author :
  author_ok author = true →
  email_of_author author =
  Ok (first_address
        (filter mentions_address
                ((λ aff, default [] (entry_text aff))
                   <$> list_field "AffiliationInfo" author))).
Proof.
  destruct author as [| | |d]; try done. unfold author_ok, email_of_author, list_field.
  simpl. destruct (dict_lookup "AffiliationInfo" d) as [[| |infos|]|]; try done; simpl.
  apply for_first_entries.
Qed.

Lemma for_first_authors author_list :
  forallb author_ok author_list = true →
  for_first email_of_author author_list =
  Ok (first_address
        (filter mentions_address
           (author ← author_list;
            (λ aff, default [] (entry_text aff))
              <$> list_field "AffiliationInfo" author))).
Proof.
  induction author_list as [|author author_list IH]; [done|]. cbn [for_first forallb].
  intros [Hauthor Hrest]%andb_true_iff.
  rewrite (email_of_author_ok author Hauthor), bind_cons, filter_app, first_address_app.
  simpl. destruct (first_address (filter mentions_address (_ <$> _))); [done|].
  by apply IH.
Qed.

(** On a well-shaped record the extractor returns the first address among
    the texts that pass the pre-filter. *)
Lemma extract_corresponding_email_ok (article : pyval) :
  authors_ok article = true →
  _extract_corresponding_email article
    = Ok (first_address (filter mentions_address (scanned_texts article))).
Proof.
  intros Hok. destruct article as [| | |d]; try done.
  unfold authors_ok in Hok. unfold _extract_corresponding_email, scanned_texts, list_field.
  simpl. destruct (dict_lookup "AuthorList" d) as [[| |author_list|]|]; try done; simpl.
  by rewrite (for_first_authors author_list Hok).
Qed.

Lemma first_address_None (texts : list pystr) :
  Forall (λ text, re_search email_pattern text = None) texts →
  first_address texts = None.
Proof.
  unfold first_address. induction 1 as [|text texts Htext _ IH]; [done|].
  simpl. by rewrite Htext.
Qed.

(** C7. On a well-shaped record the extracted e-mail is the first address
    found among the affiliation texts that pass the pre-filter, the texts
    taken author by author and entry by entry; it is nothing when no such
    text has an address.  What the pattern finds in a text is a piece of the
    text of the shape local part, [@], domain, dot, label, and it finds one
    whenever the text has such a piece. *)
Theorem corresponding_email_first_address (article : pyval) :
  authors_ok article = true →
  _extract_corresponding_email article
    = Ok (first_address (filter mentions_address (scanned_texts article))) ∧
  (Forall (λ text, mentions_address text → re_search email_pattern text = None)
          (scanned_texts article) →
   _extract_corresponding_email article = Ok None) ∧
  (∀ text m, re_search email_pattern text = Some m →
             is_address m ∧ ∃ pre post, text = pre ++ m ++ post) ∧
  (∀ pre m post, is_address m →
                 is_Some (re_search email_pattern (pre ++ m ++ post))).
Proof.
  intros Hok. split; [|split; [|split]].
  - by apply extract_corresponding_email_ok.
  - intros Hnone. rewrite (extract_corresponding_email_ok _ Hok). f_equal.
    apply first_address_None, Forall_forall. intros text [Hm Htext]%list_elem_of_filter.
    by apply (proj1 (Forall_forall _ _) Hnone).
  - intros text m [Hm Hin]%re_search_sound. by apply email_pattern_lang in Hm.
  - intros pre m post Hm%email_pattern_lang. by apply re_search_complete.
Qed.

Lemma corresponding_email_first_address_witness :
  authors_ok article_with_contact = true ∧
  _extract_corresponding_email article_with_contact
    = Ok (first_address (filter mentions_address (scanned_texts article_with_contact))).
Proof.
  split; [reflexivity|].
  apply (proj1 (corresponding_email_first_address article_with_contact eq_refl)).
Defined.

(** The example of the specification, and a text that passes the pre-filter
    without holding an address. *)
Example extract_email_with_contact :
  _extract_corresponding_email article_with_contact = Ok (Some "jane.doe@biotech.com") ∧
  scanned_texts article_with_contact =
    [ "Please email the laboratory"; [];
      "Dept, contact: jane.doe@biotech.com"; "other@example.org" ] ∧
  filter mentions_address (scanned_texts article_with_contact) =
    [ "Please email the laboratory";
      "Dept, contact: jane.doe@biotech.com"; "other@example.org" ] ∧
  re_search email_pattern "Please email the laboratory" = None.
Proof. repeat split; reflexivity. Qed.

(** ** api.py: the record-level affiliations *)

Lemma add_affiliation_ok (aff : pyval) (affiliations : gset (option pystr)) :
  entry_ok aff = true →
  add_affiliation aff affiliations =
  (list_to_set (Some <$> omap entry_text [aff]) ∪ affiliations, None).
Proof.
  destruct aff as [| | |d]; try done. unfold entry_ok, add_affiliation, entry_text.
  simpl. destruct (dict_lookup "Affiliation" d) as [[|text| |]|]; try done; intros _; simpl.
  - f_equal. set_solver.
  - f_equal. set_solver.
Qed.

Lemma for_each_add_affiliation (infos : list pyval) (affiliations : gset (option pystr)) :
  forallb entry_ok infos = true →
  for_each add_affiliation infos affiliations =
  (list_to_set (Some <$> omap entry_text infos) ∪ affiliations, None).
Proof.
  revert affiliations. induction infos as [|aff infos IH]; intros affiliations.
  - intros _. simpl. f_equal. set_solver.
  - cbn [for_each forallb]. intros [Haff Hinfos]%andb_true_iff.
    rewrite (add_affiliation_ok aff _ Haff), (IH _ Hinfos). f_equal.
    change (aff :: infos) with ([aff] ++ infos).
    rewrite omap_app, fmap_app, list_to_set_app_L. set_solver.
Qed.

Lemma add_author_affiliations_ok (author : pyval) (affiliations : gset (option pystr)) :
  author_ok author = true →
  add_author_affiliations author affiliations =
  (list_to_set (Some <$> omap entry_text (list_field "AffiliationInfo" author))
     ∪ affiliations, None).
Proof.
  destruct author as [| | |d]; try done.
  unfold author_ok, add_author_affiliations, list_field. simpl.
  destruct (dict_lookup "AffiliationInfo" d) as [[| |infos|]|]; try done; simpl.
  - apply for_each_add_affiliation.
  - intros _. f_equal. set_solver.
Qed.

Lemma for_each_add_author_affiliations (author_list : list pyval) (affiliations : gset (option pystr)) :
  forallb author_ok author_list = true →
  for_each add_author_affiliations author_list affiliations =
  (list_to_set (Some <$> (author ← author_list;
                          omap entry_text (list_field "AffiliationInfo" author)))
     ∪ affiliations, None).
Proof.
  revert affiliations. induction author_list as [|author author_list IH]; intros affiliations.
  - intros _. simpl. f_equal. set_solver.
  - cbn [for_each forallb]. intros [Hauthor Hrest]%andb_true_iff.
    rewrite (add_author_affiliations_ok author _ Hauthor), (IH _ Hrest). f_equal.
    rewrite bind_cons, fmap_app, list_to_set_app_L. set_solver.
Qed.

(** The extracted affiliations are the set of all affiliation texts. *)
Lemma extract_affiliations_set (article : pyval) :
  authors_ok article = true →
  _extract_affiliations article =
  Ok (elements (list_to_set (Some <$> all_affiliation_texts article) : gset (option pystr))).
Proof.
  destruct article as [| | |d]; try done.
  unfold authors_ok, _extract_affiliations, all_affiliation_texts, list_field. simpl.
  destruct (dict_lookup "AuthorList" d) as [[| |author_list|]|]; try done; simpl.
  intros Hok. rewrite (for_each_add_author_affiliations author_list ∅ Hok).
  do 2 f_equal. set_solver.
Qed.

Lemma elements_of_texts (texts : list pystr) :
  elements (list_to_set (Some <$> texts) : gset (option pystr))
  ≡ₚ Some <$> remove_dups texts.
Proof.
  apply NoDup_Permutation.
  - apply NoDup_elements.
  - apply NoDup_fmap_2; [apply _|apply NoDup_remove_dups].
  - intros x. rewrite elem_of_elements, elem_of_list_to_set, !list_elem_of_fmap.
    by setoid_rewrite elem_of_remove_dups.
Qed.

(** They are, up to their order, the record-level affiliations of the
    specification. *)
Lemma extract_affiliations_ok article :
  authors_ok article = true →
  ∃ affs, _extract_affiliations article = Ok affs ∧
          affs ≡ₚ Some <$> record_affiliations article.
Proof.
  intros Hok. eexists. split; [by apply extract_affiliations_set|].
  apply elements_of_texts.
Qed.

(** ** api.py: counting and filtering *)

Lemma company_count_Some (texts : list pystr) :
  company_count (Some <$> texts) =
  Ok (Z.of_nat (length (filter (λ text, is_company_affiliated text = true) texts))).
Proof.
  induction texts as [|text texts IH]; [done|].
  rewrite fmap_cons. cbn [company_count]. rewrite IH, filter_cons. simpl.
  destruct (is_company_affiliated text) eqn:E.
  - rewrite decide_True by done. simpl. f_equal. lia.
  - rewrite decide_False by congruence. done.
Qed.

(** The count does not depend on the order in which the set is listed. *)
Lemma company_count_Permutation (l k : list (option pystr)) :
  l ≡ₚ k → company_count l = company_count k.
Proof.
  induction 1 as [|x l k _ IH|x y l|l k m _ IH1 _ IH2]; simpl.
  - done.
  - by rewrite IH.
  - destruct x as [s|], y as [t|]; simpl; try done.
    all: destruct (company_count l) as [n|e]; simpl; try done.
    by destruct (is_company_affiliated s), (is_company_affiliated t).
  - congruence.
Qed.

Lemma company_count_record article affs :
  affs ≡ₚ Some <$> record_affiliations article →
  company_count affs = Ok (company_affiliations article).
Proof.
  intros H. rewrite (company_count_Permutation _ _ H). apply company_count_Some.
Qed.

(** ** api.py: one record *)

Lemma author_entry_ok author :
  author_ok author = true →
  match field "AffiliationInfo" author with Some (VList []) => false | _ => true end = true →
  ∃ entry, author_entry author = Ok entry.
Proof.
  destruct author as [| | |d]; try done. unfold author_ok, author_entry. simpl.
  destruct (dict_lookup "AffiliationInfo" d) as [[| |[|[| | |e] infos]|]|]; try done; simpl.
  all: intros _ _; by eexists.
Qed.

Lemma for_each_author_entry author_list acc :
  forallb author_ok author_list = true →
  forallb (λ author, match field "AffiliationInfo" author with
                     | Some (VList []) => false
                     | _ => true
                     end) author_list = true →
  ∃ entries,
    for_each (λ author authors,
                match author_entry author with
                | Ok entry => ((authors ++ [entry]), None)
                | Raise e => (authors, Some e)
                end) author_list acc = (entries, None).
Proof.
  revert acc. induction author_list as [|author author_list IH]; intros acc.
  - intros _ _. by eexists.
  - cbn [for_each forallb].
    intros [Hauthor Hrest]%andb_true_iff [Hlisted Hlisted']%andb_true_iff.
    destruct (author_entry_ok author Hauthor Hlisted) as [entry ->]. by apply IH.
Qed.

(** Where no author has an empty affiliation list, the author list is
    extracted. *)
Lemma extract_authors_ok article :
  authors_ok article = true →
  affiliations_listed article = true →
  ∃ entries, _extract_authors article = Ok entries.
Proof.
  destruct article as [| | |d]; try done.
  unfold authors_ok, affiliations_listed, _extract_authors, list_field. simpl.
  destruct (dict_lookup "AuthorList" d) as [[| |author_list|]|]; try done; simpl.
  - intros Hok Hlisted.
    destruct (for_each_author_entry author_list [] Hok Hlisted) as [entries ->].
    by eexists.
  - intros _ _. by eexists.
Qed.

Lemma extract_publication_date_ok article :
  dates_ok article = true → ∃ date, _extract_publication_date article = Ok date.
Proof.
  intros Hok. destruct (article_date_listed article) eqn:Hlisted.
  - eexists. by apply extract_publication_date_listed.
  - destruct article as [| | |d]; try done. exists (VStr "").
    apply publication_date_empty_list. unfold article_date_listed in Hlisted.
    simpl in Hlisted. by destruct (dict_lookup "ArticleDate" d) as [[| |[|]|]|].
Qed.

(** A well-shaped record with all its required keys is extracted, and its
    affiliations are the record-level affiliations of its article. *)
Lemma extract_paper_ok paper :
  paper_ok paper = true →
  ∃ data, extract_paper paper = Ok data ∧
          affiliations data ≡ₚ Some <$> record_affiliations (article_of paper).
Proof.
  destruct paper as [| | |p]; try done. unfold paper_ok, extract_paper, article_of.
  cbn [field field_path py_getitem mbind result_bind].
  destruct (dict_lookup "MedlineCitation" p) as [[| | |citation]|]; try done.
  cbn [field field_path py_getitem mbind result_bind].
  destruct (dict_lookup "PMID" citation) as [id|]; try done.
  destruct (dict_lookup "Article" citation) as [article|]; try done.
  intros (((Htitle & Hdates)%andb_true_iff & Hauthors)%andb_true_iff & Hlisted)%andb_true_iff.
  apply bool_decide_eq_true in Htitle as [title Htitle].
  destruct article as [| | |a]; try done. simpl in Htitle.
  cbn [field field_path py_getitem mbind result_bind default]. rewrite Htitle.
  destruct (extract_publication_date_ok _ Hdates) as [date ->].
  destruct (extract_authors_ok _ Hauthors Hlisted) as [entries ->].
  destruct (extract_affiliations_ok _ Hauthors) as (affs & -> & Haffs).
  rewrite (extract_corresponding_email_ok _ Hauthors).
  by eexists.
Qed.

(** ** api.py: the filtering loop *)

(** On well-shaped records the loop appends, in order, the extraction of each
    record whose company affiliations reach the threshold. *)
Lemma filter_papers_ok (papers : list pyval) (min_companies : Z)
    (filtered_papers : list paper_data) :
  forallb paper_ok papers = true →
  ∃ kept,
    filter_papers papers min_companies filtered_papers = Ok (filtered_papers ++ kept) ∧
    Forall2 (λ paper data, extract_paper paper = Ok data)
            (filter (λ paper, (min_companies ≤ company_affiliations (article_of paper))%Z)
                    papers)
            kept.
Proof.
  revert filtered_papers.
  induction papers as [|paper papers IH]; intros filtered_papers.
  - intros _. exists []. split; [by rewrite app_nil_r|constructor].
  - cbn [forallb filter_papers]. intros [Hpaper Hpapers]%andb_true_iff.
    destruct (extract_paper_ok paper Hpaper) as (data & Hdata & Haffs).
    rewrite Hdata. cbn [mbind result_bind].
    rewrite (company_count_record _ _ Haffs). cbn [mbind result_bind].
    rewrite filter_cons.
    destruct (Z.leb_spec min_companies (company_affiliations (article_of paper))) as [Hle|Hlt].
    + destruct (IH (filtered_papers ++ [data]) Hpapers) as (kept & -> & Hkept).
      exists (data :: kept). rewrite decide_True by done.
      split; [by rewrite <- app_assoc|by constructor].
    + destruct (IH filtered_papers Hpapers) as (kept & -> & Hkept).
      exists kept. rewrite decide_False by lia. done.
Qed.

Lemma fetch_and_filter_papers_ok (entrez : entrez_service) (query : pystr)
    (min_companies max_results : Z) :
  answers_ok entrez query max_results = true →
  forallb paper_ok (fetched_batch entrez query max_results) = true →
  ∃ kept,
    fetch_and_filter_papers entrez query min_companies max_results = Ok kept ∧
    Forall2 (λ paper data, extract_paper paper = Ok data)
            (filter (λ paper, (min_companies ≤ company_affiliations (article_of paper))%Z)
                    (fetched_batch entrez query max_results))
            kept.
Proof.
  unfold answers_ok, fetched_batch, fetch_and_filter_papers, list_field.
  destruct (esearch entrez query max_results) as [| | |record]; try done.
  cbn [field py_getitem mbind result_bind].
  destruct (dict_lookup "IdList" record) as [id_list|]; try done.
  cbn [mbind result_bind].
  destruct (py_truthy id_list); cbn [negb orb].
  - destruct (efetch entrez id_list) as [| | |answer]; try done.
    cbn [field py_getitem mbind result_bind].
    destruct (dict_lookup "PubmedArticle" answer) as [[| |papers|]|]; try done.
    cbn [py_iter mbind result_bind]. intros _ Hok.
    destruct (filter_papers_ok papers min_companies [] Hok) as (kept & -> & Hkept).
    by exists kept.
  - intros _ _. exists []. split; [done|constructor].
Qed.

(** X25. When the service answers are well-shaped and no author of the batch
    has an empty list of affiliation entries, the call returns, and its
    output lists, in the order of the fetched batch and once each, the
    extractions of exactly those records of the batch whose company
    affiliations reach the threshold. *)
Theorem output_is_filtered_batch (entrez : entrez_service) (query : pystr)
    (min_companies max_results : Z) :
  answers_ok entrez query max_results = true →
  forallb paper_ok (fetched_batch entrez query max_results) = true →
  ∃ kept,
    fetch_and_filter_papers entrez query min_companies max_results = Ok kept ∧
    Forall2 (λ paper data, extract_paper paper = Ok data)
            (filter (λ paper, (min_companies ≤ company_affiliations (article_of paper))%Z)
                    (fetched_batch entrez query max_results))
            kept.
Proof. apply fetch_and_filter_papers_ok. Qed.

Lemma output_is_filtered_batch_witness :
  answers_ok test_entrez "test query" 100 = true ∧
  forallb paper_ok (fetched_batch test_entrez "test query" 100) = true ∧
  ∃ kept,
    fetch_and_filter_papers test_entrez "test query" 2 100 = Ok kept ∧
    Forall2 (λ paper data, extract_paper paper = Ok data)
            (filter (λ paper, (2 ≤ company_affiliations (article_of paper))%Z)
                    (fetched_batch test_entrez "test query" 100))
            kept.
Proof.
  split; [reflexivity|]. split; [reflexivity|].
  apply (output_is_filtered_batch test_entrez "test query" 2 100); reflexivity.
Defined.

(** X26. When the service answers are well-shaped and no author of the batch
    has an empty list of affiliation entries, every record of the fetched
    batch is extracted with, as its affiliations, the record-level
    affiliations of the specification (every affiliation text of every entry
    of every author, without repetition, in some order), and its extraction
    is in the output exactly when the number of those affiliations that the
    classifier calls companies reaches the threshold. *)
Theorem record_retained_iff_threshold (entrez : entrez_service) (query : pystr)
    (min_companies max_results : Z) :
  answers_ok entrez query max_results = true →
  forallb paper_ok (fetched_batch entrez query max_results) = true →
  ∃ kept,
    fetch_and_filter_papers entrez query min_companies max_results = Ok kept ∧
    ∀ paper, paper ∈ fetched_batch entrez query max_results →
      ∃ data,
        extract_paper paper = Ok data ∧
        affiliations data ≡ₚ Some <$> record_affiliations (article_of paper) ∧
        (data ∈ kept ↔ (min_companies ≤ company_affiliations (article_of paper))%Z).
Proof.
  intros Hanswers Hbatch.
  destruct (fetch_and_filter_papers_ok entrez query min_companies max_results
              Hanswers Hbatch) as (kept & Hfetch & Hkept).
  exists kept. split; [done|]. intros paper Hpaper.
  assert (∀ p, p ∈ fetched_batch entrez query max_results → paper_ok p = true) as Hok.
  { intros p Hp%list_elem_of_In. by apply (proj1 (forallb_forall _ _) Hbatch). }
  destruct (extract_paper_ok paper (Hok _ Hpaper)) as (data & Hdata & Haffs).
  exists data. split; [done|]. split; [done|]. split.
  - intros [i Hi]%list_elem_of_lookup_1.
    destruct (Forall2_lookup_r _ _ _ _ _ Hkept Hi) as (paper' & Hi' & Hdata').
    apply list_elem_of_lookup_2, list_elem_of_filter in Hi' as [Hle Hpaper'].
    destruct (extract_paper_ok paper' (Hok _ Hpaper')) as (data' & Hdata'' & Haffs').
    assert (data' = data) as -> by congruence.
    apply company_count_record in Haffs, Haffs'. congruence.
  - intros Hle.
    assert (paper ∈ filter (λ paper, (min_companies ≤ company_affiliations (article_of paper))%Z)
                           (fetched_batch entrez query max_results)) as [i Hi]%list_elem_of_lookup_1
      by (by apply list_elem_of_filter).
    destruct (Forall2_lookup_l _ _ _ _ _ Hkept Hi) as (data' & Hi' & Hdata').
    assert (data' = data) as -> by congruence.
    by apply list_elem_of_lookup_2 in Hi'.
Qed.

Lemma record_retained_iff_threshold_witness :
  answers_ok test_entrez "test query" 100 = true ∧
  forallb paper_ok (fetched_batch test_entrez "test query" 100) = true ∧
  ∃ kept,
    fetch_and_filter_papers test_entrez "test query" 1 100 = Ok kept ∧
    ∀ paper, paper ∈ fetched_batch test_entrez "test query" 100 →
      ∃ data,
        extract_paper paper = Ok data ∧
        affiliations data ≡ₚ Some <$> record_affiliations (article_of paper) ∧
        (data ∈ kept ↔ (1 ≤ company_affiliations (article_of paper))%Z).
Proof.
  split; [reflexivity|]. split; [reflexivity|].
  apply (record_retained_iff_threshold test_entrez "test query" 1 100); reflexivity.
Defined.

(** The end-to-end scenarios: the test of the repository keeps its record at
    threshold 1; of the two records of [test_entrez], with one and two
    company affiliations, threshold 2 keeps the second only. *)
Example test_fetch_and_filter_papers :
  company_affiliations (article_of test_paper) = 1%Z ∧
  record_affiliations (article_of mixed_paper) =
    [ "Harvard University"; "Moderna Therapeutics"; "BioNTech GmbH" ] ∧
  company_affiliations (article_of mixed_paper) = 2%Z ∧
  returned_pmids (fetch_and_filter_papers test_entrez "test query"
                    default_min_companies default_max_results)
    = Ok [ VStr "12345"; VStr "67890" ] ∧
  returned_pmids (fetch_and_filter_papers test_entrez "test query" 2 100)
    = Ok [ VStr "67890" ] ∧
  returned_pmids (fetch_and_filter_papers test_entrez "test query" 3 100)
    = Ok [].
Proof. repeat split; reflexivity. Qed.

(** ** api.py: a batch with an unaffiliated author *)

Lemma extract_test_paper :
  ∃ data, extract_paper test_paper = Ok data ∧
          affiliations data = [ Some "Pfizer Inc." ] ∧
          company_count (affiliations data) = Ok 1%Z.
Proof.
  destruct (extract_paper test_paper) as [data|e] eqn:E; [|vm_compute in E; discriminate E].
  exists data. split; [reflexivity|].
  vm_compute in E. injection E as <-. split; vm_compute; reflexivity.
Qed.

Lemma extract_unaffiliated_paper : extract_paper unaffiliated_paper = Raise IndexError.
Proof. vm_compute. reflexivity. Qed.

Lemma partly_unaffiliated_raises (query : pystr) (min_companies max_results : Z) :
  fetch_and_filter_papers partly_unaffiliated_entrez query min_companies max_results
    = Raise IndexError.
Proof.
  unfold fetch_and_filter_papers.
  change (esearch partly_unaffiliated_entrez query max_results)
    with (VDict [ ("IdList", VList [ VStr "12345"; VStr "99999" ]) ]).
  change (py_getitem (VDict [ ("IdList", VList [ VStr "12345"; VStr "99999" ]) ]) "IdList")
    with (Ok (VList [ VStr "12345"; VStr "99999" ]) : result pyval).
  cbn [mbind result_bind py_truthy negb].
  change (py_getitem (efetch partly_unaffiliated_entrez _) "PubmedArticle" ≫= py_iter)
    with (Ok [ test_paper; unaffiliated_paper ] : result (list pyval)).
  cbn [mbind result_bind filter_papers].
  destruct extract_test_paper as (data & Hdata & _ & Hcount).
  rewrite Hdata. cbn [mbind result_bind]. rewrite Hcount. cbn [mbind result_bind].
  rewrite extract_unaffiliated_paper.
  by destruct (min_companies <=? 1)%Z.
Qed.

(** C5 fails on the batch of [partly_unaffiliated_entrez], at the default
    threshold 1.  The batch holds the record of the test, whose one
    record-level affiliation, Pfizer Inc., the classifier calls a company,
    followed by a record with an author without affiliation entries.  The
    first record reaches the threshold and its extraction returns, yet it is
    not retained: the call has no output, it raises [IndexError] out of the
    extraction of the second record. *)
Theorem qualifying_record_not_retained :
  fetched_batch partly_unaffiliated_entrez "test query" 100
    = [ test_paper; unaffiliated_paper ] ∧
  record_affiliations (article_of test_paper) = [ "Pfizer Inc." ] ∧
  (default_min_companies ≤ company_affiliations (article_of test_paper))%Z ∧
  (∃ data, extract_paper test_paper = Ok data) ∧
  fetch_and_filter_papers partly_unaffiliated_entrez "test query" default_min_companies 100
    = Raise IndexError.
Proof.
  split; [reflexivity|]. split; [vm_compute; reflexivity|].
  split; [vm_compute; discriminate|]. split.
  - destruct extract_test_paper as (data & H & _). by exists data.
  - apply partly_unaffiliated_raises.
Qed.

(** C10 fails on the same batch for every query and every threshold: the
    records of the fetched batch that reach the threshold 1 are the one
    record of the test, and those that reach the threshold 0 are both
    records, but the call returns no list at all, whatever the threshold; it
    raises [IndexError]. *)
Theorem no_output_for_unaffiliated_author (query : pystr) (min_companies max_results : Z) :
  filter (λ paper, (1 ≤ company_affiliations (article_of paper))%Z)
         (fetched_batch partly_unaffiliated_entrez query max_results)
    = [ test_paper ] ∧
  filter (λ paper, (0 ≤ company_affiliations (article_of paper))%Z)
         (fetched_batch partly_unaffiliated_entrez query max_results)
    = [ test_paper; unaffiliated_paper ] ∧
  fetch_and_filter_papers partly_unaffiliated_entrez query min_companies max_results
    = Raise IndexError.
Proof.
  split; [vm_compute; reflexivity|]. split; [vm_compute; reflexivity|].
  apply partly_unaffiliated_raises.
Qed.

(** ** filters.py: more about the keyword lists *)

Lemma str_contains_trans (a b c : pystr) :
  str_contains a b = true → str_contains b c = true → str_contains a c = true.
Proof.
  rewrite !str_contains_app. intros (p1 & q1 & ->) (p2 & q2 & ->).
  exists (p2 ++ p1), (q1 ++ q2). by rewrite !str_app_assoc.
Qed.

Lemma str_contains_absent (a b u : pystr) :
  str_contains a b = true → str_contains a u = false → str_contains b u = false.
Proof.
  intros Hab Hau. destruct (str_contains b u) eqn:Hbu; [|done].
  by rewrite (str_contains_trans a b u Hab Hbu) in Hau.
Qed.

(** The loop over the company keywords finds one exactly when the loop over
    the twelve core keywords does: each of the other five holds a core
    keyword. *)
Lemma first_keyword_in_core (u : pystr) :
  first_keyword_in company_keywords u = None ↔
  first_keyword_in core_company_keywords u = None.
Proof.
  rewrite !first_keyword_in_None, <- !Forall_forall.
  unfold company_keywords, core_company_keywords.
  rewrite !Forall_cons, !Forall_nil. split.
  - tauto.
  - intros (HInc & HLtd & HLLC & HGmbH & HPharma & HBiotech & HTher & HCo & HBios &
            HLabs & HLabo & HTech & _).
    repeat split; try done.
    + by apply (str_contains_absent (str_upper "Co")).
    + by apply (str_contains_absent (str_upper "Co")).
    + by apply (str_contains_absent (str_upper "Co")).
    + by apply (str_contains_absent (str_upper "Pharma")).
    + by apply (str_contains_absent (str_upper "Biotech")).
Qed.

(** X1. Five of the seventeen company keywords never decide a verdict:
    without Corporation, Corp, Company, Pharmaceuticals and Biotechnology the
    classifier gives the same answer on every string. *)
Theorem company_keywords_redundant (affiliation : pystr) :
  is_company_affiliated affiliation =
  classify_with non_company_keywords core_company_keywords affiliation.
Proof.
  unfold is_company_affiliated, classify_with.
  destruct (first_keyword_in non_company_keywords _); [done|].
  pose proof (first_keyword_in_core (str_upper affiliation)) as H.
  destruct (first_keyword_in company_keywords _),
           (first_keyword_in core_company_keywords _); try done.
  - discriminate (proj2 H eq_refl).
  - discriminate (proj1 H eq_refl).
Qed.

Lemma contains_ci_embedded (pre s post keyword : pystr) :
  contains_ci s keyword → contains_ci (pre ++ s ++ post) keyword.
Proof.
  intros (p & mid & q & -> & Hmid).
  exists (pre ++ p), mid, (q ++ post). split; [|done].
  by rewrite !str_app_assoc.
Qed.

(** X2. Text around an affiliation cannot turn a non-company verdict into a
    company one: a string that holds, anywhere inside, a piece with a
    non-company keyword is classified [false]. *)
Theorem non_company_piece_wins (pre s post : pystr) :
  has_keyword_ci non_company_keywords s →
  is_company_affiliated (pre ++ s ++ post) = false.
Proof.
  intros (keyword & Hin & Hs).
  assert (has_keyword_ci non_company_keywords (pre ++ s ++ post)) as H.
  { exists keyword. split; [done|]. by apply contains_ci_embedded. }
  apply first_keyword_in_ci in H as [k Hk]. unfold is_company_affiliated.
  by rewrite Hk.
Qed.

Lemma non_company_piece_wins_witness :
  is_company_affiliated "Acme Pharma Inc." = true ∧
  is_company_affiliated ("Acme Pharma Inc." ++ "; " ++ "Stanford Medical School") = false.
Proof.
  split; [reflexivity|].
  apply (non_company_piece_wins "Acme Pharma Inc.; " "Stanford Medical School" []).
  exists "School". split; [set_solver|].
  by exists "Stanford Medical ", "School", [].
Defined.

(** ** The pattern matcher: where a match begins and ends *)

Lemma count_char_app (c : N) (s t : pystr) :
  count_char c (s ++ t) = (count_char c s + count_char c t)%nat.
Proof. induction s as [|a s IH]; simpl; [done|]. rewrite IH. lia. Qed.

Lemma word_char_addr_char (c : N) : word_char c = true → addr_char c = true.
Proof. unfold addr_char. intros ->. done. Qed.

Lemma all_chars_impl (p q : N → bool) (s : pystr) :
  (∀ c, p c = true → q c = true) → all_chars p s = true → all_chars q s = true.
Proof.
  intros Hpq. induction s as [|c s IH]; simpl; [done|].
  intros [Hc Hs]%andb_true_iff. by rewrite (Hpq c Hc), (IH Hs).
Qed.

Lemma count_at_addr_chars (s : pystr) :
  all_chars addr_char s = true → count_char (code "@") s = 0%nat.
Proof.
  induction s as [|c s IH]; [done|]. cbn [count_char all_chars].
  intros [Hc Hs]%andb_true_iff. rewrite (IH Hs).
  destruct (N.eqb_spec (code "@") c) as [<-|]; [by vm_compute in Hc|done].
Qed.

Lemma last_char_app (s t : pystr) :
  t ≠ [] → last_char (s ++ t) = last_char t.
Proof.
  intros Ht. induction s as [|c s IH]; simpl; [done|].
  rewrite IH. destruct (s ++ t) eqn:E; [|done].
  destruct s; simpl in E; [done|discriminate].
Qed.

Lemma last_char_all (p : N → bool) (s : pystr) :
  s ≠ [] → all_chars p s = true → ∃ c, last_char s = Some c ∧ p c = true.
Proof.
  induction s as [|c s IH]; [done|]. intros _. simpl.
  intros [Hc Hs]%andb_true_iff. destruct s as [|c' s]; [by exists c|].
  by apply IH.
Qed.

(** An address has one [@] sign, is not empty and ends in a word
    character. *)
Lemma is_address_shape (m : pystr) :
  is_address m →
  count_char (code "@") m = 1%nat ∧ m ≠ [] ∧
  ∃ c, last_char m = Some c ∧ word_char c = true.
Proof.
  intros (local & domain & label & -> & Hl & Hla & Hd & Hda & Ht & Hta).
  split; [|split].
  - assert (all_chars addr_char label = true) as Hta'
      by (apply (all_chars_impl word_char); [apply word_char_addr_char|done]).
    rewrite !count_char_app, (count_at_addr_chars _ Hla), (count_at_addr_chars _ Hda),
      (count_at_addr_chars _ Hta').
    done.
  - by destruct local.
  - rewrite (last_char_app local), (last_char_app "@"), (last_char_app domain),
      (last_char_app ".").
    + by apply last_char_all.
    + done.
    + done.
    + by destruct domain.
    + done.
Qed.

(** With nothing after it, a greedy class runs to the first character outside
    the class. *)
Lemma re_star_runs_out (p : N → bool) (s : pystr) (n : nat) :
  re_star p (λ _, Some 0%nat) s = Some n →
  ∃ u rest, s = u ++ rest ∧ length u = n ∧
            ∀ c, first_char rest = Some c → p c = false.
Proof.
  revert n. induction s as [|c s IH]; intros n; simpl.
  - intros [= <-]. exists [], []. by repeat split.
  - destruct (p c) eqn:Hc.
    + destruct (re_star p (λ _, Some 0%nat) s) as [n'|] eqn:E.
      * intros [= <-]. destruct (IH n' eq_refl) as (u & rest & -> & <- & Hrest).
        by exists ((c :: u)), rest.
      * intros [= <-]. exists [], ((c :: s)). repeat split; try done.
        exfalso. clear IH. revert E. generalize s. clear.
        intros s. induction s as [|a s IH]; simpl; [done|].
        destruct (p a); [|done]. by destruct (re_star p (λ _, Some 0%nat) s).
    + intros [= <-]. exists [], ((c :: s)). repeat split; try done.
      by intros c' [= <-].
Qed.

(** A match of a pattern that ends in a greedy class stops before a character
    outside that class. *)
Lemma re_match_runs_out (re : list re_atom) (p : N → bool) (s : pystr) (n : nat) :
  last re = Some (RePlus p) →
  re_match re s = Some n →
  ∃ w rest, s = w ++ rest ∧ length w = n ∧
            ∀ c, first_char rest = Some c → p c = false.
Proof.
  revert s n. induction re as [|atom re IH]; intros s n; [done|].
  destruct re as [|atom' re].
  - intros [= ->]. simpl. destruct s as [|c s]; [done|].
    destruct (p c); [|done].
    destruct (re_star p (λ _, Some 0%nat) s) as [n'|] eqn:E; [|done].
    intros [= <-]. apply re_star_runs_out in E as (u & rest & -> & <- & Hrest).
    by exists ((c :: u)), rest.
  - intros Hlast. assert (last (atom' :: re) = Some (RePlus p)) as Hlast' by done.
    clear Hlast. revert IH Hlast'. generalize (atom' :: re). intros re' IH Hlast'.
    destruct atom as [q|q]; cbn [re_match]; destruct s as [|c s]; try done.
    + destruct (q c); [|done].
      destruct (re_match re' s) as [n'|] eqn:E; simpl; [|done]. intros [= <-].
      destruct (IH _ _ Hlast' E) as (w & rest & -> & <- & Hrest).
      by exists ((c :: w)), rest.
    + destruct (q c); [|done].
      destruct (re_star q (re_match re') s) as [n'|] eqn:E; simpl; [|done].
      intros [= <-]. apply re_star_sound in E as (u & rest' & m & -> & Hu & Hk & ->).
      destruct (IH _ _ Hlast' Hk) as (w & rest & -> & <- & Hrest).
      exists ((c :: u) ++ w), rest. split; [|split; [|done]].
      * simpl. by rewrite str_app_assoc.
      * simpl. by rewrite str_app_length.
Qed.

(** Where the e-mail pattern matches, it also matches one address character
    earlier. *)
Lemma email_match_extends_left (c : N) (s : pystr) :
  addr_char c = true →
  is_Some (re_match email_pattern s) →
  is_Some (re_match email_pattern ((c :: s))).
Proof.
  intros Hc [n Hn]. apply re_match_sound in Hn as (w & rest & -> & _ & Hw).
  apply email_pattern_lang in Hw
    as (local & domain & label & -> & Hl & Hla & Hd & Hda & Ht & Hta).
  apply (re_match_complete email_pattern
           ((c :: local) ++ "@" ++ domain ++ "." ++ label) rest).
  apply email_pattern_lang. exists ((c :: local)), domain, label.
  repeat split; try done. simpl. by rewrite Hc, Hla.
Qed.

Lemma re_search_email_bounds (text m : pystr) :
  re_search email_pattern text = Some m →
  ∃ pre post,
    text = pre ++ m ++ post ∧
    (∀ c, last_char pre = Some c → addr_char c = false) ∧
    (∀ c, first_char post = Some c → word_char c = false).
Proof.
  assert (∀ s n, re_match email_pattern s = Some n →
                 ∃ post, s = take n s ++ post ∧
                         ∀ c, first_char post = Some c → word_char c = false) as Hend.
  { intros s n Hn.
    apply (re_match_runs_out email_pattern word_char) in Hn
      as (w & rest & -> & <- & Hrest); [|done].
    exists rest. by rewrite substring_app. }
  induction text as [|a text IH]; cbn [re_search].
  - destruct (re_match email_pattern []) as [n|] eqn:E; [|done].
    intros [= <-]. destruct (Hend _ _ E) as (post & Hs & Hpost).
    by exists [], post.
  - destruct (re_match email_pattern ((a :: text))) as [n|] eqn:E.
    + intros [= <-]. destruct (Hend _ _ E) as (post & Hs & Hpost).
      by exists [], post.
    + intros Hm. destruct (IH Hm) as (pre & post & -> & Hpre & Hpost).
      exists ((a :: pre)), post. repeat split; try done.
      intros c Hc. destruct pre as [|b pre]; [|by apply Hpre].
      injection Hc as ->. destruct (addr_char c) eqn:Hac; [|done].
      assert (is_Some (re_match email_pattern ((c :: (m ++ post))))) as [n Hn].
      { apply email_match_extends_left; [done|].
        apply re_search_sound in Hm as [Hlang _].
        by apply re_match_complete. }
      change (re_match email_pattern ((c :: (m ++ post))) = None) in E.
      by rewrite Hn in E.
Qed.

(** X3. What the pattern finds in a text is a whole address: it has one [@]
    sign and ends in a word character, no address character stands before it
    in the text and no word character after it. *)
Theorem found_address_is_whole (text m : pystr) :
  re_search email_pattern text = Some m →
  count_char (code "@") m = 1%nat ∧
  (∃ c, last_char m = Some c ∧ word_char c = true) ∧
  ∃ pre post,
    text = pre ++ m ++ post ∧
    (∀ c, last_char pre = Some c → addr_char c = false) ∧
    (∀ c, first_char post = Some c → word_char c = false).
Proof.
  intros Hm. pose proof (re_search_sound _ _ _ Hm) as [Hlang%email_pattern_lang _].
  apply is_address_shape in Hlang as (Hcount & _ & Hlast).
  split; [done|]. split; [done|]. by apply re_search_email_bounds.
Qed.

Lemma found_address_is_whole_witness :
  re_search email_pattern "Write to <j.doe@lab.example.org>." = Some "j.doe@lab.example.org" ∧
  count_char (code "@") "j.doe@lab.example.org" = 1%nat.
Proof.
  split; [reflexivity|].
  apply (found_address_is_whole "Write to <j.doe@lab.example.org>." "j.doe@lab.example.org").
  reflexivity.
Defined.

(** ** api.py: more about the corresponding e-mail *)

Lemma for_first_Some {A B} (body : A → result (option B)) (xs : list A) (b : B) :
  for_first body xs = Ok (Some b) → ∃ x, x ∈ xs ∧ body x = Ok (Some b).
Proof.
  induction xs as [|x xs IH]; simpl; [done|].
  destruct (body x) as [[b'|]|e] eqn:E; simpl; try done.
  - intros [= <-]. exists x. split; [apply list_elem_of_here|done].
  - intros (y & Hy & Hb)%IH. exists y. split; [by apply list_elem_of_further|done].
Qed.

Lemma email_of_entry_found (aff : pyval) (m : pystr) :
  email_of_entry aff = Ok (Some m) → ∃ text, re_search email_pattern text = Some m.
Proof.
  unfold email_of_entry. destruct (py_get aff "Affiliation" (VStr "")) as [[|text| |]|e];
    simpl; try done.
  destruct (_ || _); [|done]. intros [= H]. by exists text.
Qed.

Lemma email_of_author_found (author : pyval) (m : pystr) :
  email_of_author author = Ok (Some m) → ∃ text, re_search email_pattern text = Some m.
Proof.
  unfold email_of_author. destruct (py_contains "AffiliationInfo" author) as [[|]|e];
    simpl; try done.
  destruct (py_getitem author "AffiliationInfo" ≫= py_iter) as [infos|e]; simpl; [|done].
  intros (aff & _ & Haff)%for_first_Some. by apply email_of_entry_found in Haff.
Qed.

Lemma extract_email_found (article : pyval) (m : pystr) :
  _extract_corresponding_email article = Ok (Some m) →
  ∃ text, re_search email_pattern text = Some m.
Proof.
  unfold _extract_corresponding_email, try_except.
  destruct (py_getitem article "AuthorList" ≫= py_iter) as [author_list|e]; simpl.
  - destruct (for_first email_of_author author_list) as [found|e] eqn:E.
    + intros [= ->]. apply for_first_Some in E as (author & _ & Hauthor).
      by apply email_of_author_found in Hauthor.
    + by destruct e.
  - by destruct e.
Qed.

(** X4. Whatever the record, an e-mail that the extractor returns is an
    address of the pattern's shape, with one [@] sign, not empty, ending in a
    word character. *)
Theorem extracted_email_is_address (article : pyval) (m : pystr) :
  _extract_corresponding_email article = Ok (Some m) →
  is_address m ∧ count_char (code "@") m = 1%nat ∧ m ≠ [] ∧
  ∃ c, last_char m = Some c ∧ word_char c = true.
Proof.
  intros [text Htext]%extract_email_found.
  apply re_search_sound in Htext as [Hm%email_pattern_lang _].
  split; [done|]. by apply is_address_shape.
Qed.

Lemma extracted_email_is_address_witness :
  _extract_corresponding_email article_with_contact = Ok (Some "jane.doe@biotech.com") ∧
  count_char (code "@") "jane.doe@biotech.com" = 1%nat.
Proof.
  split; [reflexivity|].
  apply (extracted_email_is_address article_with_contact "jane.doe@biotech.com").
  reflexivity.
Defined.

(** A text in which the pattern finds something has an [@] sign. *)
Lemma found_address_mentions (text m : pystr) :
  re_search email_pattern text = Some m → mentions_address text.
Proof.
  intros [Hm (pre & post & ->)]%re_search_sound.
  apply email_pattern_lang in Hm as (local & domain & label & -> & _).
  left. exists (pre ++ local), ((domain ++ "." ++ label) ++ post).
  by rewrite !str_app_assoc.
Qed.

Lemma first_address_unfiltered (texts : list pystr) :
  first_address (filter mentions_address texts) = first_address texts.
Proof.
  unfold first_address. induction texts as [|text texts IH]; [done|].
  rewrite filter_cons. simpl.
  destruct (re_search email_pattern text) as [m|] eqn:E.
  - rewrite decide_True by by apply (found_address_mentions text m). simpl.
    by rewrite E.
  - destruct (decide (mentions_address text)); [|done]. simpl. by rewrite E.
Qed.

(** X5. The pre-filter changes nothing: on a well-shaped record the extracted
    e-mail is the first address that the pattern finds in the affiliation
    texts, filtered or not. *)
Theorem email_prefilter_is_redundant (article : pyval) :
  authors_ok article = true →
  _extract_corresponding_email article = Ok (first_address (scanned_texts article)).
Proof.
  intros Hok. rewrite (extract_corresponding_email_ok _ Hok).
  by rewrite first_address_unfiltered.
Qed.

Lemma email_prefilter_is_redundant_witness :
  authors_ok article_with_contact = true ∧
  _extract_corresponding_email article_with_contact
    = Ok (first_address (scanned_texts article_with_contact)).
Proof.
  split; [reflexivity|].
  apply (email_prefilter_is_redundant article_with_contact). reflexivity.
Defined.

Lemma first_address_Some (texts : list pystr) (m : pystr) :
  first_address texts = Some m →
  ∃ text, text ∈ texts ∧ re_search email_pattern text = Some m.
Proof.
  unfold first_address. induction texts as [|text texts IH]; [done|]. simpl.
  destruct (re_search email_pattern text) as [m'|] eqn:E.
  - intros [= <-]. exists text. split; [apply list_elem_of_here|done].
  - intros (t & Ht & Hm)%IH. exists t. split; [by apply list_elem_of_further|done].
Qed.

Lemma scanned_text_is_affiliation (article : pyval) (text : pystr) :
  text ∈ scanned_texts article → text ≠ [] →
  text ∈ all_affiliation_texts article.
Proof.
  unfold scanned_texts, all_affiliation_texts.
  intros (author & Htext & Hauthor)%list_elem_of_bind Hne.
  apply list_elem_of_bind. exists author. split; [|done].
  apply list_elem_of_fmap in Htext as (aff & -> & Haff).
  apply list_elem_of_omap. exists aff. split; [done|].
  destruct (entry_text aff); [done|]. by destruct Hne.
Qed.

(** X6. On a well-shaped record the extracted e-mail is a piece of one of the
    record-level affiliations. *)
Theorem extracted_email_in_affiliation (article : pyval) (m : pystr) :
  authors_ok article = true →
  _extract_corresponding_email article = Ok (Some m) →
  ∃ text, text ∈ record_affiliations article ∧ str_contains m text = true.
Proof.
  intros Hok. rewrite (extract_corresponding_email_ok _ Hok), first_address_unfiltered.
  intros [= (text & Htext & Hm)%first_address_Some].
  exists text. split.
  - apply elem_of_remove_dups, scanned_text_is_affiliation; [done|].
    intros ->. by vm_compute in Hm.
  - apply re_search_sound in Hm as (_ & pre & post & ->).
    apply str_contains_app. by exists pre, post.
Qed.

Lemma extracted_email_in_affiliation_witness :
  authors_ok article_with_contact = true ∧
  ∃ text, text ∈ record_affiliations article_with_contact ∧
          str_contains "jane.doe@biotech.com" text = true.
Proof.
  split; [reflexivity|].
  apply (extracted_email_in_affiliation article_with_contact "jane.doe@biotech.com");
    reflexivity.
Defined.

(** ** api.py: more about the author list *)

Lemma author_entry_summary (author : pyval) :
  author_ok author = true →
  match field "AffiliationInfo" author with Some (VList []) => false | _ => true end = true →
  author_entry author = Ok (author_summary author).
Proof.
  destruct author as [| | |d]; try done.
  unfold author_ok, author_entry, author_summary, list_field. simpl.
  destruct (dict_lookup "AffiliationInfo" d) as [[| |[|[| | |e] infos]|]|]; try done.
Qed.

Lemma for_each_author_summaries (author_list : list pyval) (acc : list author_data) :
  forallb author_ok author_list = true →
  forallb (λ author, match field "AffiliationInfo" author with
                     | Some (VList []) => false
                     | _ => true
                     end) author_list = true →
  for_each (λ author authors,
              match author_entry author with
              | Ok entry => ((authors ++ [entry]), None)
              | Raise e => (authors, Some e)
              end) author_list acc
  = ((acc ++ (author_summary <$> author_list)), None).
Proof.
  revert acc. induction author_list as [|author author_list IH]; intros acc.
  - intros _ _. simpl. by rewrite app_nil_r.
  - cbn [for_each forallb].
    intros [Hauthor Hrest]%andb_true_iff [Hlisted Hlisted']%andb_true_iff.
    rewrite (author_entry_summary author Hauthor Hlisted), (IH _ Hrest Hlisted').
    by rewrite fmap_cons, <- app_assoc.
Qed.

Lemma extract_authors_summaries (article : pyval) :
  authors_ok article = true →
  affiliations_listed article = true →
  _extract_authors article = Ok (author_summary <$> list_field "AuthorList" article).
Proof.
  destruct article as [| | |d]; try done.
  unfold authors_ok, affiliations_listed, _extract_authors, list_field. simpl.
  destruct (dict_lookup "AuthorList" d) as [[| |author_list|]|]; try done; simpl.
  intros Hok Hlisted.
  by rewrite (for_each_author_summaries author_list [] Hok Hlisted).
Qed.

(** X7. On a well-shaped record in which no author has an empty affiliation
    list, the author list holds one entry per author, in order: the two
    names, and the text of the author's first affiliation entry only, each
    the empty string when missing. *)
Theorem authors_are_summaries (article : pyval) :
  authors_ok article = true →
  affiliations_listed article = true →
  _extract_authors article = Ok (author_summary <$> list_field "AuthorList" article).
Proof. apply extract_authors_summaries. Qed.

Lemma authors_are_summaries_witness :
  authors_ok (article_of mixed_paper) = true ∧
  affiliations_listed (article_of mixed_paper) = true ∧
  _extract_authors (article_of mixed_paper)
    = Ok (author_summary <$> list_field "AuthorList" (article_of mixed_paper)) ∧
  affiliation <$> (author_summary <$> list_field "AuthorList" (article_of mixed_paper))
    = [ VStr "Harvard University"; VStr "Moderna Therapeutics" ].
Proof.
  split; [reflexivity|]. split; [reflexivity|]. split; [|reflexivity].
  apply (authors_are_summaries (article_of mixed_paper)); reflexivity.
Defined.

Lemma for_each_author_stops (good : list pyval) (bad : pyval) (rest : list pyval)
    (acc : list author_data) (e : exn) :
  forallb author_ok good = true →
  forallb (λ author, match field "AffiliationInfo" author with
                     | Some (VList []) => false
                     | _ => true
                     end) good = true →
  author_entry bad = Raise e →
  for_each (λ author authors,
              match author_entry author with
              | Ok entry => ((authors ++ [entry]), None)
              | Raise e => (authors, Some e)
              end) (good ++ bad :: rest) acc
  = ((acc ++ (author_summary <$> good)), Some e).
Proof.
  revert acc. induction good as [|author good IH]; intros acc.
  - intros _ _ Hbad. simpl. by rewrite Hbad, app_nil_r.
  - cbn [for_each forallb app].
    intros [Hauthor Hrest]%andb_true_iff [Hlisted Hlisted']%andb_true_iff Hbad.
    rewrite (author_entry_summary author Hauthor Hlisted), (IH _ Hrest Hlisted' Hbad).
    by rewrite fmap_cons, <- app_assoc.
Qed.

(** X8. An author whose [AffiliationInfo] is a dict instead of a list ends
    the author list without an error: the entries of the authors before it
    are returned, and that author and all after it are dropped. *)
Theorem authors_cut_at_dict_affiliation
    (d : list (pystr * pyval)) (good : list pyval) (bad : pyval) (rest : list pyval)
    (info : list (pystr * pyval)) :
  dict_lookup "AuthorList" d = Some (VList (good ++ bad :: rest)) →
  forallb author_ok good = true →
  forallb (λ author, match field "AffiliationInfo" author with
                     | Some (VList []) => false
                     | _ => true
                     end) good = true →
  field "AffiliationInfo" bad = Some (VDict info) →
  _extract_authors (VDict d) = Ok (author_summary <$> good).
Proof.
  intros Hd Hok Hlisted Hbad. unfold _extract_authors. simpl. rewrite Hd. simpl.
  assert (author_entry bad = Raise KeyError) as Hraise.
  { destruct bad as [| | |b]; try done. unfold author_entry. simpl in *.
    by rewrite Hbad. }
  by rewrite (for_each_author_stops good bad rest [] KeyError Hok Hlisted Hraise).
Qed.

Lemma authors_cut_at_dict_affiliation_witness :
  _extract_authors article_with_dict_affiliation
  = Ok [ {| last_name := VStr "Roe"; first_name := VStr "";
            affiliation := VStr "Acme Labs" |} ].
Proof.
  apply (authors_cut_at_dict_affiliation
           [ ("AuthorList", VList [
                VDict [ ("LastName", VStr "Roe");
                        ("AffiliationInfo", VList [ VDict [ ("Affiliation", VStr "Acme Labs") ] ]) ];
                VDict [ ("LastName", VStr "Doe");
                        ("AffiliationInfo", VDict [ ("Affiliation", VStr "Acme Labs") ]) ];
                VDict [ ("LastName", VStr "Poe") ] ]) ]
           [ VDict [ ("LastName", VStr "Roe");
                     ("AffiliationInfo", VList [ VDict [ ("Affiliation", VStr "Acme Labs") ] ]) ] ]
           (VDict [ ("LastName", VStr "Doe");
                    ("AffiliationInfo", VDict [ ("Affiliation", VStr "Acme Labs") ]) ])
           [ VDict [ ("LastName", VStr "Poe") ] ]
           [ ("Affiliation", VStr "Acme Labs") ]); reflexivity.
Defined.

(** ** api.py: the fields of an extracted record *)

Lemma extract_paper_fields (paper : pyval) :
  paper_ok paper = true →
  ∃ data,
    extract_paper paper = Ok data ∧
    Some (pmid data) = field_path ["MedlineCitation"; "PMID"] paper ∧
    Some (title data) = field "ArticleTitle" (article_of paper) ∧
    authors data = author_summary <$> list_field "AuthorList" (article_of paper) ∧
    affiliations data ≡ₚ Some <$> record_affiliations (article_of paper) ∧
    corresponding_email data = first_address (scanned_texts (article_of paper)).
Proof.
  destruct paper as [| | |p]; try done. unfold paper_ok, extract_paper, article_of.
  cbn [field field_path py_getitem mbind result_bind].
  destruct (dict_lookup "MedlineCitation" p) as [[| | |citation]|]; try done.
  cbn [field field_path py_getitem mbind result_bind].
  destruct (dict_lookup "PMID" citation) as [id|]; try done.
  destruct (dict_lookup "Article" citation) as [article|]; try done.
  intros (((Htitle & Hdates)%andb_true_iff & Hauthors)%andb_true_iff & Hlisted)%andb_true_iff.
  apply bool_decide_eq_true in Htitle as [title Htitle].
  destruct article as [| | |a]; try done. simpl in Htitle.
  cbn [field field_path py_getitem mbind result_bind default]. rewrite Htitle.
  destruct (extract_publication_date_ok _ Hdates) as [date ->].
  rewrite (extract_authors_summaries _ Hauthors Hlisted).
  destruct (extract_affiliations_ok _ Hauthors) as (affs & -> & Haffs).
  rewrite (extract_corresponding_email_ok _ Hauthors), first_address_unfiltered.
  eexists. split; [done|]. by repeat split.
Qed.

Lemma summary_affiliation_is_text (article : pyval) (author : pyval) (text : pystr) :
  author ∈ list_field "AuthorList" article →
  affiliation (author_summary author) = VStr text → text ≠ [] →
  text ∈ all_affiliation_texts article.
Proof.
  intros Hauthor Haff Hne. unfold all_affiliation_texts.
  apply list_elem_of_bind. exists author. split; [|done].
  unfold author_summary in Haff. simpl in Haff.
  destruct (list_field "AffiliationInfo" author) as [|first infos]; [congruence|].
  apply list_elem_of_omap. exists first. split; [apply list_elem_of_here|].
  unfold entry_text. destruct (field "Affiliation" first) as [v|]; simpl in Haff.
  - by rewrite Haff.
  - congruence.
Qed.

(** X9. In a record extracted from a well-shaped item, every author's
    affiliation that is a non-empty text is one of the record's
    affiliations. *)
Theorem author_affiliation_in_record (paper : pyval) (data : paper_data)
    (entry : author_data) (text : pystr) :
  paper_ok paper = true →
  extract_paper paper = Ok data →
  entry ∈ authors data →
  affiliation entry = VStr text →
  text ≠ [] →
  Some text ∈ affiliations data.
Proof.
  intros Hok Hdata Hentry Haff Hne.
  destruct (extract_paper_fields paper Hok) as (data' & Hdata' & _ & _ & Hauthors & Haffs & _).
  assert (data' = data) as -> by congruence.
  rewrite Hauthors in Hentry. apply list_elem_of_fmap in Hentry as (author & -> & Hauthor).
  rewrite Haffs. apply list_elem_of_fmap. exists text. split; [done|].
  apply elem_of_remove_dups. by apply (summary_affiliation_is_text _ author).
Qed.

Lemma author_affiliation_in_record_witness :
  ∃ data,
    extract_paper mixed_paper = Ok data ∧
    Some "Moderna Therapeutics" ∈ affiliations data.
Proof.
  destruct (extract_paper mixed_paper) as [data|e] eqn:E; [|vm_compute in E; discriminate E].
  exists data. split; [done|].
  apply (author_affiliation_in_record mixed_paper data
           {| last_name := VStr "Kim"; first_name := VStr "";
              affiliation := VStr "Moderna Therapeutics" |}
           "Moderna Therapeutics"); try done.
  vm_compute in E. injection E as <-. set_solver.
Defined.

(** ** api.py: more about the filtering loop *)

Lemma company_count_bounds (affs : list (option pystr)) (n : Z) :
  company_count affs = Ok n →
  (0 ≤ n ≤ Z.of_nat (length affs))%Z ∧ is_Some (all_strings affs).
Proof.
  revert n. induction affs as [|[text|] affs IH]; intros n; simpl.
  - intros [= <-]. split; [lia|done].
  - destruct (company_count affs) as [n'|e]; simpl; [|done].
    destruct (IH n' eq_refl) as [Hn' [texts ->]].
    intros [= <-]. split; [|done]. destruct (is_company_affiliated text); lia.
  - done.
Qed.

(** What the loop returns, when it returns: every record was extracted and
    counted, and the extractions that reach the threshold were appended in
    order. *)
Lemma filter_papers_returns (papers : list pyval) (min_companies : Z)
    (filtered_papers out : list paper_data) :
  filter_papers papers min_companies filtered_papers = Ok out →
  ∃ datas,
    Forall2 (λ paper data, extract_paper paper = Ok data) papers datas ∧
    Forall (λ data, ∃ n, company_count (affiliations data) = Ok n) datas ∧
    out = (filtered_papers ++
           filter (λ data, reaches_threshold min_companies data = true) datas).
Proof.
  revert filtered_papers. induction papers as [|paper papers IH]; intros acc.
  - intros [= <-]. exists []. repeat split; try constructor. by rewrite app_nil_r.
  - cbn [filter_papers]. destruct (extract_paper paper) as [data|e] eqn:Hdata; [|done].
    cbn [mbind result_bind].
    destruct (company_count (affiliations data)) as [n|e] eqn:Hn; [|done].
    cbn [mbind result_bind]. intros Hout.
    assert (reaches_threshold min_companies data = (min_companies <=? n)%Z) as Hreach
      by (unfold reaches_threshold; by rewrite Hn).
    destruct (min_companies <=? n)%Z;
      destruct (IH _ Hout) as (datas & Hdatas & Hcounts & ->);
      exists (data :: datas); rewrite filter_cons, Hreach;
      (split; [by constructor|]); (split; [constructor; [by exists n|done]|]).
    + rewrite decide_True by done. by rewrite <- app_assoc.
    + by rewrite decide_False by done.
Qed.

Lemma filter_papers_extracted (papers : list pyval) (min_companies : Z)
    (filtered_papers datas : list paper_data) :
  Forall2 (λ paper data, extract_paper paper = Ok data) papers datas →
  Forall (λ data, ∃ n, company_count (affiliations data) = Ok n) datas →
  filter_papers papers min_companies filtered_papers =
  Ok (filtered_papers ++
      filter (λ data, reaches_threshold min_companies data = true) datas).
Proof.
  intros Hdatas. revert filtered_papers.
  induction Hdatas as [|paper data papers datas Hdata _ IH]; intros acc Hcounts.
  - simpl. by rewrite app_nil_r.
  - apply Forall_cons in Hcounts as [[n Hn] Hcounts].
    cbn [filter_papers]. rewrite Hdata. cbn [mbind result_bind]. rewrite Hn.
    cbn [mbind result_bind]. rewrite filter_cons.
    assert (reaches_threshold min_companies data = (min_companies <=? n)%Z) as Hreach
      by (unfold reaches_threshold; by rewrite Hn).
    destruct (min_companies <=? n)%Z.
    + rewrite decide_True, (IH _ Hcounts) by done. by rewrite <- app_assoc.
    + rewrite decide_False by (by rewrite Hreach). by apply IH.
Qed.

Lemma filter_papers_raises (papers : list pyval) (m1 m2 : Z)
    (acc1 acc2 : list paper_data) (e : exn) :
  filter_papers papers m1 acc1 = Raise e → filter_papers papers m2 acc2 = Raise e.
Proof.
  revert acc1 acc2. induction papers as [|paper papers IH]; intros acc1 acc2; [done|].
  cbn [filter_papers]. destruct (extract_paper paper) as [data|e']; [|done].
  cbn [mbind result_bind].
  destruct (company_count (affiliations data)) as [n|e']; [|done].
  cbn [mbind result_bind].
  destruct (m1 <=? n)%Z, (m2 <=? n)%Z; apply IH.
Qed.

Lemma filter_sublist {A} (P Q : A → Prop) `{∀ x, Decision (P x)} `{∀ x, Decision (Q x)}
    (l : list A) :
  (∀ x, P x → Q x) → filter P l `sublist_of` filter Q l.
Proof.
  intros HPQ. induction l as [|x l IH]; [done|].
  rewrite !filter_cons. destruct (decide (P x)) as [HP|HP].
  - rewrite decide_True by auto. by apply sublist_skip.
  - destruct (decide (Q x)); [by apply sublist_cons|done].
Qed.

Lemma reaches_threshold_mono (m1 m2 : Z) (data : paper_data) :
  (m1 ≤ m2)%Z → reaches_threshold m2 data = true → reaches_threshold m1 data = true.
Proof.
  unfold reaches_threshold. destruct (company_count (affiliations data)); [|done].
  intros Hle H%Z.leb_le. apply Z.leb_le. lia.
Qed.

(** What the call iterates over, when it returns, is the fetched batch. *)
Lemma fetch_and_filter_papers_returns (entrez : entrez_service) (query : pystr)
    (min_companies max_results : Z) (kept : list paper_data) :
  fetch_and_filter_papers entrez query min_companies max_results = Ok kept →
  filter_papers (fetched_batch entrez query max_results) min_companies [] = Ok kept.
Proof.
  unfold fetch_and_filter_papers, fetched_batch, list_field.
  destruct (esearch entrez query max_results) as [| | |record]; try done.
  cbn [field py_getitem mbind result_bind].
  destruct (dict_lookup "IdList" record) as [id_list|]; [|done].
  cbn [mbind result_bind]. destruct (py_truthy id_list); cbn [negb]; [|done].
  destruct (efetch entrez id_list) as [| | |answer]; try done.
  cbn [field py_getitem mbind result_bind].
  destruct (dict_lookup "PubmedArticle" answer) as [[|s|papers|d]|]; try done.
  - destruct s as [|c s]; [done|]. by cbn.
  - destruct d as [|[k v] d]; [done|]. by cbn.
Qed.

(** X10. Whenever the call returns, every record of the fetched batch was
    extracted without an error, and the output is the in-order list of those
    extractions whose company count reaches the threshold. *)
Theorem returned_output_is_filtered (entrez : entrez_service) (query : pystr)
    (min_companies max_results : Z) (kept : list paper_data) :
  fetch_and_filter_papers entrez query min_companies max_results = Ok kept →
  ∃ datas,
    Forall2 (λ paper data, extract_paper paper = Ok data)
            (fetched_batch entrez query max_results) datas ∧
    kept = filter (λ data, reaches_threshold min_companies data = true) datas.
Proof.
  intros Hkept%fetch_and_filter_papers_returns.
  destruct (filter_papers_returns _ _ _ _ Hkept) as (datas & Hdatas & _ & ->).
  by exists datas.
Qed.

Lemma returned_output_is_filtered_witness :
  returned_pmids (fetch_and_filter_papers test_entrez "test query" 2 100)
    = Ok [ VStr "67890" ] ∧
  ∃ kept datas,
    fetch_and_filter_papers test_entrez "test query" 2 100 = Ok kept ∧
    Forall2 (λ paper data, extract_paper paper = Ok data)
            (fetched_batch test_entrez "test query" 100) datas ∧
    kept = filter (λ data, reaches_threshold 2 data = true) datas.
Proof.
  split; [reflexivity|].
  destruct (fetch_and_filter_papers test_entrez "test query" 2 100) as [kept|e] eqn:E;
    [|vm_compute in E; discriminate E].
  exists kept.
  destruct (returned_output_is_filtered test_entrez "test query" 2 100 kept E)
    as (datas & Hdatas & Hkept).
  exists datas. split; [reflexivity|]. split; [exact Hdatas|exact Hkept].
Defined.

(** X11. Raising the threshold only removes records: if the call returns for
    a threshold, it returns for every higher one, with a sub-list (same
    order) of the first output. *)
Theorem higher_threshold_keeps_fewer (entrez : entrez_service) (query : pystr)
    (m1 m2 max_results : Z) (kept1 : list paper_data) :
  (m1 ≤ m2)%Z →
  fetch_and_filter_papers entrez query m1 max_results = Ok kept1 →
  ∃ kept2,
    fetch_and_filter_papers entrez query m2 max_results = Ok kept2 ∧
    kept2 `sublist_of` kept1.
Proof.
  intros Hle. unfold fetch_and_filter_papers.
  destruct (py_getitem (esearch entrez query max_results) "IdList") as [id_list|e];
    cbn [mbind result_bind]; [|done].
  destruct (py_truthy id_list); cbn [negb].
  - destruct (py_getitem (efetch entrez id_list) "PubmedArticle" ≫= py_iter) as [papers|e];
      cbn [mbind result_bind]; [|done].
    intros (datas & Hdatas & Hcounts & ->)%filter_papers_returns.
    rewrite (filter_papers_extracted papers m2 [] datas Hdatas Hcounts).
    eexists. split; [done|]. simpl. apply filter_sublist.
    intros data. by apply reaches_threshold_mono.
  - intros [= <-]. by exists [].
Qed.

Lemma higher_threshold_keeps_fewer_witness :
  ∃ kept1 kept2,
    fetch_and_filter_papers test_entrez "test query" 1 100 = Ok kept1 ∧
    fetch_and_filter_papers test_entrez "test query" 2 100 = Ok kept2 ∧
    kept2 `sublist_of` kept1.
Proof.
  destruct (fetch_and_filter_papers test_entrez "test query" 1 100) as [kept1|e] eqn:E;
    [|vm_compute in E; discriminate E].
  exists kept1.
  destruct (higher_threshold_keeps_fewer test_entrez "test query" 1 2 100 kept1)
    as (kept2 & Hkept2 & Hsub); [lia|exact E|].
  exists kept2. split; [reflexivity|]. split; [exact Hkept2|exact Hsub].
Defined.

(** X12. Whether the call fails, and with which exception, does not depend on
    the threshold. *)
Theorem failure_ignores_threshold (entrez : entrez_service) (query : pystr)
    (m1 m2 max_results : Z) (e : exn) :
  fetch_and_filter_papers entrez query m1 max_results = Raise e →
  fetch_and_filter_papers entrez query m2 max_results = Raise e.
Proof.
  unfold fetch_and_filter_papers.
  destruct (py_getitem (esearch entrez query max_results) "IdList") as [id_list|e'];
    cbn [mbind result_bind]; [|done].
  destruct (py_truthy id_list); cbn [negb]; [|done].
  destruct (py_getitem (efetch entrez id_list) "PubmedArticle" ≫= py_iter) as [papers|e'];
    cbn [mbind result_bind]; [|done].
  apply filter_papers_raises.
Qed.

Lemma failure_ignores_threshold_witness :
  fetch_and_filter_papers unaffiliated_entrez "test query" 1 100 = Raise IndexError ∧
  fetch_and_filter_papers unaffiliated_entrez "test query" 50 100 = Raise IndexError.
Proof.
  split; [reflexivity|].
  apply (failure_ignores_threshold unaffiliated_entrez "test query" 1 50 100 IndexError).
  reflexivity.
Defined.

(** X13. A threshold of zero or less filters nothing: when the call returns,
    its output holds the extraction of every record of the fetched batch, in
    order. *)
Theorem nonpositive_threshold_keeps_all (entrez : entrez_service) (query : pystr)
    (min_companies max_results : Z) (kept : list paper_data) :
  (min_companies ≤ 0)%Z →
  fetch_and_filter_papers entrez query min_companies max_results = Ok kept →
  Forall2 (λ paper data, extract_paper paper = Ok data)
          (fetched_batch entrez query max_results) kept.
Proof.
  intros Hmin Hkept%fetch_and_filter_papers_returns.
  destruct (filter_papers_returns _ _ _ _ Hkept) as (datas & Hdatas & Hcounts & ->).
  simpl. assert (filter (λ data, reaches_threshold min_companies data = true) datas = datas)
    as -> ; [|done].
  clear Hdatas Hkept. induction Hcounts as [|data datas [n Hn] _ IH]; [done|].
  assert (reaches_threshold min_companies data = true) as Hreach.
  { unfold reaches_threshold. rewrite Hn. apply Z.leb_le.
    apply company_count_bounds in Hn. lia. }
  rewrite filter_cons, decide_True by done. by rewrite IH.
Qed.

Lemma nonpositive_threshold_keeps_all_witness :
  returned_pmids (fetch_and_filter_papers test_entrez "test query" 0 100)
    = Ok [ VStr "12345"; VStr "67890" ] ∧
  ∃ kept,
    fetch_and_filter_papers test_entrez "test query" 0 100 = Ok kept ∧
    Forall2 (λ paper data, extract_paper paper = Ok data)
            (fetched_batch test_entrez "test query" 100) kept.
Proof.
  split; [reflexivity|].
  destruct (fetch_and_filter_papers test_entrez "test query" 0 100) as [kept|e] eqn:E;
    [|vm_compute in E; discriminate E].
  exists kept. split; [reflexivity|].
  apply (nonpositive_threshold_keeps_all test_entrez "test query" 0 100 kept);
    [lia|exact E].
Defined.

(** ** utils.py: the rows of the table *)

Lemma add_author_columns_beyond (i : nat) (authors : list author_data)
    (row : list (pystr * cell)) :
  (5 < i)%nat → add_author_columns i authors row = row.
Proof.
  revert i. induction authors as [|author authors IH]; intros i Hi; [done|].
  cbn [add_author_columns]. rewrite (proj2 (Nat.leb_gt i 5) Hi). apply IH. lia.
Qed.

(** X14. The row of a paper has its six fixed columns and a name and an
    affiliation column for each of the first five authors only, under
    pairwise distinct names; the author count is the full number of authors,
    also beyond five. *)
Theorem row_has_five_authors_at_most (paper : paper_data) (row : list (pystr * cell)) :
  flatten_paper paper = Ok row →
  length row = (6 + 2 * Nat.min 5 (length (authors paper)))%nat ∧
  NoDup row.*1 ∧
  row_get "Author Count" row = Some (CInt (Z.of_nat (length (authors paper)))) ∧
  row_get "Author6 Name" row = None.
Proof.
  unfold flatten_paper. destruct (str_join "; " (affiliations paper)) as [joined|e]; [|done].
  cbn [mbind result_bind mret result_ret]. intros [= <-].
  destruct (authors paper) as [|a1 [|a2 [|a3 [|a4 [|a5 rest]]]]];
    cbn [add_author_columns Nat.leb];
    rewrite ?add_author_columns_beyond by lia;
    (split; [|split; [|split]]); try reflexivity.
  all: try (vm_compute; repeat constructor; set_solver).
  all: cbn [length Nat.min]; lia.
Qed.

Lemma row_has_five_authors_at_most_witness :
  ∃ row,
    flatten_paper crowded_paper = Ok row ∧
    length row = 16%nat ∧
    row_get "Author Count" row = Some (CInt 7).
Proof.
  destruct (flatten_paper crowded_paper) as [row|e] eqn:E;
    [|vm_compute in E; discriminate E].
  exists row. split; [reflexivity|].
  destruct (row_has_five_authors_at_most crowded_paper row E) as (Hlen & _ & Hcount & _).
  split; [exact Hlen|exact Hcount].
Defined.

Lemma flatten_paper_strings (paper : paper_data) :
  is_Some (all_strings (affiliations paper)) → ∃ row, flatten_paper paper = Ok row.
Proof.
  intros [texts Htexts]. unfold flatten_paper, str_join. rewrite Htexts. by eexists.
Qed.

Lemma flatten_paper_email_column (paper : paper_data) (row : list (pystr * cell)) :
  flatten_paper paper = Ok row →
  row_get "Corresponding Email" row
  = Some (CVal (VStr (email_or_empty (corresponding_email paper)))).
Proof.
  unfold flatten_paper. destruct (str_join "; " (affiliations paper)) as [joined|e]; [|done].
  cbn [mbind result_bind mret result_ret]. intros [= <-].
  destruct (authors paper) as [|a1 [|a2 [|a3 [|a4 [|a5 rest]]]]];
    cbn [add_author_columns Nat.leb];
    rewrite ?add_author_columns_beyond by lia; reflexivity.
Qed.

Lemma flatten_papers_strings (papers : list paper_data)
    (flattened_data : list (list (pystr * cell))) :
  Forall (λ data, is_Some (all_strings (affiliations data))) papers →
  ∃ rows,
    flatten_papers papers flattened_data = Ok (flattened_data ++ rows) ∧
    length rows = length papers.
Proof.
  intros Hpapers. revert flattened_data.
  induction Hpapers as [|paper papers Hpaper _ IH]; intros acc.
  - exists []. by rewrite app_nil_r.
  - cbn [flatten_papers]. destruct (flatten_paper_strings paper Hpaper) as [row ->].
    cbn [mbind result_bind].
    destruct (IH (acc ++ [row])) as (rows & -> & Hlen).
    exists (row :: rows). split; [by rewrite <- app_assoc|]. simpl. by rewrite Hlen.
Qed.

Lemma returned_papers_strings (entrez : entrez_service) (query : pystr)
    (min_companies max_results : Z) (kept : list paper_data) :
  fetch_and_filter_papers entrez query min_companies max_results = Ok kept →
  Forall (λ data, is_Some (all_strings (affiliations data))) kept.
Proof.
  intros Hkept%fetch_and_filter_papers_returns.
  destruct (filter_papers_returns _ _ _ _ Hkept) as (datas & _ & Hcounts & ->).
  simpl. apply Forall_forall. intros data [_ Hdata]%list_elem_of_filter.
  destruct (proj1 (Forall_forall _ _) Hcounts data Hdata) as [n Hn].
  by apply company_count_bounds in Hn as [_ Hn].
Qed.

(** What is built from a returned list is built without an exception: only
    the writing of the file can raise. *)
Lemma save_returned_papers (to_csv : csv_writer) (entrez : entrez_service) (query : pystr)
    (min_companies max_results : Z) (kept : list paper_data) (filename : pystr) :
  fetch_and_filter_papers entrez query min_companies max_results = Ok kept →
  kept ≠ [] →
  ∃ rows,
    length rows = length kept ∧
    save_to_csv to_csv kept filename =
    match to_csv filename rows with
    | None => Ok (Some (filename, rows))
    | Some e => Raise e
    end.
Proof.
  intros Hkept%returned_papers_strings Hne.
  destruct (flatten_papers_strings kept [] Hkept) as (rows & Hrows & Hlen).
  exists rows. split; [done|]. unfold save_to_csv.
  destruct kept; [done|]. by rewrite Hrows.
Qed.

(** X15. Whatever [fetch_and_filter_papers] returns can be turned into rows:
    for a non-empty output [save_to_csv] builds one row per paper without an
    exception, so that it raises only when the writing of the file raises,
    with that exception, and otherwise has written those rows under the given
    file name. *)
Theorem returned_papers_can_be_saved (to_csv : csv_writer) (entrez : entrez_service)
    (query : pystr) (min_companies max_results : Z) (kept : list paper_data)
    (filename : pystr) :
  fetch_and_filter_papers entrez query min_companies max_results = Ok kept →
  kept ≠ [] →
  ∃ rows,
    length rows = length kept ∧
    save_to_csv to_csv kept filename =
    match to_csv filename rows with
    | None => Ok (Some (filename, rows))
    | Some e => Raise e
    end.
Proof. apply save_returned_papers. Qed.

Lemma returned_papers_can_be_saved_witness :
  ∃ kept (rows : list (list (pystr * cell))),
    fetch_and_filter_papers test_entrez "test query" 1 100 = Ok kept ∧
    length rows = length kept ∧
    save_to_csv unwritable kept "no_such_dir/out.csv" = Raise OSError.
Proof.
  destruct (fetch_and_filter_papers test_entrez "test query" 1 100) as [kept|e] eqn:E;
    [|by vm_compute in E].
  exists kept.
  destruct (returned_papers_can_be_saved unwritable test_entrez "test query" 1 100 kept
              "no_such_dir/out.csv")
    as (rows & Hlen & Hrows); [exact E| |].
  - intros ->. vm_compute in E. discriminate E.
  - exists rows. split; [reflexivity|]. split; [exact Hlen|exact Hrows].
Defined.

(** ** utils.py: the e-mail in the table and on the console *)

Lemma extract_paper_email (paper : pyval) (data : paper_data) (m : pystr) :
  extract_paper paper = Ok data →
  corresponding_email data = Some m →
  ∃ article, _extract_corresponding_email article = Ok (Some m).
Proof.
  unfold extract_paper.
  destruct (py_getitem paper "MedlineCitation" ≫= λ c, py_getitem c "Article")
    as [article|e]; cbn [mbind result_bind]; [|done].
  destruct (py_getitem paper "MedlineCitation" ≫= λ c, py_getitem c "PMID")
    as [id|e]; cbn [mbind result_bind]; [|done].
  destruct (py_getitem article "ArticleTitle") as [t|e]; cbn [mbind result_bind]; [|done].
  destruct (_extract_publication_date article) as [date|e]; cbn [mbind result_bind]; [|done].
  destruct (_extract_authors article) as [entries|e]; cbn [mbind result_bind]; [|done].
  destruct (_extract_affiliations article) as [affs|e]; cbn [mbind result_bind]; [|done].
  destruct (_extract_corresponding_email article) as [found|e] eqn:E;
    cbn [mbind result_bind]; [|done].
  intros [= <-]. simpl. intros ->. by exists article.
Qed.

Lemma fold_left_author_lines (authors : list author_data) (lines : list pystr) :
  fold_left (λ lines author, (lines ++ author_lines author)) authors lines
  = (lines ++ (authors ≫= author_lines)).
Proof.
  revert lines. induction authors as [|author authors IH]; intros lines.
  - simpl. by rewrite app_nil_r.
  - simpl. by rewrite IH, <- app_assoc.
Qed.

Lemma str_contains_concat (sep line : pystr) (before after : list pystr) :
  str_contains line (str_concat sep (before ++ line :: after)) = true.
Proof.
  apply str_contains_app. induction before as [|l before IH].
  - destruct after as [|l' after]; simpl.
    + exists [], []. simpl.
      clear. induction line as [|c line IH]; simpl; [done|]. by rewrite <- IH.
    + by exists [], (sep ++ str_concat sep (l' :: after)).
  - destruct IH as (pre & post & IH).
    exists (l ++ sep ++ pre), post.
    change ((l :: before) ++ line :: after) with (l :: (before ++ line :: after)).
    cbn [str_concat]. destruct (before ++ line :: after) eqn:E.
    + by destruct before.
    + rewrite IH. by rewrite !str_app_assoc.
Qed.

Lemma str_contains_tail (needle hay tail : pystr) :
  str_contains needle hay = true → str_contains needle (hay ++ tail) = true.
Proof.
  rewrite !str_contains_app. intros (pre & post & ->).
  exists pre, (post ++ tail). by rewrite !str_app_assoc.
Qed.

(** X16. An e-mail that was extracted is never hidden by the tests on it in
    [utils.py]: it is the value of the e-mail column of the paper's row, and
    the console block of the paper has the line that shows it. *)
Theorem extracted_email_is_shown (paper : pyval) (data : paper_data) (m : pystr)
    (row : list (pystr * cell)) :
  extract_paper paper = Ok data →
  corresponding_email data = Some m →
  flatten_paper data = Ok row →
  row_get "Corresponding Email" row = Some (CVal (VStr m)) ∧
  str_contains ("Corresponding Email: " ++ m) (format_paper_details data) = true.
Proof.
  intros Hdata Hm Hrow.
  destruct (extract_paper_email paper data m Hdata Hm) as [article Harticle].
  apply extract_email_found in Harticle as [text Htext].
  apply re_search_sound in Htext as [Hlang%email_pattern_lang _].
  apply is_address_shape in Hlang as (_ & Hne & _).
  destruct m as [|c m]; [done|]. split.
  - rewrite (flatten_paper_email_column data row Hrow). by rewrite Hm.
  - unfold format_paper_details. rewrite Hm, fold_left_author_lines.
    apply str_contains_tail.
    apply (str_contains_concat newline ("Corresponding Email: " ++ (c :: m))
             [ "PMID: " ++ py_str (pmid data); "Title: " ++ py_str (title data);
               "Publication Date: " ++ py_str (publication_date data) ]
             ((newline ++ "Authors:") :: (authors data ≫= author_lines))).
Qed.

Lemma extracted_email_is_shown_witness :
  ∃ data row,
    extract_paper contact_paper = Ok data ∧
    flatten_paper data = Ok row ∧
    row_get "Corresponding Email" row = Some (CVal (VStr "jane.doe@biotech.com")) ∧
    str_contains ("Corresponding Email: " ++ "jane.doe@biotech.com")
                 (format_paper_details data) = true.
Proof.
  destruct (extract_paper contact_paper) as [data|e] eqn:E;
    [|vm_compute in E; discriminate E].
  assert (corresponding_email data = Some "jane.doe@biotech.com") as Hm.
  { vm_compute in E. injection E as <-. reflexivity. }
  destruct (flatten_paper data) as [row|e] eqn:R.
  - exists data, row. split; [reflexivity|]. split; [exact R|].
    apply (extracted_email_is_shown contact_paper data "jane.doe@biotech.com" row E Hm R).
  - exfalso. vm_compute in E. injection E as <-. vm_compute in R. discriminate R.
Defined.

(** ** cli.py: how a run ends *)

Lemma init_default_rate (email_arg : option pystr) (environ : gmap pystr pystr) :
  (supplies_identifier email_arg ∨ supplies_identifier (environ !! "NCBI_EMAIL") →
   ∃ api, PubMedAPI__init__ email_arg environ 3 = Ok api) ∧
  (¬ (supplies_identifier email_arg ∨ supplies_identifier (environ !! "NCBI_EMAIL")) →
   PubMedAPI__init__ email_arg environ 3 = Raise ValueError).
Proof.
  unfold PubMedAPI__init__. rewrite <- py_or_supplies.
  destruct (py_or email_arg (environ !! "NCBI_EMAIL")) as [[|c s]|]; split; try done.
  - by intros (i & [= <-] & Hi).
  - intros _. by eexists.
  - intros H. exfalso. apply H. by eexists.
  - by intros (i & [=] & Hi).
Qed.

Lemma init_default_cases (email_arg : option pystr) (environ : gmap pystr pystr) :
  ((supplies_identifier email_arg ∨ supplies_identifier (environ !! "NCBI_EMAIL")) ∧
   ∃ api, PubMedAPI__init__ email_arg environ 3 = Ok api) ∨
  (¬ (supplies_identifier email_arg ∨ supplies_identifier (environ !! "NCBI_EMAIL")) ∧
   PubMedAPI__init__ email_arg environ 3 = Raise ValueError).
Proof.
  unfold PubMedAPI__init__. rewrite <- py_or_supplies.
  destruct (py_or email_arg (environ !! "NCBI_EMAIL")) as [[|c s]|].
  - right. split; [|done]. by intros (i & [= <-] & Hi).
  - left. split; by eexists.
  - right. split; [|done]. by intros (i & [=] & Hi).
Qed.

Lemma main_except_stdout (args : cli_args) (printed : list pystr) (message : pystr)
    (e : exn) :
  stdout (main_except args printed message e) = printed ∧
  written (main_except args printed message e) = None ∧
  ended (main_except args printed message e) ≠ Returned.
Proof. destruct e; simpl; repeat split; try done; by destruct (arg_debug args). Qed.

(** With a contact identifier at hand the two progress lines are printed
    first, whatever follows. *)
Lemma main_progress (describe : exn → pystr) (to_csv : csv_writer) (args : cli_args)
    (environ : gmap pystr pystr) (entrez : entrez_service) :
  supplies_identifier (arg_email args) ∨ supplies_identifier (environ !! "NCBI_EMAIL") →
  ∃ more, stdout (main describe to_csv args environ entrez)
          = ("Query: " ++ arg_query args) :: "Searching PubMed..." :: more.
Proof.
  intros [api Hapi]%(proj1 (init_default_rate _ _)). unfold main. rewrite Hapi.
  destruct (fetch_and_filter_papers _ _ _ _) as [[|paper papers]|e].
  - by eexists.
  - destruct (arg_file args) as [[|c s]|]; try by eexists.
    destruct (save_to_csv _ _ _) as [saved|e]; [by eexists|].
    rewrite (proj1 (main_except_stdout _ _ _ _)). by eexists.
  - rewrite (proj1 (main_except_stdout _ _ _ _)). by eexists.
Qed.

(** X17. A run prints nothing on standard output, prints the message that an
    e-mail address is required on standard error and exits with status 1
    exactly when neither the [--email] argument nor the environment supplies
    a contact identifier; the remote service and the file system play no part
    in that. *)
Theorem main_without_identifier (describe : exn → pystr) (to_csv : csv_writer)
    (args : cli_args) (environ : gmap pystr pystr) (entrez : entrez_service) :
  main describe to_csv args environ entrez
    = {| stdout := []; stderr := [ "Error: " ++ email_required ];
         written := None; ended := Exited 1 |}
  ↔ ¬ supplies_identifier (arg_email args) ∧
    ¬ supplies_identifier (environ !! "NCBI_EMAIL").
Proof.
  split.
  - intros Hrun.
    assert (¬ (supplies_identifier (arg_email args) ∨
               supplies_identifier (environ !! "NCBI_EMAIL"))) as H; [|tauto].
    intros [more Hmore]%(main_progress describe to_csv args environ entrez).
    by rewrite Hrun in Hmore.
  - intros [H1 H2]. unfold main.
    rewrite (proj2 (init_default_rate (arg_email args) environ)) by tauto. done.
Qed.

(** X18. When the fetch raises, the run has printed the two progress lines
    and written nothing; it exits with status 1, or, with [--debug] and an
    exception other than [ValueError], lets the exception through. *)
Theorem main_when_fetch_raises (describe : exn → pystr) (to_csv : csv_writer)
    (args : cli_args) (environ : gmap pystr pystr) (entrez : entrez_service) (e : exn) :
  supplies_identifier (arg_email args) ∨ supplies_identifier (environ !! "NCBI_EMAIL") →
  fetch_and_filter_papers entrez (arg_query args) (arg_min_companies args)
    (arg_max_results args) = Raise e →
  stdout (main describe to_csv args environ entrez)
    = [ "Query: " ++ arg_query args; "Searching PubMed..." ] ∧
  written (main describe to_csv args environ entrez) = None ∧
  ended (main describe to_csv args environ entrez)
    = match e with
      | ValueError => Exited 1
      | _ => if arg_debug args then Raised e else Exited 1
      end.
Proof.
  intros [api Hapi]%(proj1 (init_default_rate _ _)) Hfetch.
  unfold main. rewrite Hapi, Hfetch. by destruct e.
Qed.

Lemma main_when_fetch_raises_witness :
  ended (main (λ _, "") writable console_args {[ "NCBI_EMAIL" := "test@example.com" ]}
           unaffiliated_entrez)
    = Raised IndexError ∧
  ended (main (λ _, "") writable file_args ∅ unaffiliated_entrez) = Exited 1.
Proof.
  split.
  - apply (main_when_fetch_raises (λ _, "") writable console_args
             {[ "NCBI_EMAIL" := "test@example.com" ]} unaffiliated_entrez IndexError).
    + right. exists "test@example.com". split; [reflexivity|discriminate].
    + reflexivity.
  - apply (main_when_fetch_raises (λ _, "") writable file_args ∅ unaffiliated_entrez
             IndexError).
    + left. exists "test@example.com". split; [reflexivity|discriminate].
    + reflexivity.
Defined.

Lemma flatten_papers_length (papers : list paper_data)
    (flattened_data rows : list (list (pystr * cell))) :
  flatten_papers papers flattened_data = Ok rows →
  length rows = (length flattened_data + length papers)%nat.
Proof.
  revert flattened_data. induction papers as [|paper papers IH]; intros acc; simpl.
  - intros [= <-]. lia.
  - destruct (flatten_paper paper) as [row|e]; simpl; [|done].
    intros ->%IH. rewrite length_app. simpl. lia.
Qed.



(** X20. A file is written exactly when a contact identifier is at hand, a
    non-empty file name was given, the fetch returned at least one paper and
    the writing of the rows did not raise; the rows are those built from the
    returned papers, one for each. *)
Theorem main_writes_file_iff (describe : exn → pystr) (to_csv : csv_writer)
    (args : cli_args) (environ : gmap pystr pystr) (entrez : entrez_service)
    (filename : pystr) (rows : list (list (pystr * cell))) :
  written (main describe to_csv args environ entrez) = Some (filename, rows) ↔
  (supplies_identifier (arg_email args) ∨ supplies_identifier (environ !! "NCBI_EMAIL")) ∧
  arg_file args = Some filename ∧ filename ≠ [] ∧
  to_csv filename rows = None ∧
  ∃ kept,
    fetch_and_filter_papers entrez (arg_query args) (arg_min_companies args)
      (arg_max_results args) = Ok kept ∧
    kept ≠ [] ∧ flatten_papers kept [] = Ok rows ∧ length rows = length kept.
Proof.
  unfold main.
  destruct (init_default_cases (arg_email args) environ) as [[Hid [api ->]]|[Hid ->]].
  2: { simpl. split; [done|]. by intros [H _]. }
  destruct (fetch_and_filter_papers _ _ _ _) as [kept|e] eqn:Hkept.
  2: { rewrite (proj1 (proj2 (main_except_stdout args _ _ e))).
       split; [done|]. by intros (_ & _ & _ & _ & k & H & _). }
  destruct kept as [|paper papers].
  { simpl. split; [done|]. by intros (_ & _ & _ & _ & k & [= <-] & H & _). }
  destruct (arg_file args) as [[|c s]|].
  - simpl. split; [done|]. by intros (_ & [= <-] & H & _).
  - unfold save_to_csv.
    destruct (flatten_papers (paper :: papers) []) as [rows'|e] eqn:Hrows;
      cbn [mbind result_bind].
    + destruct (to_csv (c :: s) rows') as [e|] eqn:Hwrite.
      * rewrite (proj1 (proj2 (main_except_stdout args _ _ e))).
        split; [done|]. intros (_ & [= <-] & _ & Hw & k & [= <-] & _ & Hr & _).
        rewrite Hrows in Hr. injection Hr as <-. by rewrite Hw in Hwrite.
      * simpl. split.
        -- intros [= <- <-]. repeat split; try done.
           exists (paper :: papers). repeat split; try done.
           by apply flatten_papers_length in Hrows.
        -- intros (_ & [= <-] & _ & _ & k & [= <-] & _ & Hr & _).
           rewrite Hrows in Hr. by injection Hr as <-.
    + rewrite (proj1 (proj2 (main_except_stdout args _ _ e))).
      split; [done|]. intros (_ & _ & _ & _ & k & [= <-] & _ & Hr & _).
      by rewrite Hrows in Hr.
  - simpl. split; [done|]. by intros (_ & [=] & _).
Qed.

Lemma main_writes_file_iff_witness :
  ∃ rows, written (main (λ _, "") writable file_args ∅ test_entrez) = Some ("out.csv", rows) ∧
          written (main (λ _, "") unwritable file_args ∅ test_entrez) = None.
Proof.
  destruct (fetch_and_filter_papers test_entrez (arg_query file_args)
              (arg_min_companies file_args) (arg_max_results file_args))
    as [kept|e] eqn:E; [|vm_compute in E; discriminate E].
  destruct (flatten_papers kept []) as [rows|e] eqn:R;
    [|vm_compute in E; injection E as <-; vm_compute in R; discriminate R].
  exists rows. split; [|vm_compute; reflexivity].
  apply (proj2 (main_writes_file_iff (λ _, "") writable file_args ∅ test_entrez
                  "out.csv" rows)).
  split; [|split; [|split; [|split]]].
  - left. exists "test@example.com". split; [reflexivity|discriminate].
  - reflexivity.
  - discriminate.
  - reflexivity.
  - exists kept. split; [exact E|]. split; [|split; [exact R|]].
    + intros ->. vm_compute in E. discriminate E.
    + apply flatten_papers_length in R. exact R.
Defined.

(** ** api.py: what the extractors and the filter never let through *)

Lemma extract_affiliations_elements (article : pyval) (affs : list (option pystr)) :
  _extract_affiliations article = Ok affs →
  ∃ found : gset (option pystr), affs = elements found.
Proof.
  unfold _extract_affiliations.
  destruct (match py_getitem article "AuthorList" ≫= py_iter with
            | Ok author_list => _
            | Raise e => _
            end) as [found [[]|]]; intros [= <-]; by exists found.
Qed.

(** X22. A record (a dict) without an author list has no authors, no
    affiliations and no e-mail; none of the three extractors raises on it. *)
Theorem record_without_author_list (d : list (pystr * pyval)) :
  dict_lookup "AuthorList" d = None →
  _extract_authors (VDict d) = Ok [] ∧
  _extract_affiliations (VDict d) = Ok [] ∧
  _extract_corresponding_email (VDict d) = Ok None.
Proof.
  intros Hd.
  unfold _extract_authors, _extract_affiliations, _extract_corresponding_email, try_except.
  cbn [py_getitem]. rewrite Hd. cbn [mbind result_bind].
  by rewrite elements_empty.
Qed.

Lemma record_without_author_list_witness :
  _extract_authors (VDict [ ("ArticleTitle", VStr "Test Paper 1") ]) = Ok [] ∧
  _extract_affiliations (VDict [ ("ArticleTitle", VStr "Test Paper 1") ]) = Ok [] ∧
  _extract_corresponding_email (VDict [ ("ArticleTitle", VStr "Test Paper 1") ]) = Ok None.
Proof.
  apply (record_without_author_list [ ("ArticleTitle", VStr "Test Paper 1") ]).
  reflexivity.
Defined.

Lemma extract_paper_affiliations (paper : pyval) (data : paper_data) :
  extract_paper paper = Ok data →
  ∃ article, _extract_affiliations article = Ok (affiliations data).
Proof.
  unfold extract_paper.
  destruct (py_getitem paper "MedlineCitation" ≫= λ c, py_getitem c "Article")
    as [article|e]; cbn [mbind result_bind]; [|done].
  destruct (py_getitem paper "MedlineCitation" ≫= λ c, py_getitem c "PMID")
    as [id|e]; cbn [mbind result_bind]; [|done].
  destruct (py_getitem article "ArticleTitle") as [t|e]; cbn [mbind result_bind]; [|done].
  destruct (_extract_publication_date article) as [date|e]; cbn [mbind result_bind]; [|done].
  destruct (_extract_authors article) as [entries|e]; cbn [mbind result_bind]; [|done].
  destruct (_extract_affiliations article) as [affs|e] eqn:E;
    cbn [mbind result_bind]; [|done].
  destruct (_extract_corresponding_email article) as [found|e];
    cbn [mbind result_bind]; [|done].
  intros [= <-]. by exists article.
Qed.

Lemma all_strings_no_None (items : list (option pystr)) :
  is_Some (all_strings items) → None ∉ items.
Proof.
  induction items as [|[text|] items IH]; simpl.
  - intros _. apply not_elem_of_nil.
  - destruct (all_strings items); [|by intros [? [=]]].
    intros _ [[=]|H]%elem_of_cons. by apply IH.
  - by intros [? [=]].
Qed.

(** X23. Every paper that the call returns has pairwise distinct
    affiliations, all of them texts, and at least [min_companies] of them are
    company affiliations. *)
Theorem kept_paper_affiliations (entrez : entrez_service) (query : pystr)
    (min_companies max_results : Z) (kept : list paper_data) (data : paper_data) :
  fetch_and_filter_papers entrez query min_companies max_results = Ok kept →
  data ∈ kept →
  NoDup (affiliations data) ∧
  (None ∉ affiliations data) ∧
  ∃ count, company_count (affiliations data) = Ok count ∧
           (min_companies ≤ count ≤ Z.of_nat (length (affiliations data)))%Z.
Proof.
  intros Hkept%fetch_and_filter_papers_returns Hdata.
  destruct (filter_papers_returns _ _ _ _ Hkept) as (datas & Hdatas & Hcounts & ->).
  simpl in Hdata. apply list_elem_of_filter in Hdata as [Hreach Hdata].
  destruct (proj1 (Forall_forall _ _) Hcounts data Hdata) as [count Hcount].
  destruct (company_count_bounds _ _ Hcount) as [Hbounds Hstrings].
  split; [|split].
  - apply list_elem_of_lookup in Hdata as [i Hi].
    destruct (Forall2_lookup_r _ _ _ _ _ Hdatas Hi) as (paper & _ & Hpaper).
    destruct (extract_paper_affiliations _ _ Hpaper) as [article Harticle].
    destruct (extract_affiliations_elements _ _ Harticle) as [found ->].
    apply NoDup_elements.
  - by apply all_strings_no_None.
  - exists count. split; [done|]. unfold reaches_threshold in Hreach.
    rewrite Hcount in Hreach. apply Z.leb_le in Hreach. lia.
Qed.

Lemma kept_paper_affiliations_witness :
  ∃ kept data,
    fetch_and_filter_papers test_entrez "test query" 2 100 = Ok kept ∧
    head kept = Some data ∧
    NoDup (affiliations data) ∧
    (None ∉ affiliations data) ∧
    ∃ count, company_count (affiliations data) = Ok count ∧
             (2 ≤ count ≤ Z.of_nat (length (affiliations data)))%Z.
Proof.
  destruct (fetch_and_filter_papers test_entrez "test query" 2 100) as [kept|e] eqn:E;
    [|vm_compute in E; discriminate E].
  destruct kept as [|data rest]; [vm_compute in E; discriminate E|].
  exists (data :: rest), data. split; [reflexivity|]. split; [reflexivity|].
  apply (kept_paper_affiliations test_entrez "test query" 2 100 (data :: rest) data E).
  constructor.
Defined.
